(* ===== verification/_CoqProject ===== *)
-Q . S2P
Prelude.v
PyStr.v
Utf8.v
Csv.v
Iter.v
CsvIter.v
Dates.v
TripNumber.v
PyDict.v
Reducer.v
ReducerSpec.v
Xlsx.v
Endpoint.v
