(* ===== verification/Prelude.v ===== *)
(** * Verification of the driver-paperwork summariser (src/main.py)

    ** The program
    [src/main.py] is a Flask service.  [process] (the [/api/process] route)
    checks the upload, [process_csv] reads its text with [csv.reader] and
    reduces the rows to one summary row per driver, and pandas/openpyxl
    write the table as
    [Driver_Paperwork_Summary.xlsx].  [process_csv] walks the rows once,
    keeping three locals: [driver_data] (an insertion-ordered dict from driver
    name to {trip_id, truck, paperwork_date}), [current_driver] (set by a
    ["Driver: ..."] header row) and [latest_seen_truck].  It calls
    [compare_dates] (two [datetime.strptime(_, "%m/%d/%Y")], [False] on any
    error) and [extract_trip_number] ([int] of the digits, [0] on any error)
    to decide whether a data row replaces the stored record.

    ** The files
    - Prelude.v (this file): the exceptions the code can raise ([exn]), the
      error type [result] with its [let*] notation in [py_scope], list
      indexing [py_index], the hint databases [py], [py_rw], [zbool] and the
      tactics [destruct_result], [zbool], [zdiv_lia].
    - PyStr.v: the [str] built-ins the code calls ([strip], [split],
      [startswith], [lower], [endswith], [isdigit]) on Latin-1 code points,
      with CPython's character tables for that block.
    - Utf8.v, Module [Utf8]: [stream.read().decode("utf-8")] (line 26) as
      CPython's strict decoder ([utf8_decode] of
      Objects/stringlib/codecs.h) over byte values: lead and continuation
      ranges, the narrowed second byte after E0, ED, F0 and F4, the C
      code's shifts; a byte order mark is kept.  Beside it, the
      specification side: scalar values and the encoder [utf8_encode].
      Theorems: encoding then decoding is the identity on scalar values;
      the decoder yields scalar values only; a stray non-ASCII byte (a
      Latin-1 or Windows-1252 letter) raises [UnicodeDecodeError].
    - Csv.v, Module [CsvReader]: [csv.reader(io.StringIO(text))] (line
      26) as CPython's C parser (Modules/_csv.c, 3.12) in the [excel]
      dialect: the record [reader] and the [ParserState] machine
      [parse_process_char], [io.StringIO]'s lines ([stringio_lines]) and the
      successive [Reader_iternext] calls ([read_lines]); every [csv.Error]
      is [Raise CsvError].  Theorems: a table written with every field
      quoted reads back as itself; text without quotes reads as its lines
      split at commas; a lone carriage return and a field over
      [field_limit] raise.
    - Iter.v: Python's [for] statement over an iterator: the interface
      [PyIter] ([__next__], [StopIteration] as [Ok None]), the loop
      [for_in] with a bound on the number of [next] calls, one turn as
      the step relation [loop_step]; for an iterator whose [next]
      decreases a measure: enough fuel, well-founded iteration, a body
      that never raises turns until [next] stops ([loop_reaches_stop]),
      and the loop is the fold of the body over the items ([for_in_foldM]).
    - CsvIter.v, Module [CsvIter]: the reader as that iterator (line 31):
      [ReaderObj] (the dialect and the lines left) and [Reader_iternext]
      (parse_reset, lines until [START_RECORD], the end-of-input record),
      the [PyIter] instance and its measure (lines left).  Theorems: the
      loop over the reader ends, whatever its body; [list(reader)] by
      [next] calls is [csv_reader] (the bridge the endpoint's composition
      uses).
    - Dates.v, Module [Strptime]: [compare_dates] (lines 11-17).  The
      format compiles, as in CPython's [_strptime], to a regex; a regex node
      is the ordered list of its successes, so [strptime_mdY] takes the first
      backtracking match, rejects leftover text and checks the date as
      [datetime] does.  Beside it, [toordinal] (CPython's [_ymd2ord]: days
      since 0001-01-01) as the reference for "later".  Theorems:
      parse/render roundtrip, validity of every accepted date, agreement
      of [compare_dates] with the day count, error behaviour.
    - TripNumber.v, Module [TripNumber]: [extract_trip_number] (lines
      19-23), including CPython's default limit of 4300 digits for [int()]
      ([int_max_str_digits], the 3.11+ default).  Theorems: agreement with the
      spec's digit reading, bounds [0 <= n < 10^4300], the two ways it
      answers 0 on digits the spec would read.
    - PyDict.v: the dict interface the reducer uses, as the typeclass
      [PyDict] with its laws [PyDictLaws] under a representation invariant,
      generic consequences (key order after assignment and [setdefault],
      extensionality of [items]) and the association-list instance [assoc]
      that runs the model.
    - Reducer.v: [process_csv] (lines 25-84): the locals as the record
      [scan], the loop body [process_row] (lines 32-72) with the data-row
      branch [process_data_row] (lines 47-72), the fold [process_rows], the
      [DataFrame] [build_frame]; the spec's reading of a row ([fields_of_row],
      [header_name], [update_info]); the loop invariant [scan_wf].
    - ReducerSpec.v: the abstract specification.  The rows are read as
      events ([EvHeader], [EvData] for a data row of the driver in scope);
      [driver_record d] folds [update_info] over driver [d]'s own rows;
      [summary] lists drivers by first appearance.  The simulation relation
      [refines] and the lemmas that the loop preserves it; the per-driver
      invariant [best_so_far] (latest valid date, largest ordinal on the
      same date text) and the truck characterisation [last_truck].
      The end-to-end properties of [process_csv] (refinement, latest date,
      tie-break, truck, driver order, rows before the first header, a
      frame without columns exactly when no row is a header) are stated
      there, in Section [SpecProps]; the loop invariant and the findings
      on the reducer's guards (malformed dates, empty driver names, 14-cell
      rows, date spelling) are stated in Reducer.v.
    - Xlsx.v, Module [Xlsx]: [df.to_excel(writer, index=False,
      sheet_name="Summary")] (lines 96-97) as pandas' [ExcelFormatter]
      (size check, header row, body column by column: [formatted_cells])
      and openpyxl's [Cell._bind_value] ([bind_value]: truncation to 32767
      characters, [IllegalCharacterError] on control characters, formula
      and error-code typing); the sheet is the list of cells written.
      Theorems: the sheet reads back as the frame; one refused value makes
      the write raise; every stored string fits a cell.
    - Endpoint.v: the handler [process] (lines 86-104): reading the
      upload's text with [csv_reader] and reducing the rows
      ([process_csv_stream]), writing the frame ([respond]), and its
      properties; [process_csv_loop], lines 26-84 as they run, [next]
      calls interleaved with the loop body, and its equality with
      [process_csv_stream].

    ** What is proved
    [process_csv] refines the per-driver specification for every dict that
    satisfies the laws (ReducerSpec.process_csv_refines), so the loop never
    raises, the latest valid date wins, ties go to the largest trip ordinal,
    the truck is the last non-empty one, and drivers come in first-appearance
    order.  The loop invariant [scan_wf] holds from any state, whatever the
    history.  The date and trip-number helpers are characterised on their own.
    The upload decoder inverts UTF-8 encoding, yields only scalar values
    and refuses text saved in a single-byte code page.
    The loop of line 31 over the reader ends, keeps turning until the
    reader stops or raises (the body never raises), and gives the same
    result as reading every row first, which is how the endpoint's
    theorems read it.
    The CSV reader is characterised on quoted and on plain text, with its
    two error paths.  The endpoint rejects missing or misnamed uploads with
    400; otherwise it answers with the summary of the rows the reader
    yields, written to the sheet, and with a server error when the reader
    or the writer raises (a lone carriage return, a control character in a
    value), error paths the specification says do not exist.  A driver
    name starting with ["="] reaches the workbook as a formula, for every
    upload the reader and the writer accept.  [compare_dates] answers
    exactly "the first date is later in the calendar", as the day count
    [toordinal] measures it.

    ** Modelling choices and bounds
    Integers are Z (Python's are unbounded); the only bound the code meets
    are [int()]'s 4300-digit limit, [csv]'s 131072-character field limit
    and openpyxl's 32767-character cell limit and worksheet size, modelled
    as is.  Text is a Stdlib [string]
    of code points below 256; non-Latin-1 text (wider Unicode tables for
    [isspace], [isdigit], [\d], [lower]) is out of the model.  Every
    loop is structural recursion on a list or string except the [for]
    loop of line 31, whose number of [next(reader)] calls depends on the
    records: [for_in] takes a fuel, and one more call than the text has
    lines is enough, since each call that yields a row consumes at least
    one line (CsvIter.csv_reader_loop_terminates); with that fuel the loop
    never runs out (Endpoint.process_csv_for_loop).

    ** Not modelled
    The composition of the decoder with the reader: the decoder yields
    any code point, the reader's model reads code points below 256, so
    the endpoint starts from the decoded text.  The dialects other than [excel] are
    representable in [CsvReader.dialect] but only [excel] is studied.  The
    bytes of the xlsx archive (zip and XML written by openpyxl on
    [writer.close()]), the header cells' style and Flask's [send_file]
    (lines 95-104): the response carries the written sheet, its name, the
    download name and the MIME type.  The Flask app, CORS setup and server
    start (lines 8-9, 106-107): no logic. *)

From Stdlib Require Import Bool ZArith Lia.
From stdpp Require Import base list strings.

(** ** Python exceptions and the error monad *)

Declare Scope py_scope.
Delimit Scope py_scope with py.
Open Scope py_scope.

(** The exceptions that the modelled statements of [src/main.py] can raise:
    [IndexError] for [row[i]] and [xs[i]] past the end of a list, [KeyError]
    for [driver_data[k]] on an absent key, [ValueError] for [strptime] and
    [int] on text they refuse, [CsvError] for [_csv.Error], which
    [csv.reader] raises on input its parser refuses, and
    [IllegalCharacterError] for the error openpyxl raises on a cell string
    holding a control character, [UnicodeDecodeError] for bytes that are
    not UTF-8. *)
Inductive exn :=
| IndexError | KeyError | ValueError | CsvError | IllegalCharacterError | UnicodeDecodeError.

#[export] Instance exn_eq_dec : EqDecision exn.
Proof. solve_decision. Defined.

(** A Python computation either returns a value or raises. *)
Inductive result (A : Type) : Type :=
| Ok (a : A)
| Raise (e : exn).
Arguments Ok {A} a.
Arguments Raise {A} e.

Notation "'let*' x ':=' c 'in' k" :=
  (match c with Ok x => k | Raise e => Raise e end)
  (at level 10, x name, c at level 100, k at level 200) : py_scope.

(** [xs[i]] for a non-negative index [i]. *)
Definition py_index {A} (xs : list A) (i : nat) : result A :=
  match xs !! i with
  | Some x => Ok x
  | None => Raise IndexError
  end.

(** Run [f] on every element in order, stopping at the first exception. *)
Fixpoint mapM {A B} (f : A → result B) (l : list A) : result (list B) :=
  match l with
  | [] => Ok []
  | x :: l => let* y := f x in let* ys := mapM f l in Ok (y :: ys)
  end.

(** [result] is [Ok] *)
Definition is_ok {A} (r : result A) : Prop := ∃ a, r = Ok a.

(** ** Shared lemmas *)

Create HintDb py discriminated.
Create Rewrite HintDb py_rw.

Lemma py_index_lt {A} (xs : list A) i :
  i < length xs → ∃ x, xs !! i = Some x ∧ py_index xs i = Ok x.
Proof.
  intros Hi. destruct (lookup_lt_is_Some_2 xs i Hi) as [x Hx].
  exists x. unfold py_index. by rewrite Hx.
Qed.

Lemma py_index_lookup {A} (xs : list A) i x :
  xs !! i = Some x → py_index xs i = Ok x.
Proof. intros H. unfold py_index. by rewrite H. Qed.

Lemma py_index_ge {A} (xs : list A) i :
  length xs ≤ i → py_index xs i = Raise IndexError.
Proof. intros H. unfold py_index. by rewrite lookup_ge_None_2. Qed.

Lemma bind_Ok {A B} (a : A) (k : A → result B) :
  (let* x := Ok a in k x) = k a.
Proof. reflexivity. Qed.

(** Sequencing two Python statements after a third is associative. *)
Lemma bind_assoc {A B C} (m : result A) (f : A → result B) (g : B → result C) :
  (let* y := (let* x := m in f x) in g y) = (let* x := m in let* y := f x in g y).
Proof. by destruct m. Qed.

Lemma mapM_Ok {A B} (f : A → result B) l ys :
  mapM f l = Ok ys ↔ Forall2 (λ x y, f x = Ok y) l ys.
Proof.
  revert ys. induction l as [|x l IH]; intros [|y ys]; simpl.
  - split; [constructor|done].
  - split; [done|intros H; inversion H].
  - split; [|intros H; inversion H]. destruct (f x); simpl; [destruct (mapM f l)|]; done.
  - rewrite Forall2_cons, <- IH. split.
    + destruct (f x); simpl; [|done]. destruct (mapM f l); simpl; [|done]. by intros [= -> ->].
    + intros [-> ->]. done.
Qed.

(** When [f] can only raise [e0] and raises on some element, so does
    [mapM f]. *)
Lemma mapM_Raise {A B} (f : A → result B) l e0 :
  (∀ x e, x ∈ l → f x = Raise e → e = e0) → (∃ x e, x ∈ l ∧ f x = Raise e) →
  mapM f l = Raise e0.
Proof.
  induction l as [|x l IH]; intros Hf (y & e & Hy & Hfy); [by apply elem_of_nil in Hy|].
  simpl. destruct (f x) as [z|e'] eqn:Ex.
  - apply elem_of_cons in Hy as [->|Hy]; [congruence|].
    rewrite IH; [done| |by exists y, e].
    intros. eapply Hf; [by apply elem_of_cons; right|done].
  - by rewrite (Hf x e') by (done || by apply elem_of_cons; left).
Qed.

Lemma mapM_Ok_exists {A B} (f : A → result B) l :
  (∀ x, x ∈ l → ∃ y, f x = Ok y) → ∃ ys, mapM f l = Ok ys.
Proof.
  induction l as [|x l IH]; intros Hf; [by exists []|].
  destruct (Hf x) as [y Hy]; [by apply elem_of_cons; left|].
  destruct IH as [ys Hys]; [intros; apply Hf; by apply elem_of_cons; right|].
  exists (y :: ys). simpl. by rewrite Hy, Hys.
Qed.

Lemma Forall2_elem_of_r {A B} (P : A → B → Prop) l k y :
  Forall2 P l k → y ∈ k → ∃ x, x ∈ l ∧ P x y.
Proof.
  induction 1 as [|x y' l k Hxy _ IH]; intros Hy; [by apply elem_of_nil in Hy|].
  apply elem_of_cons in Hy as [->|Hy]; [exists x; split; [apply elem_of_cons; by left|done]|].
  destruct (IH Hy) as (x' & ? & ?). exists x'. split; [apply elem_of_cons; by right|done].
Qed.

Lemma Forall2_elem_of_l {A B} (P : A → B → Prop) l k x :
  Forall2 P l k → x ∈ l → ∃ y, y ∈ k ∧ P x y.
Proof.
  induction 1 as [|x' y l k Hxy _ IH]; intros Hx; [by apply elem_of_nil in Hx|].
  apply elem_of_cons in Hx as [->|Hx]; [exists y; split; [apply elem_of_cons; by left|done]|].
  destruct (IH Hx) as (y' & ? & ?). exists y'. split; [apply elem_of_cons; by right|done].
Qed.

(** The pairs of a list with the positions [k], [k + 1], ... *)
Lemma elem_of_zip_seq {A} k (l : list A) i y :
  (i, y) ∈ zip (seq k (length l)) l ↔ ∃ j, i = k + j ∧ l !! j = Some y.
Proof.
  revert k. induction l as [|x l IH]; intros k; simpl.
  - split; [by intros ?%elem_of_nil|]. by intros (j & _ & ?).
  - rewrite elem_of_cons, IH. split.
    + intros [[= -> ->]|(j & -> & Hj)]; [by exists 0; rewrite Nat.add_0_r|].
      exists (S j). split; [lia|done].
    + intros ([|j] & -> & Hj); simpl in Hj; [left; simplify_eq; f_equal; lia|].
      right. exists j. split; [lia|done].
Qed.

#[export] Hint Resolve py_index_lookup : py.
#[export] Hint Rewrite @bind_Ok : py_rw.

(** [bool_decide] on a string equality, both ways. *)
Lemma bool_decide_string_eq_true (s t : string) : bool_decide (s = t) = true ↔ s = t.
Proof. apply bool_decide_eq_true. Qed.

Lemma bool_decide_string_eq_false (s t : string) : bool_decide (s = t) = false ↔ s ≠ t.
Proof. apply bool_decide_eq_false. Qed.

#[export] Hint Rewrite bool_decide_string_eq_true bool_decide_string_eq_false : py_rw.

(** Case on every [match] of a [result] in the goal. *)
Ltac destruct_result :=
  repeat match goal with
  | |- context [match ?r with Ok _ => _ | Raise _ => _ end] =>
      let E := fresh "Er" in destruct r eqn:E
  end.

(** Linear arithmetic with [/] and [mod] by constants. *)
Ltac zdiv_lia := Z.to_euclidean_division_equations; lia.

(** Boolean comparisons turned into propositions, for [lia]. *)
Create Rewrite HintDb zbool.
#[export] Hint Rewrite orb_true_iff andb_true_iff orb_false_iff andb_false_iff
  negb_true_iff negb_false_iff Z.ltb_lt Z.ltb_ge Z.leb_le Z.leb_gt Z.eqb_eq
  Z.eqb_neq Nat.leb_le Nat.leb_gt Nat.eqb_eq Nat.eqb_neq Nat.ltb_lt Nat.ltb_ge : zbool.
Ltac zbool := autorewrite with zbool in *.
