(* ===== verification/PyStr.v ===== *)
(** * Python [str] built-ins used by src/main.py

    A Python [str] is a sequence of code points.  The model keeps text whose
    code points are below 256 (the Latin-1 block), one Stdlib [ascii] per
    code point, and gives each built-in the meaning CPython gives it on that
    block: [isspace] also holds of U+001C..U+001F, U+0085 and U+00A0,
    [isdigit] also holds of the superscripts U+00B2, U+00B3 and U+00B9, and
    [lower] also maps U+00C0..U+00DE (but U+00D7) down by 32.  These are the
    library's semantics, not code of the repository, so they carry no map
    entry; the components that call them are mapped. *)

From Stdlib Require Import Ascii ZArith Lia.
From stdpp Require Import base list strings.
From S2P Require Import Prelude.


(** ** Character classes (CPython's tables restricted to U+0000..U+00FF) *)

Definition py_isspace (c : ascii) : bool :=
  let n := nat_of_ascii c in
  ((9 <=? n) && (n <=? 13)) || ((28 <=? n) && (n <=? 32))
  || (n =? 133) || (n =? 160).

(** [str.isdigit]: decimal digits and the Latin-1 superscript digits. *)
Definition py_isdigit (c : ascii) : bool :=
  let n := nat_of_ascii c in
  ((48 <=? n) && (n <=? 57)) || (n =? 178) || (n =? 179) || (n =? 185).

(** [str.isdecimal]: the characters [int()] accepts as digits. *)
Definition py_isdecimal (c : ascii) : bool :=
  let n := nat_of_ascii c in (48 <=? n) && (n <=? 57).

Definition py_lower_char (c : ascii) : ascii :=
  let n := nat_of_ascii c in
  if ((65 <=? n) && (n <=? 90))
     || ((192 <=? n) && (n <=? 222) && negb (n =? 215))
  then ascii_of_nat (n + 32) else c.

(** ** Operations on [str] *)


(** Truth value of a string: [bool(s)], i.e. [s != ""]. *)
Definition py_truthy (s : string) : bool := negb (bool_decide (s = "")).

Fixpoint py_lstrip (s : string) : string :=
  match s with
  | EmptyString => EmptyString
  | String c s' => if py_isspace c then py_lstrip s' else s
  end.

Fixpoint py_rstrip (s : string) : string :=
  match s with
  | EmptyString => EmptyString
  | String c s' =>
      let r := py_rstrip s' in
      if py_isspace c && bool_decide (r = EmptyString) then EmptyString
      else String c r
  end.

(** [s.strip()] *)
Definition py_strip (s : string) : string := py_rstrip (py_lstrip s).

(** [s.startswith(p)] *)
Definition py_startswith (s p : string) : bool := String.prefix p s.

(** [s.split(sep)] for a one-character separator: never an empty list. *)
Fixpoint py_split (sep : ascii) (s : string) : list string :=
  match s with
  | EmptyString => [EmptyString]
  | String c s' =>
      let parts := py_split sep s' in
      if bool_decide (c = sep) then EmptyString :: parts
      else match parts with
           | p :: ps => String c p :: ps
           | [] => [String c EmptyString]
           end
  end.

(** [s.split(sep, 1)] for a one-character separator. *)
Fixpoint py_split1 (sep : ascii) (s : string) : list string :=
  match s with
  | EmptyString => [EmptyString]
  | String c s' =>
      if bool_decide (c = sep) then [EmptyString; s']
      else match py_split1 sep s' with
           | p :: ps => String c p :: ps
           | [] => [String c EmptyString]
           end
  end.

Fixpoint py_lower (s : string) : string :=
  match s with
  | EmptyString => EmptyString
  | String c s' => String (py_lower_char c) (py_lower s')
  end.

(** [s.endswith(suf)] *)
Definition py_endswith (s suf : string) : bool :=
  let n := String.length s in
  let m := String.length suf in
  (m <=? n) && bool_decide (String.substring (n - m) m s = suf).

(** [filter(pred, s)] joined back into a string. *)
Fixpoint str_filter (p : ascii → bool) (s : string) : string :=
  match s with
  | EmptyString => EmptyString
  | String c s' => if p c then String c (str_filter p s') else str_filter p s'
  end.

(** [all(p(c) for c in s)] *)
Fixpoint str_forallb (p : ascii → bool) (s : string) : bool :=
  match s with
  | EmptyString => true
  | String c s' => p c && str_forallb p s'
  end.

(** The value of a decimal digit character ([ord(c) - ord("0")]). *)
Definition digit_value (c : ascii) : Z := Z.of_nat (nat_of_ascii c) - 48.

(** ** Lemmas the components share *)

Lemma py_split_not_nil sep s : py_split sep s ≠ [].
Proof.
  destruct s as [|c s']; simpl; [done|].
  case_bool_decide; [done|]. by destruct (py_split sep s').
Qed.

Lemma py_split1_not_nil sep s : py_split1 sep s ≠ [].
Proof.
  destruct s as [|c s']; simpl; [done|].
  case_bool_decide; [done|]. by destruct (py_split1 sep s').
Qed.

(** The first piece of [s.split(sep)] always exists. *)
Lemma py_split_index0 sep s : ∃ p, py_index (py_split sep s) 0 = Ok p.
Proof.
  destruct (py_split sep s) as [|p ps] eqn:E; [by destruct (py_split_not_nil sep s)|].
  by exists p.
Qed.

Lemma prefix_app (p s : string) : String.prefix p s = true → ∃ r, s = p +:+ r.
Proof.
  revert s. induction p as [|c p IH]; intros s H.
  - by exists s.
  - destruct s as [|c' s]; [discriminate|]. cbn [String.prefix] in H.
    destruct (ascii_dec c c') as [->|]; [|discriminate].
    destruct (IH s H) as [r ->]. exists r. reflexivity.
Qed.

Lemma py_startswith_app (p r : string) : py_startswith (p +:+ r) p = true.
Proof.
  unfold py_startswith. induction p as [|c p IH]; [by destruct r|].
  change (String c p +:+ r) with (String c (p +:+ r)). cbn [String.prefix].
  destruct (ascii_dec c c); [exact IH | congruence].
Qed.

Lemma digit_value_decimal c : py_isdecimal c = true → (0 ≤ digit_value c ≤ 9)%Z.
Proof. unfold py_isdecimal, digit_value. zbool. lia. Qed.

Lemma py_isdecimal_isdigit c : py_isdecimal c = true → py_isdigit c = true.
Proof. unfold py_isdecimal, py_isdigit. zbool. lia. Qed.

(** When every kept digit is decimal, [filter(str.isdigit, s)] is
    [filter(str.isdecimal, s)]. *)
Lemma str_filter_isdigit_decimal s :
  str_forallb py_isdecimal (str_filter py_isdigit s) = true →
  str_filter py_isdigit s = str_filter py_isdecimal s.
Proof.
  induction s as [|c s IH]; simpl; [done|].
  destruct (py_isdecimal c) eqn:Ed.
  - rewrite (py_isdecimal_isdigit c Ed). simpl. rewrite Ed. simpl.
    intros H. by rewrite IH.
  - destruct (py_isdigit c); simpl; [by rewrite Ed|done].
Qed.

Lemma substring_full s : String.substring 0 (String.length s) s = s.
Proof. induction s as [|c s IH]; simpl; [done|]. by rewrite IH. Qed.

Lemma substring_app_r p s : String.substring (String.length p) (String.length s) (p +:+ s) = s.
Proof. induction p as [|c p IH]; simpl; [apply substring_full|done]. Qed.

Lemma length_app (p s : string) : String.length (p +:+ s) = (String.length p + String.length s)%nat.
Proof. induction p as [|c p IH]; simpl; [done|]. by rewrite IH. Qed.

(** The equations of [+:+]; [simpl] leaves [String.append] folded. *)
Lemma string_app_nil_l (s : string) : EmptyString +:+ s = s.
Proof. reflexivity. Qed.

Lemma string_app_cons c (s t : string) : String c s +:+ t = String c (s +:+ t).
Proof. reflexivity. Qed.

Lemma string_app_assoc (s t u : string) : (s +:+ t) +:+ u = s +:+ (t +:+ u).
Proof. induction s as [|c s IH]; [done|]. by rewrite !string_app_cons, IH. Qed.

Lemma string_app_nil_r (s : string) : s +:+ EmptyString = s.
Proof. induction s as [|c s IH]; [done|]. by rewrite string_app_cons, IH. Qed.

Lemma string_of_list_ascii_app (l1 l2 : list ascii) :
  String.string_of_list_ascii (l1 ++ l2) =
    String.string_of_list_ascii l1 +:+ String.string_of_list_ascii l2.
Proof. induction l1 as [|c l1 IH]; [done|]. simpl. by rewrite string_app_cons, IH. Qed.

#[export] Hint Rewrite string_app_nil_l string_app_cons string_app_assoc string_app_nil_r
  string_of_list_ascii_app : py_rw.

Lemma substring_split s k :
  (k ≤ String.length s)%nat →
  s = String.substring 0 k s +:+ String.substring k (String.length s - k) s.
Proof.
  revert k. induction s as [|c s IH]; intros k Hk; simpl in *.
  - destruct k; simpl; [done|lia].
  - destruct k as [|k]; simpl.
    + by rewrite substring_full.
    + transitivity (String c (String.substring 0 k s +:+ String.substring k (String.length s - k) s));
        [f_equal; apply IH; lia | reflexivity].
Qed.

(** [s.endswith(suf)] holds exactly when [s] is some text followed by [suf]. *)
Lemma py_endswith_spec s suf : py_endswith s suf = true ↔ ∃ p, s = p +:+ suf.
Proof.
  unfold py_endswith. rewrite andb_true_iff, Nat.leb_le, bool_decide_eq_true. split.
  - intros [Hle Hsub]. exists (String.substring 0 (String.length s - String.length suf) s).
    rewrite <- Hsub at 2. rewrite (substring_split s (String.length s - String.length suf)) at 1 by lia.
    do 2 f_equal. lia.
  - intros [p ->]. rewrite length_app. split; [lia|].
    replace (String.length p + String.length suf - String.length suf)%nat with (String.length p) by lia.
    apply substring_app_r.
Qed.
