(* ===== verification/Utf8.v ===== *)
(** * Decoding the upload (src/main.py, line 26)

    [stream.read().decode("utf-8")] turns the uploaded bytes into the text
    [csv.reader] reads.  This file models CPython's strict UTF-8 decoder
    ([utf8_decode] in Objects/stringlib/codecs.h, called by
    [unicode_decode_utf8] with [errors="strict"]): a byte below 0x80 is a
    character; a lead byte 0xC2..0xDF, 0xE0..0xEF or 0xF0..0xF4 takes one,
    two or three continuation bytes 0x80..0xBF, with the second byte
    narrowed after 0xE0 (no overlong forms), 0xED (no surrogates), 0xF0
    (no overlong forms) and 0xF4 (nothing above U+10FFFF); any other byte,
    a bad continuation byte or a sequence cut by the end of the data raises
    [UnicodeDecodeError].  The value of a sequence is computed with the C
    code's shifts.  The ["utf-8"] codec keeps a byte order mark: EF BB BF
    decodes to U+FEFF.

    Bytes are Z values (a Python [bytes] object holds 0..255) and the text
    is the list of its code points.  The rest of the development reads
    text as a Stdlib [string] of code points below 256, so this component
    is not composed with the reader: its theorems are about the decoder
    alone.  Theorems: every text encodes and decodes back to itself; the
    decoder yields Unicode scalar values only; a non-ASCII byte not
    followed by a continuation byte (a Windows-1252 or Latin-1 accented
    letter followed by plain text) raises. *)

From Stdlib Require Import ZArith Lia.
From stdpp Require Import base list.
From S2P Require Import Prelude.

Module Utf8.
Local Open Scope Z_scope.

(** [IS_CONTINUATION_BYTE(ch)]: [ch >= 0x80 && ch < 0xC0]. *)
Definition is_continuation (b : Z) : bool := (0x80 <=? b) && (b <? 0xC0).

(** [utf8_decode] of codecs.h, strict and final: the whole buffer or
    [UnicodeDecodeError]. *)
Fixpoint utf8_decode (s : list Z) : result (list Z) :=
  match s with
  | [] => Ok []
  | ch :: s1 =>
      if ch <? 0x80 then let* cps := utf8_decode s1 in Ok (ch :: cps)
      else if ch <? 0xE0 then
        (* \xC2\x80-\xDF\xBF -- 0080-07FF *)
        if ch <? 0xC2 then Raise UnicodeDecodeError
        else match s1 with
             | ch2 :: s2 =>
                 if negb (is_continuation ch2) then Raise UnicodeDecodeError
                 else let* cps := utf8_decode s2 in
                      Ok (Z.shiftl ch 6 + ch2 - (Z.shiftl 0xC0 6 + 0x80) :: cps)
             | [] => Raise UnicodeDecodeError
             end
      else if ch <? 0xF0 then
        (* \xE0\xA0\x80-\xEF\xBF\xBF -- 0800-FFFF *)
        match s1 with
        | ch2 :: ch3 :: s3 =>
            if negb (is_continuation ch2) then Raise UnicodeDecodeError
            else if (ch =? 0xE0) && (ch2 <? 0xA0) then Raise UnicodeDecodeError
            else if (ch =? 0xED) && (0xA0 <=? ch2) then Raise UnicodeDecodeError
            else if negb (is_continuation ch3) then Raise UnicodeDecodeError
            else let* cps := utf8_decode s3 in
                 Ok (Z.shiftl ch 12 + Z.shiftl ch2 6 + ch3
                     - (Z.shiftl 0xE0 12 + Z.shiftl 0x80 6 + 0x80) :: cps)
        | _ => Raise UnicodeDecodeError
        end
      else if ch <? 0xF5 then
        (* \xF0\x90\x80\x80-\xF4\x8F\xBF\xBF -- 10000-10FFFF *)
        match s1 with
        | ch2 :: ch3 :: ch4 :: s4 =>
            if negb (is_continuation ch2) then Raise UnicodeDecodeError
            else if (ch =? 0xF0) && (ch2 <? 0x90) then Raise UnicodeDecodeError
            else if (ch =? 0xF4) && (0x90 <=? ch2) then Raise UnicodeDecodeError
            else if negb (is_continuation ch3) then Raise UnicodeDecodeError
            else if negb (is_continuation ch4) then Raise UnicodeDecodeError
            else let* cps := utf8_decode s4 in
                 Ok (Z.shiftl ch 18 + Z.shiftl ch2 12 + Z.shiftl ch3 6 + ch4
                     - (Z.shiftl 0xF0 18 + Z.shiftl 0x80 12 + Z.shiftl 0x80 6 + 0x80) :: cps)
        | _ => Raise UnicodeDecodeError
        end
      else Raise UnicodeDecodeError
  end.

(** ** The specification side: bytes, scalar values and the encoder *)

(** A Python [bytes] value. *)
Definition bytes_wf (s : list Z) : Prop := Forall (λ b, 0 ≤ b < 256) s.

(** A Unicode scalar value: a code point that is not a surrogate. *)
Definition scalar (cp : Z) : Prop := 0 ≤ cp < 0x110000 ∧ ¬ (0xD800 ≤ cp < 0xE000).

(** [str.encode("utf-8")] of one code point. *)
Definition utf8_encode_cp (cp : Z) : list Z :=
  if cp <? 0x80 then [cp]
  else if cp <? 0x800 then [0xC0 + cp / 64; 0x80 + cp mod 64]
  else if cp <? 0x10000 then [0xE0 + cp / 4096; 0x80 + (cp / 64) mod 64; 0x80 + cp mod 64]
  else [0xF0 + cp / 262144; 0x80 + (cp / 4096) mod 64; 0x80 + (cp / 64) mod 64; 0x80 + cp mod 64].

Definition utf8_encode (cps : list Z) : list Z := cps ≫= utf8_encode_cp.

(** ** Lemmas *)

(** Case on every [if] of the goal, the comparisons turned into
    propositions. *)
Local Ltac split_ifs :=
  repeat match goal with |- context [if ?b then _ else _] => destruct b eqn:? end; zbool.

(** Settle every [if] of the goal whose condition the hypotheses decide. *)
Local Ltac settle_ifs :=
  repeat match goal with
  | |- context [if ?b then _ else _] =>
      first [replace b with true by (symmetry; zbool; lia)
            |replace b with false by (symmetry; zbool; lia)]
  end.

Local Ltac shifts := rewrite ?Z.shiftl_mul_pow2 by lia; simpl Z.pow; simpl Z.shiftl.

(** The three multi-byte forms, in terms of the base-64 digits of the
    code point. *)
Lemma utf8_decode_two q r rest :
  2 ≤ q < 32 → 0 ≤ r < 64 →
  utf8_decode ([0xC0 + q; 0x80 + r] ++ rest) = let* cps := utf8_decode rest in Ok (64 * q + r :: cps).
Proof.
  intros. simpl. unfold is_continuation. settle_ifs.
  destruct (utf8_decode rest); simpl; [|done]. shifts. do 3 f_equal. lia.
Qed.

Lemma utf8_decode_three a b c rest :
  0 ≤ a < 16 → 0 ≤ b < 64 → 0 ≤ c < 64 → scalar (4096 * a + 64 * b + c) → 0x800 ≤ 4096 * a + 64 * b + c →
  utf8_decode ([0xE0 + a; 0x80 + b; 0x80 + c] ++ rest) =
  let* cps := utf8_decode rest in Ok (4096 * a + 64 * b + c :: cps).
Proof.
  intros ? ? ? [? ?] ?. simpl. unfold is_continuation. settle_ifs.
  destruct (utf8_decode rest); simpl; [|done]. shifts. do 3 f_equal. lia.
Qed.

Lemma utf8_decode_four a b c d rest :
  0 ≤ b < 64 → 0 ≤ c < 64 → 0 ≤ d < 64 →
  0x10000 ≤ 262144 * a + 4096 * b + 64 * c + d < 0x110000 →
  utf8_decode ([0xF0 + a; 0x80 + b; 0x80 + c; 0x80 + d] ++ rest) =
  let* cps := utf8_decode rest in Ok (262144 * a + 4096 * b + 64 * c + d :: cps).
Proof.
  intros. simpl. unfold is_continuation. settle_ifs.
  destruct (utf8_decode rest); simpl; [|done]. shifts. do 3 f_equal. lia.
Qed.

(** One code point, encoded, decodes back before the rest of the bytes. *)
Lemma utf8_decode_cp cp rest :
  scalar cp →
  utf8_decode (utf8_encode_cp cp ++ rest) = let* cps := utf8_decode rest in Ok (cp :: cps).
Proof.
  intros Hcp. pose proof Hcp as [Hr Hs]. unfold utf8_encode_cp.
  destruct (cp <? 0x80) eqn:E1; [simpl; by rewrite E1|].
  destruct (cp <? 0x800) eqn:E2; [|destruct (cp <? 0x10000) eqn:E3]; zbool.
  - assert (Hcp' : 64 * (cp / 64) + cp mod 64 = cp) by zdiv_lia.
    rewrite utf8_decode_two, Hcp' by zdiv_lia. done.
  - assert (Hcp' : 4096 * (cp / 4096) + 64 * ((cp / 64) mod 64) + cp mod 64 = cp) by zdiv_lia.
    rewrite utf8_decode_three, Hcp'; [done|zdiv_lia..|by rewrite Hcp'|lia].
  - assert (Hcp' : 262144 * (cp / 262144) + 4096 * ((cp / 4096) mod 64)
                   + 64 * ((cp / 64) mod 64) + cp mod 64 = cp) by zdiv_lia.
    rewrite utf8_decode_four, Hcp'; [done|zdiv_lia..|rewrite Hcp'; lia].
Qed.

Lemma utf8_encode_cons cp cps : utf8_encode (cp :: cps) = utf8_encode_cp cp ++ utf8_encode cps.
Proof. reflexivity. Qed.

(** Case on every [if] and [match] of a hypothesis. *)
Local Ltac split_ifs_in H :=
  repeat match type of H with
  | context [if ?b then _ else _] => destruct b eqn:?
  | context [match ?l with [] => _ | _ :: _ => _ end] => destruct l
  end; zbool.

(** What the decoder yields from bytes are scalar values. *)
Lemma utf8_decode_scalar_aux n : ∀ s cps,
  (length s < n)%nat → bytes_wf s → utf8_decode s = Ok cps → Forall scalar cps.
Proof.
  induction n as [|n IH]; intros s cps Hn Hwf Hdec; [lia|].
  destruct s as [|ch s1]; simpl in Hdec; [by simplify_eq|].
  unfold is_continuation in Hdec. split_ifs_in Hdec; try done;
    unfold bytes_wf in Hwf;
    repeat match goal with H : Forall _ (_ :: _) |- _ => apply Forall_cons in H as [? H] end;
    match type of Hdec with
    | (let* _ := utf8_decode ?t in _) = _ =>
        destruct (utf8_decode t) as [cps'|] eqn:Et; simplify_eq/=;
        constructor; [unfold scalar; shifts; lia|];
        apply (IH t); [simpl in Hn; lia|done|done]
    end.
Qed.

(** The ["utf-8"] codec keeps a byte order mark: text saved with one
    (Excel's "CSV UTF-8") starts with U+FEFF. *)
Lemma utf8_decode_bom s :
  utf8_decode (0xEF :: 0xBB :: 0xBF :: s) = let* cps := utf8_decode s in Ok (0xFEFF :: cps).
Proof. reflexivity. Qed.

(** ** Properties of the decoder *)

(** Claim C22: every sequence of Unicode scalar values, encoded in UTF-8,
    decodes back to itself. *)
Theorem utf8_decode_encode cps : Forall scalar cps → utf8_decode (utf8_encode cps) = Ok cps.
Proof.
  induction 1 as [|cp cps Hcp _ IH]; [done|].
  by rewrite utf8_encode_cons, utf8_decode_cp, IH.
Qed.

(** Claim C23: whatever bytes the decoder accepts, it yields Unicode scalar
    values: code points below U+110000 that are not surrogates. *)
Theorem utf8_decode_scalar s cps : bytes_wf s → utf8_decode s = Ok cps → Forall scalar cps.
Proof. apply (utf8_decode_scalar_aux (S (length s))). lia. Qed.

(** Claim C27: after any well-encoded text, a byte above 0x7F that is not
    followed by a continuation byte makes the decoder raise: a file saved in
    Windows-1252 or Latin-1 with an accented letter followed by plain text
    is refused, so [process_csv] raises [UnicodeDecodeError]. *)
Theorem utf8_decode_stray_byte cps b c rest :
  Forall scalar cps → 0x80 ≤ b < 0x100 → is_continuation c = false →
  utf8_decode (utf8_encode cps ++ b :: c :: rest) = Raise UnicodeDecodeError.
Proof.
  intros Hcps Hb Hc. induction Hcps as [|cp cps Hcp _ IH].
  - simpl. rewrite Hc. unfold is_continuation in Hc. zbool.
    destruct rest as [|? [|? ?]]; split_ifs; try done; zdiv_lia.
  - by rewrite utf8_encode_cons, <- app_assoc, utf8_decode_cp, IH.
Qed.

Lemma utf8_decode_encode_witness :
  utf8_decode (utf8_encode [0x44; 0xE9; 0x20AC; 0x1F69A]) = Ok [0x44; 0xE9; 0x20AC; 0x1F69A].
Proof. apply utf8_decode_encode. repeat constructor; lia. Defined.

Lemma utf8_decode_scalar_witness :
  Forall scalar [0xFEFF; 0x41].
Proof. apply (utf8_decode_scalar [0xEF; 0xBB; 0xBF; 0x41]); [repeat constructor; lia|reflexivity]. Defined.

(** ["Ren" + "é" + "e"] in Windows-1252: [52 65 6E E9 65]. *)
Lemma utf8_decode_stray_byte_witness :
  utf8_decode (utf8_encode [0x52; 0x65; 0x6E] ++ [0xE9; 0x65]) = Raise UnicodeDecodeError.
Proof. apply utf8_decode_stray_byte; [repeat constructor; lia|lia|reflexivity]. Defined.

End Utf8.
