(* ===== verification/Csv.v ===== *)
(** * [csv.reader] over the decoded upload (src/main.py, line 26)

    [process_csv] reads its rows with [csv.reader(io.StringIO(text))] in the
    default dialect [excel].  This file models the reader of CPython 3.12
    (Modules/_csv.c) on that input:
    - [io.StringIO(text)] (newline ['\n']) yields the text line by line,
      each line keeping its ['\n'] ([stringio_lines]);
    - [Reader_iternext] feeds every character of a line, then the
      end-of-line marker [EOL], to the state machine [parse_process_char],
      and yields the record once the machine is back in [START_RECORD] after
      a line; at the end of the input a pending field is saved
      ([parse_eof]).  [read_lines] runs these calls one after the other.
    The parser's state is the record [reader] (the fields of the record,
    the field being read with its length, the [ParserState]); every error
    the C code reports is [Raise CsvError].  [process_csv] consumes the rows
    as the reader yields them, one [Reader_iternext] call per turn of its
    loop (CsvIter.v); since the loop body never raises and the dict is
    local, reading all rows first and then running the loop has the same
    outcome (Endpoint.process_csv_for_loop), which is how Endpoint.v
    composes them.

    Theorems: the lines/characters view [read_stream] agrees with the
    line-by-line reader; every table written with every field quoted reads
    back as itself (fields of at most [field_limit] characters); plain text
    without quotes reads as its lines split at commas; a carriage return
    not followed by a line feed outside quotes, and a field longer than
    [field_limit], make the reader raise. *)

From Stdlib Require Import Ascii String ZArith Lia.
From stdpp Require Import base list strings.
From S2P Require Import Prelude PyStr.

Module CsvReader.

(** ** The parser (Modules/_csv.c) *)

(** The fields of [DialectObj] the parser reads.  [quotechar = None] stands
    for [quoting == QUOTE_NONE] (no character opens a quoted field) and
    [escapechar = None] for [NOT_SET]. *)
Record dialect := mk_dialect {
  delimiter : ascii;
  quotechar : option ascii;
  escapechar : option ascii;
  doublequote : bool;
  skipinitialspace : bool;
  strict : bool }.

(** [csv.excel], the dialect [csv.reader] uses when given none. *)
Definition excel : dialect :=
  mk_dialect ","%char (Some "034"%char) None true false false.

Inductive ParserState :=
| START_RECORD | START_FIELD | ESCAPED_CHAR | IN_FIELD | IN_QUOTED_FIELD
| ESCAPE_IN_QUOTED_FIELD | QUOTE_IN_QUOTED_FIELD | EAT_CRNL | AFTER_ESCAPED_CRNL.

#[export] Instance ParserState_eq_dec : EqDecision ParserState.
Proof. solve_decision. Defined.

(** What [parse_process_char] is fed: a character of the line, or [EOL]
    after the last one. *)
Inductive input := Chr (c : ascii) | EOL.

(** [ReaderObj]: the fields of the record read so far, the field being
    read (its characters in reverse order) with [field_len], and the state. *)
Record reader := mk_reader {
  fields : list string;
  field : list ascii;
  field_len : Z;
  state : ParserState }.

(** [field_size_limit()]: 128 * 1024 unless changed. *)
Definition field_limit : Z := 131072.

Definition parse_reset : reader := mk_reader [] [] 0 START_RECORD.

Definition set_state (r : reader) (s : ParserState) : reader :=
  mk_reader (fields r) (field r) (field_len r) s.

(** [parse_add_char]: refuses to grow a field past the limit. *)
Definition parse_add_char (r : reader) (c : ascii) : result reader :=
  if (field_limit <=? field_len r)%Z then Raise CsvError
  else Ok (mk_reader (fields r) (c :: field r) (field_len r + 1) (state r)).

(** [parse_save_field] *)
Definition parse_save_field (r : reader) : reader :=
  mk_reader (fields r ++ [string_of_list_ascii (rev (field r))]) [] 0 (state r).

Definition is_eol (c : input) : bool :=
  match c with EOL => true | Chr _ => false end.

(** [c == x] for a character [x] of the dialect, [NOT_SET] never matching. *)
Definition is_char (c : input) (x : option ascii) : bool :=
  match c, x with
  | Chr a, Some b => bool_decide (a = b)
  | _, _ => false
  end.

(** [c == '\n' || c == '\r'] *)
Definition is_crlf (c : input) : bool :=
  is_char c (Some "010"%char) || is_char c (Some "013"%char).

(** The character [parse_add_char] stores; [EOL] only reaches it in the
    escape states, where the C code stores ['\n'] in its place. *)
Definition char_of (c : input) : ascii :=
  match c with Chr a => a | EOL => "010"%char end.

(** Save the field and end the record: [START_RECORD] on [EOL], else wait
    for the end of the line in [EAT_CRNL]. *)
Definition end_record (r : reader) (c : input) : reader :=
  set_state (parse_save_field r) (if is_eol c then START_RECORD else EAT_CRNL).

(** [case START_FIELD] *)
Definition start_field (d : dialect) (r : reader) (c : input) : result reader :=
  if is_crlf c || is_eol c then Ok (end_record r c)
  else if is_char c (quotechar d) then Ok (set_state r IN_QUOTED_FIELD)
  else if is_char c (escapechar d) then Ok (set_state r ESCAPED_CHAR)
  else if is_char c (Some " "%char) && skipinitialspace d then Ok r
  else if is_char c (Some (delimiter d)) then Ok (parse_save_field r)
  else let* r := parse_add_char r (char_of c) in Ok (set_state r IN_FIELD).

(** [case IN_FIELD] *)
Definition in_field (d : dialect) (r : reader) (c : input) : result reader :=
  if is_crlf c || is_eol c then Ok (end_record r c)
  else if is_char c (escapechar d) then Ok (set_state r ESCAPED_CHAR)
  else if is_char c (Some (delimiter d)) then
    Ok (set_state (parse_save_field r) START_FIELD)
  else parse_add_char r (char_of c).

(** [parse_process_char]; [START_RECORD] falls through to [START_FIELD]
    and [AFTER_ESCAPED_CRNL] to [IN_FIELD], as in the C [switch]. *)
Definition parse_process_char (d : dialect) (r : reader) (c : input) : result reader :=
  match state r with
  | START_RECORD =>
      if is_eol c then Ok r
      else if is_crlf c then Ok (set_state r EAT_CRNL)
      else start_field d (set_state r START_FIELD) c
  | START_FIELD => start_field d r c
  | ESCAPED_CHAR =>
      if is_crlf c then
        let* r := parse_add_char r (char_of c) in Ok (set_state r AFTER_ESCAPED_CRNL)
      else let* r := parse_add_char r (char_of c) in Ok (set_state r IN_FIELD)
  | AFTER_ESCAPED_CRNL => if is_eol c then Ok r else in_field d r c
  | IN_FIELD => in_field d r c
  | IN_QUOTED_FIELD =>
      if is_eol c then Ok r
      else if is_char c (escapechar d) then Ok (set_state r ESCAPE_IN_QUOTED_FIELD)
      else if is_char c (quotechar d) then
        Ok (set_state r (if doublequote d then QUOTE_IN_QUOTED_FIELD else IN_FIELD))
      else parse_add_char r (char_of c)
  | ESCAPE_IN_QUOTED_FIELD =>
      let* r := parse_add_char r (char_of c) in Ok (set_state r IN_QUOTED_FIELD)
  | QUOTE_IN_QUOTED_FIELD =>
      if is_char c (quotechar d) then
        let* r := parse_add_char r (char_of c) in Ok (set_state r IN_QUOTED_FIELD)
      else if is_char c (Some (delimiter d)) then
        Ok (set_state (parse_save_field r) START_FIELD)
      else if is_crlf c || is_eol c then Ok (end_record r c)
      else if negb (strict d) then
        let* r := parse_add_char r (char_of c) in Ok (set_state r IN_FIELD)
      else Raise CsvError
  | EAT_CRNL =>
      if is_crlf c then Ok r
      else if is_eol c then Ok (set_state r START_RECORD)
      else Raise CsvError
  end.

(** ** Lines and records ([Reader_iternext]) *)

(** Iterating [io.StringIO(text)]: a line ends after each ['\n'] and keeps
    it; the text after the last ['\n'] is a last line when non-empty.
    [cur] holds the current line's characters in reverse order. *)
Fixpoint stringio_lines_aux (cur : list ascii) (s : string) : list string :=
  match s with
  | EmptyString =>
      match cur with [] => [] | _ => [string_of_list_ascii (rev cur)] end
  | String c s' =>
      if bool_decide (c = "010"%char)
      then string_of_list_ascii (rev (c :: cur)) :: stringio_lines_aux [] s'
      else stringio_lines_aux (c :: cur) s'
  end.

Definition stringio_lines (s : string) : list string := stringio_lines_aux [] s.

(** The [while (linelen--)] loop over the characters of a line. *)
Fixpoint parse_chars (d : dialect) (r : reader) (s : string) : result reader :=
  match s with
  | EmptyString => Ok r
  | String c s' => let* r := parse_process_char d r (Chr c) in parse_chars d r s'
  end.

(** One turn of the [do ... while] of [Reader_iternext]: the line's
    characters, then [EOL]. *)
Definition parse_line (d : dialect) (r : reader) (line : string) : result reader :=
  let* r := parse_chars d r line in parse_process_char d r EOL.

(** The end of the input: a field still pending ([field_len != 0] or an
    open quote) is saved and its record yielded, an error when [strict];
    otherwise iteration stops. *)
Definition parse_eof (d : dialect) (r : reader) : result (list (list string)) :=
  if bool_decide (field_len r ≠ 0%Z) || bool_decide (state r = IN_QUOTED_FIELD) then
    if strict d then Raise CsvError else Ok [fields (parse_save_field r)]
  else Ok [].

(** The [while (self->state != START_RECORD)] test: after a line, a
    machine back in [START_RECORD] yields its record and the next call
    starts from [parse_reset]; otherwise the next line continues it. *)
Definition after_line (r : reader) (k : reader → result (list (list string)))
    : result (list (list string)) :=
  if bool_decide (state r = START_RECORD)
  then let* rows := k parse_reset in Ok (fields r :: rows)
  else k r.

(** All the records of the lines, one [Reader_iternext] call after the
    other. *)
Fixpoint read_lines (d : dialect) (r : reader) (lines : list string)
    : result (list (list string)) :=
  match lines with
  | [] => parse_eof d r
  | l :: ls => let* r := parse_line d r l in after_line r (λ r, read_lines d r ls)
  end.

(** [list(csv.reader(io.StringIO(text), d))] *)
Definition csv_reader (d : dialect) (text : string) : result (list (list string)) :=
  read_lines d parse_reset (stringio_lines text).

(** The reader seen on the text as one character sequence: [EOL] follows
    every ['\n'], and the end of a last line that has no ['\n'] ([mid]: the
    current line is not empty).  Lemma [csv_reader_stream] shows that this
    is [csv_reader]; the proofs below work on this view, where a record may
    span lines. *)
Fixpoint read_stream (d : dialect) (r : reader) (mid : bool) (s : string)
    : result (list (list string)) :=
  match s with
  | EmptyString =>
      if mid then let* r := parse_process_char d r EOL in after_line r (parse_eof d)
      else parse_eof d r
  | String c s' =>
      let* r := parse_process_char d r (Chr c) in
      if bool_decide (c = "010"%char) then
        let* r := parse_process_char d r EOL in after_line r (λ r, read_stream d r false s')
      else read_stream d r true s'
  end.

(** ** Text written with every field quoted

    What [csv.writer(out, quoting=csv.QUOTE_ALL).writerows(rows)] writes
    in the [excel] dialect: each field between quotes with its quotes
    doubled, fields separated by commas, each row ended by ["\r\n"]. *)

Abbreviation quote := "034"%char (only parsing).
Abbreviation cr := "013"%char (only parsing).
Abbreviation lf := "010"%char (only parsing).
Definition crlf : string := String cr (String lf EmptyString).

Fixpoint escape_quotes (f : string) : string :=
  match f with
  | EmptyString => EmptyString
  | String c f' =>
      if bool_decide (c = quote) then String quote (String quote (escape_quotes f'))
      else String c (escape_quotes f')
  end.

Definition quote_field (f : string) : string :=
  String quote (escape_quotes f +:+ String quote EmptyString).

Fixpoint render_fields (fs : list string) : string :=
  match fs with
  | [] => EmptyString
  | [f] => quote_field f
  | f :: fs => quote_field f +:+ String ","%char (render_fields fs)
  end.

Definition render_row (row : list string) : string := render_fields row +:+ crlf.

Fixpoint render_rows (rows : list (list string)) : string :=
  match rows with
  | [] => EmptyString
  | row :: rows => render_row row +:+ render_rows rows
  end.

(** A character outside quotes that neither opens a quote nor ends a line. *)
Definition plain_char (c : ascii) : bool :=
  negb (bool_decide (c = quote) || bool_decide (c = cr) || bool_decide (c = lf)).

(** A character of an unquoted field: plain and not the delimiter. *)
Definition field_char (c : ascii) : bool := plain_char c && negb (bool_decide (c = ","%char)).

(** Text without quotes or carriage returns: its lines, each ended by a
    line feed, and the row [csv.reader] makes of each, nothing for an empty
    line and else the line split at commas. *)
Fixpoint join_lines (ls : list string) : string :=
  match ls with
  | [] => EmptyString
  | l :: ls => l +:+ String lf (join_lines ls)
  end.

Definition split_line (l : string) : list string :=
  if bool_decide (l = EmptyString) then [] else py_split ","%char l.

(** A field [csv.reader] can hold: at most [field_limit] characters. *)
Definition field_fits (f : string) : Prop := (Z.of_nat (String.length f) ≤ field_limit)%Z.

(** ** The line-by-line reader is the character-stream reader *)

Lemma parse_chars_app d r s t :
  parse_chars d r (s +:+ t) = let* r := parse_chars d r s in parse_chars d r t.
Proof.
  revert r. induction s as [|c s IH]; intros r; simpl; [done|].
  destruct (parse_process_char d r (Chr c)); simpl; [apply IH|done].
Qed.

Lemma read_lines_stream d s : ∀ cur r0,
  read_lines d r0 (stringio_lines_aux cur s) =
  let* r := parse_chars d r0 (string_of_list_ascii (rev cur)) in
  read_stream d r (bool_decide (cur ≠ [])) s.
Proof.
  induction s as [|c s IH]; intros cur r0; simpl.
  - destruct cur as [|c cur]; simpl; [done|].
    unfold parse_line. by destruct (parse_chars _ _ _).
  - case_bool_decide as Hc.
    + simpl. unfold parse_line. rewrite string_of_list_ascii_app, parse_chars_app.
      destruct (parse_chars d r0 _) as [r1|]; simpl; [|done].
      destruct (parse_process_char d r1 (Chr c)) as [r2|]; simpl; [|done].
      destruct (parse_process_char d r2 EOL) as [r3|]; simpl; [|done].
      unfold after_line. case_bool_decide; rewrite IH; simpl; [|done].
      by destruct (read_stream d parse_reset false s).
    + rewrite IH. simpl. rewrite string_of_list_ascii_app, parse_chars_app.
      destruct (parse_chars d r0 _) as [r1|]; simpl; [|done].
      destruct (parse_process_char d r1 (Chr c)) as [r2|]; simpl; [|done].
      done.
Qed.

Lemma csv_reader_stream d text : csv_reader d text = read_stream d parse_reset false text.
Proof. unfold csv_reader, stringio_lines. by rewrite read_lines_stream. Qed.

(** ** The transitions of the [excel] dialect *)

#[local] Arguments parse_add_char : simpl never.

(** Reduce the binds and the reader updates, leaving [read_stream] and the
    parser folded. *)
Local Ltac rd := cbv beta iota delta [set_state parse_save_field fields field field_len state] in *.

Lemma read_stream_char d r mid c s :
  c ≠ lf →
  read_stream d r mid (String c s) = let* r := parse_process_char d r (Chr c) in read_stream d r true s.
Proof. intros Hc. simpl. by rewrite bool_decide_false. Qed.

Lemma read_stream_lf d r mid s :
  read_stream d r mid (String lf s) =
  let* r := parse_process_char d r (Chr lf) in
  let* r := parse_process_char d r EOL in after_line r (λ r, read_stream d r false s).
Proof. reflexivity. Qed.

Lemma parse_add_char_ok r c :
  (field_len r < field_limit)%Z →
  parse_add_char r c = Ok (mk_reader (fields r) (c :: field r) (field_len r + 1) (state r)).
Proof. intros H. unfold parse_add_char. by rewrite (proj2 (Z.leb_gt _ _) H). Qed.

Lemma parse_add_char_state r c r' : parse_add_char r c = Ok r' → state r' = state r.
Proof. unfold parse_add_char. case_match; naive_solver. Qed.

Lemma parse_add_char_error r c e : parse_add_char r c = Raise e → e = CsvError.
Proof. unfold parse_add_char. case_match; naive_solver. Qed.

(** Opening quote at the start of a field. *)
Lemma step_open_quote r :
  state r = START_RECORD ∨ state r = START_FIELD →
  parse_process_char excel r (Chr quote) = Ok (set_state r IN_QUOTED_FIELD).
Proof. destruct r as [? ? ? []]; simpl; intros [|]; done. Qed.

Lemma step_quoted_quote r :
  state r = IN_QUOTED_FIELD →
  parse_process_char excel r (Chr quote) = Ok (set_state r QUOTE_IN_QUOTED_FIELD).
Proof. destruct r as [? ? ? []]; simpl; done. Qed.

Lemma step_quoted_char r c :
  state r = IN_QUOTED_FIELD → c ≠ quote →
  parse_process_char excel r (Chr c) = parse_add_char r c.
Proof. destruct r as [? ? ? []]; intros; simplify_eq/=. unfold parse_process_char; simpl. by rewrite bool_decide_false. Qed.

Lemma step_quoted_eol d r : state r = IN_QUOTED_FIELD → parse_process_char d r EOL = Ok r.
Proof. destruct r as [? ? ? []]; simpl; done. Qed.

(** A doubled quote inside quotes. *)
Lemma step_quote_quote r :
  state r = QUOTE_IN_QUOTED_FIELD →
  parse_process_char excel r (Chr quote) =
  let* r := parse_add_char r quote in Ok (set_state r IN_QUOTED_FIELD).
Proof. destruct r as [? ? ? []]; simpl; done. Qed.

(** The closing quote followed by a comma or by the end of the line. *)
Lemma step_quote_delim r :
  state r = QUOTE_IN_QUOTED_FIELD →
  parse_process_char excel r (Chr ",") = Ok (set_state (parse_save_field r) START_FIELD).
Proof. destruct r as [? ? ? []]; simpl; done. Qed.

Lemma step_quote_cr r :
  state r = QUOTE_IN_QUOTED_FIELD →
  parse_process_char excel r (Chr cr) = Ok (set_state (parse_save_field r) EAT_CRNL).
Proof. destruct r as [? ? ? []]; simpl; done. Qed.

Lemma step_record_cr d r :
  state r = START_RECORD → parse_process_char d r (Chr cr) = Ok (set_state r EAT_CRNL).
Proof. destruct r as [? ? ? []]; simpl; done. Qed.

Lemma step_crnl_lf d r : state r = EAT_CRNL → parse_process_char d r (Chr lf) = Ok r.
Proof. destruct r as [? ? ? []]; simpl; done. Qed.

Lemma step_crnl_eol d r :
  state r = EAT_CRNL → parse_process_char d r EOL = Ok (set_state r START_RECORD).
Proof. destruct r as [? ? ? []]; simpl; done. Qed.

(** After a carriage return only a line feed or the end of the line may
    come: anything else is the error ["new-line character seen in unquoted
    field"]. *)
Lemma step_crnl_other d r c :
  state r = EAT_CRNL → c ≠ cr → c ≠ lf → parse_process_char d r (Chr c) = Raise CsvError.
Proof.
  destruct r as [? ? ? []]; intros; simplify_eq/=.
  unfold parse_process_char, is_crlf, is_char; simpl. by rewrite !bool_decide_false.
Qed.

(** ** Reading back quoted text *)

(** The body of a quoted field, up to its closing quote, is read into the
    field: doubled quotes as one, line feeds (and the [EOL] after them) as
    characters. *)
Lemma read_quoted_body f : ∀ r mid s,
  state r = IN_QUOTED_FIELD →
  (field_len r + Z.of_nat (String.length f) ≤ field_limit)%Z →
  read_stream excel r mid (escape_quotes f +:+ String quote s) =
  read_stream excel (mk_reader (fields r) (rev (list_ascii_of_string f) ++ field r)
     (field_len r + Z.of_nat (String.length f)) QUOTE_IN_QUOTED_FIELD) true s.
Proof.
  induction f as [|c f IH]; intros r mid s Hst Hlen;
    cbn [escape_quotes list_ascii_of_string rev String.length] in Hlen |- *.
  - rewrite string_app_nil_l, read_stream_char, step_quoted_quote by done. rd.
    destruct r; rd; subst. by rewrite Z.add_0_r.
  - rewrite <- app_assoc.
    case_bool_decide as Hq; [subst c|]; rewrite !string_app_cons.
    + rewrite read_stream_char, step_quoted_quote by done. rd.
      rewrite read_stream_char, step_quote_quote, parse_add_char_ok by (rd; lia || done).
      rd. rewrite IH by (rd; lia || done). rd. do 2 f_equal. lia.
    + destruct (decide (c = lf)) as [->|Hlf].
      * rewrite read_stream_lf, step_quoted_char, parse_add_char_ok by (lia || done). rd.
        rewrite step_quoted_eol by done. unfold after_line. rd. rewrite bool_decide_false by (rewrite Hst; done).
        rewrite IH by (rd; lia || done). rd. do 2 f_equal. lia.
      * rewrite read_stream_char, step_quoted_char, parse_add_char_ok by (lia || done). rd.
        rewrite IH by (rd; lia || done). rd. do 2 f_equal. lia.
Qed.

Lemma read_quoted_field f acc st mid s :
  st = START_RECORD ∨ st = START_FIELD → field_fits f →
  read_stream excel (mk_reader acc [] 0 st) mid (quote_field f +:+ s) =
  read_stream excel (mk_reader acc (rev (list_ascii_of_string f))
    (Z.of_nat (String.length f)) QUOTE_IN_QUOTED_FIELD) true s.
Proof.
  intros Hst Hf. unfold quote_field.
  rewrite string_app_cons, string_app_assoc, string_app_cons.
  rewrite read_stream_char, step_open_quote by done. rd.
  rewrite read_quoted_body by (rd; done). rd. by rewrite app_nil_r.
Qed.

(** The end of a row: the closing quote, then ["\r\n"]. *)
Lemma read_row_end acc fd n mid s :
  read_stream excel (mk_reader acc fd n QUOTE_IN_QUOTED_FIELD) mid (crlf +:+ s) =
  let* rows := read_stream excel parse_reset false s in
  Ok ((acc ++ [string_of_list_ascii (rev fd)]) :: rows).
Proof.
  unfold crlf. rewrite !string_app_cons, string_app_nil_l.
  rewrite read_stream_char, step_quote_cr by done. rd.
  rewrite read_stream_lf, step_crnl_lf, step_crnl_eol by done. rd.
  unfold after_line. rd. by rewrite bool_decide_true.
Qed.

Lemma render_fields_one f : render_fields [f] = quote_field f.
Proof. reflexivity. Qed.

Lemma render_fields_cons f f' fs :
  render_fields (f :: f' :: fs) = quote_field f +:+ String ","%char (render_fields (f' :: fs)).
Proof. reflexivity. Qed.

Lemma read_fields fs : ∀ f acc st mid s,
  st = START_RECORD ∨ st = START_FIELD → Forall field_fits (f :: fs) →
  read_stream excel (mk_reader acc [] 0 st) mid (render_fields (f :: fs) +:+ crlf +:+ s) =
  let* rows := read_stream excel parse_reset false s in Ok ((acc ++ f :: fs) :: rows).
Proof.
  induction fs as [|f' fs IH]; intros f acc st mid s Hst Hfs;
    apply Forall_cons in Hfs as [Hf Hfs].
  - rewrite render_fields_one, read_quoted_field, read_row_end by done.
    by rewrite rev_involutive, string_of_list_ascii_of_string.
  - rewrite render_fields_cons, string_app_assoc, string_app_cons, read_quoted_field by done.
    rewrite read_stream_char, step_quote_delim by done. rd.
    rewrite rev_involutive, string_of_list_ascii_of_string, IH by auto.
    by rewrite <- app_assoc.
Qed.

Lemma read_row row mid s :
  Forall field_fits row →
  read_stream excel parse_reset mid (render_row row +:+ s) =
  let* rows := read_stream excel parse_reset false s in Ok (row :: rows).
Proof.
  intros Hrow. unfold render_row. rewrite string_app_assoc.
  destruct row as [|f fs].
  - unfold crlf. rewrite string_app_nil_l, !string_app_cons, string_app_nil_l.
    rewrite read_stream_char, step_record_cr by done. rd.
    rewrite read_stream_lf, step_crnl_lf, step_crnl_eol by done. rd.
    unfold after_line. rd. by rewrite bool_decide_true.
  - by rewrite (read_fields fs f [] START_RECORD) by auto.
Qed.

Lemma read_rows rows s :
  Forall (Forall field_fits) rows →
  read_stream excel parse_reset false (render_rows rows +:+ s) =
  let* rows' := read_stream excel parse_reset false s in Ok (rows ++ rows').
Proof.
  induction rows as [|row rows IH]; intros Hrows; cbn [render_rows].
  { rewrite string_app_nil_l. by destruct (read_stream excel parse_reset false s). }
  apply Forall_cons in Hrows as [Hrow Hrows].
  rewrite string_app_assoc, read_row, IH by done.
  by destruct (read_stream excel parse_reset false s).
Qed.

(** ** Unquoted text *)

(** The states in which the parser reads unquoted text. *)
Definition unquoted_state (st : ParserState) : Prop :=
  st = START_RECORD ∨ st = START_FIELD ∨ st = IN_FIELD.

Lemma plain_char_spec c : plain_char c = true ↔ c ≠ quote ∧ c ≠ cr ∧ c ≠ lf.
Proof. unfold plain_char. rewrite negb_true_iff, !orb_false_iff, !bool_decide_eq_false. tauto. Qed.

Lemma field_char_spec c : field_char c = true ↔ plain_char c = true ∧ c ≠ ","%char.
Proof. unfold field_char. by rewrite andb_true_iff, negb_true_iff, bool_decide_eq_false. Qed.

Lemma step_unquoted_delim r :
  unquoted_state (state r) →
  parse_process_char excel r (Chr ",") = Ok (set_state (parse_save_field r) START_FIELD).
Proof. destruct r as [? ? ? []]; intros Hs; repeat destruct Hs as [Hs|Hs]; done. Qed.

Lemma step_unquoted_char r c :
  unquoted_state (state r) → field_char c = true →
  parse_process_char excel r (Chr c) =
  let* r' := parse_add_char r c in Ok (set_state r' IN_FIELD).
Proof.
  rewrite field_char_spec, plain_char_spec. intros Hs ((Hq & Hcr & Hlf) & Hd).
  destruct r as [fl fd n []]; repeat destruct Hs as [Hs|Hs]; try done;
    unfold parse_process_char, start_field, in_field, is_crlf, is_char; simpl;
    rewrite ?andb_false_r, ?bool_decide_false by done; unfold parse_add_char; simpl;
    by destruct (field_limit <=? n)%Z.
Qed.

Lemma step_unquoted_cr r :
  unquoted_state (state r) →
  ∃ r', parse_process_char excel r (Chr cr) = Ok r' ∧ state r' = EAT_CRNL.
Proof. destruct r as [? ? ? []]; intros Hs; repeat destruct Hs as [Hs|Hs]; try done; by eexists. Qed.

(** A carriage return outside quotes must be followed by a line feed. *)
Lemma read_unquoted_cr a : ∀ r mid c b,
  unquoted_state (state r) → str_forallb plain_char a = true → c ≠ cr → c ≠ lf →
  read_stream excel r mid (a +:+ String cr (String c b)) = Raise CsvError.
Proof.
  induction a as [|x a IH]; intros r mid c b Hs Ha Hcr Hlf; simpl in Ha.
  - destruct (step_unquoted_cr r Hs) as (r' & E & Hs').
    rewrite string_app_nil_l, read_stream_char, E by done. cbv beta iota.
    by rewrite read_stream_char, step_crnl_other.
  - apply andb_prop in Ha as [Hx Ha]. pose proof Hx as Hx'.
    apply plain_char_spec in Hx' as (_ & _ & Hxlf).
    rewrite string_app_cons, read_stream_char by done.
    destruct (decide (x = ","%char)) as [->|Hd].
    + rewrite step_unquoted_delim by done. cbv beta iota.
      apply IH; rd; [unfold unquoted_state| | |]; auto.
    + rewrite step_unquoted_char by (done || by apply field_char_spec).
      destruct (parse_add_char r x) as [r'|e] eqn:E; cbv beta iota.
      * apply IH; rd; [unfold unquoted_state| | |]; auto.
      * by apply parse_add_char_error in E as ->.
Qed.

(** An unquoted field that outgrows [field_limit] stops the reader. *)
Lemma read_unquoted_overflow a : ∀ r mid s,
  unquoted_state (state r) → str_forallb field_char a = true →
  (field_len r ≤ field_limit)%Z →
  (field_limit < field_len r + Z.of_nat (String.length a))%Z →
  read_stream excel r mid (a +:+ s) = Raise CsvError.
Proof.
  induction a as [|x a IH]; intros r mid s Hs Ha Hle Hlt; simpl in Ha, Hlt; [lia|].
  apply andb_prop in Ha as [Hx Ha]. pose proof Hx as Hx'.
  apply field_char_spec, proj1, plain_char_spec in Hx' as (_ & _ & Hxlf).
  rewrite string_app_cons, read_stream_char, step_unquoted_char by done.
  unfold parse_add_char. destruct (field_limit <=? field_len r)%Z eqn:E; [done|].
  apply Z.leb_gt in E. cbv beta iota. apply IH; rd; [unfold unquoted_state|..]; auto; lia.
Qed.

Lemma step_field_lf r :
  state r = START_FIELD ∨ state r = IN_FIELD →
  parse_process_char excel r (Chr lf) = Ok (set_state (parse_save_field r) EAT_CRNL).
Proof. destruct r as [? ? ? []]; intros [|]; done. Qed.

Lemma step_record_lf d r :
  state r = START_RECORD → parse_process_char d r (Chr lf) = Ok (set_state r EAT_CRNL).
Proof. destruct r as [? ? ? []]; simpl; done. Qed.

(** [START_RECORD] treats a character that does not end the line as
    [START_FIELD] does. *)
Lemma step_record_start d r c :
  state r = START_RECORD → c ≠ cr → c ≠ lf →
  parse_process_char d r (Chr c) = parse_process_char d (set_state r START_FIELD) (Chr c).
Proof.
  destruct r as [? ? ? []]; intros; simplify_eq/=.
  unfold parse_process_char, is_crlf, is_char; simpl. by rewrite !bool_decide_false.
Qed.

Lemma string_of_list_ascii_length l : String.length (string_of_list_ascii l) = length l.
Proof. induction l; simpl; auto. Qed.

(** The first piece of a split line continues the field being read. *)
Definition join_first (p : string) (xs : list string) : list string :=
  match xs with [] => [p] | x :: xs => (p +:+ x) :: xs end.

Lemma join_first_empty sep l : join_first EmptyString (py_split sep l) = py_split sep l.
Proof. pose proof (py_split_not_nil sep l). by destruct (py_split sep l). Qed.

Lemma read_plain_fields l : ∀ acc buf n st mid s,
  n = Z.of_nat (length buf) → st = START_FIELD ∨ st = IN_FIELD →
  str_forallb plain_char l = true →
  Forall field_fits (join_first (string_of_list_ascii (rev buf)) (py_split ","%char l)) →
  read_stream excel (mk_reader acc buf n st) mid (l +:+ String lf s) =
  let* rows := read_stream excel parse_reset false s in
  Ok ((acc ++ join_first (string_of_list_ascii (rev buf)) (py_split ","%char l)) :: rows).
Proof.
  induction l as [|x l IH]; intros acc buf n st mid s Hn Hst Hl Hfit; simpl in Hl.
  - rewrite string_app_nil_l, read_stream_lf, step_field_lf by done. rd.
    rewrite step_crnl_eol by done. unfold after_line. rd.
    rewrite bool_decide_true by done. cbn [py_split join_first]. by rewrite string_app_nil_r.
  - apply andb_prop in Hl as [Hx Hl]. pose proof Hx as Hx'.
    apply plain_char_spec in Hx' as (_ & _ & Hxlf).
    rewrite string_app_cons, read_stream_char by done. cbn [py_split] in Hfit |- *.
    case_bool_decide as Hd.
    + subst x. rewrite step_unquoted_delim by (unfold unquoted_state; tauto). cbv beta iota.
      apply Forall_cons in Hfit as [_ Hfit]. rewrite <- (join_first_empty _ l) in Hfit.
      rd. rewrite (IH _ [] 0%Z START_FIELD) by auto. rewrite join_first_empty.
      cbn [join_first]. by rewrite string_app_nil_r, <- app_assoc.
    + pose proof (py_split_not_nil ","%char l) as Hne.
      destruct (py_split ","%char l) as [|p ps] eqn:E; [done|].
      apply Forall_cons in Hfit as [Hf Hfit].
      assert (Hlen : (n < field_limit)%Z).
      { unfold field_fits in Hf. rewrite length_app, string_of_list_ascii_length, length_rev in Hf.
        simpl in Hf. lia. }
      rewrite step_unquoted_char, parse_add_char_ok
        by (rd; unfold unquoted_state; tauto || by apply field_char_spec).
      cbv beta iota. rd.
      assert (Hj : string_of_list_ascii (rev (x :: buf)) +:+ p =
                   string_of_list_ascii (rev buf) +:+ String x p).
      { simpl. by rewrite string_of_list_ascii_app, string_app_assoc. }
      rewrite (IH _ (x :: buf)); [|simpl; lia|auto|done|].
      * cbn [join_first]. by rewrite Hj.
      * cbn [join_first]. rewrite Hj. by constructor.
Qed.

Lemma read_plain_line l mid s :
  str_forallb plain_char l = true → Forall field_fits (py_split ","%char l) →
  read_stream excel parse_reset mid (l +:+ String lf s) =
  let* rows := read_stream excel parse_reset false s in Ok (split_line l :: rows).
Proof.
  intros Hl Hfit. unfold split_line. destruct l as [|x l].
  - rewrite string_app_nil_l, read_stream_lf, step_record_lf by done. rd.
    rewrite step_crnl_eol by done. unfold after_line. rd. by rewrite bool_decide_true.
  - rewrite bool_decide_false by done. pose proof Hl as Hx. simpl in Hx.
    apply andb_prop, proj1, plain_char_spec in Hx as (_ & Hxcr & Hxlf).
    rewrite string_app_cons, read_stream_char, step_record_start, <- (read_stream_char _ _ mid)
      by done.
    rewrite <- string_app_cons.
    rewrite <- (join_first_empty _ (String x l)) in Hfit |- *.
    by apply (read_plain_fields (String x l) [] [] 0%Z START_FIELD); auto.
Qed.

(** ** Properties of [csv.reader] *)

(** Claim C8: a table written with every field quoted
    ([csv.writer(..., quoting=csv.QUOTE_ALL)]) reads back as the same
    table, whatever its fields hold (commas, quotes, line feeds, carriage
    returns, nothing), provided no field is longer than [field_limit]. *)
Theorem csv_reader_render rows :
  Forall (Forall field_fits) rows → csv_reader excel (render_rows rows) = Ok rows.
Proof.
  intros Hrows. rewrite csv_reader_stream, <- (string_app_nil_r (render_rows rows)).
  rewrite read_rows by done. simpl. by rewrite app_nil_r.
Qed.

(** Claim C34: a carriage return outside quotes that is not followed by a
    line feed makes the reader raise [_csv.Error], whatever well-formed
    rows come before it: a file with classic Mac line endings is refused. *)
Theorem csv_reader_lone_cr rows a c b :
  Forall (Forall field_fits) rows → str_forallb plain_char a = true → c ≠ cr → c ≠ lf →
  csv_reader excel (render_rows rows +:+ a +:+ String cr (String c b)) = Raise CsvError.
Proof.
  intros. rewrite csv_reader_stream, read_rows by done.
  rewrite read_unquoted_cr; [done|left|..]; done.
Qed.

(** Claim C35: an unquoted field longer than [field_limit] (131072
    characters) makes the reader raise [_csv.Error]. *)
Theorem csv_reader_field_limit rows a s :
  Forall (Forall field_fits) rows → str_forallb field_char a = true →
  (field_limit < Z.of_nat (String.length a))%Z →
  csv_reader excel (render_rows rows +:+ a +:+ s) = Raise CsvError.
Proof.
  intros. rewrite csv_reader_stream, read_rows by done.
  rewrite read_unquoted_overflow; [done|left|..]; done.
Qed.

(** Claim C21: text without quotes or carriage returns, each line ended by
    a line feed, reads as one row per line: the empty row for an empty
    line, and otherwise the line split at every comma ([line.split(",")]),
    provided no piece is longer than [field_limit]. *)
Theorem csv_reader_plain ls :
  Forall (λ l, str_forallb plain_char l = true ∧ Forall field_fits (py_split ","%char l)) ls →
  csv_reader excel (join_lines ls) = Ok (split_line <$> ls).
Proof.
  intros Hls. rewrite csv_reader_stream.
  induction Hls as [|l ls [Hl Hfit] _ IH]; [done|].
  cbn [join_lines]. rewrite read_plain_line, IH by done. done.
Qed.

Lemma csv_reader_plain_witness :
  csv_reader excel (join_lines ["Driver: Jane Doe, ID123"; ""; "a,,b"])
  = Ok [["Driver: Jane Doe"; " ID123"]; []; ["a"; ""; "b"]].
Proof.
  apply (csv_reader_plain ["Driver: Jane Doe, ID123"; ""; "a,,b"]).
  repeat constructor; unfold field_fits, field_limit; simpl; lia.
Defined.

Lemma csv_reader_render_witness :
  Forall (Forall field_fits) [["Driver: A, 1"]; []; [""; "x" +:+ String quote (String lf "y")]] ∧
  csv_reader excel (render_rows [["Driver: A, 1"]; []; [""; "x" +:+ String quote (String lf "y")]])
  = Ok [["Driver: A, 1"]; []; [""; "x" +:+ String quote (String lf "y")]].
Proof.
  assert (Hf : Forall (Forall field_fits)
    [["Driver: A, 1"]; []; [""; "x" +:+ String quote (String lf "y")]])
    by (repeat constructor; unfold field_fits, field_limit; simpl; lia).
  split; [exact Hf|]. exact (csv_reader_render _ Hf).
Defined.

Lemma csv_reader_lone_cr_witness :
  csv_reader excel (render_rows [["Driver: A"]] +:+ "x,y" +:+ String cr (String "z" EmptyString))
  = Raise CsvError.
Proof.
  apply csv_reader_lone_cr; [|vm_compute; reflexivity|discriminate|discriminate].
  repeat constructor; unfold field_fits, field_limit; simpl; lia.
Defined.

(** 131073 characters [a]. *)
Definition long_field : string := string_of_list_ascii (repeat "a"%char 131073).

Lemma csv_reader_field_limit_witness :
  csv_reader excel (render_rows [] +:+ long_field +:+ EmptyString) = Raise CsvError.
Proof.
  apply csv_reader_field_limit; [constructor|vm_compute; reflexivity|].
  unfold field_limit. vm_compute. reflexivity.
Defined.

End CsvReader.
