(* ===== verification/Iter.v ===== *)
(** * Python's [for] statement over an iterator (src/main.py, line 31)

    [for x in it: body] calls [next(it)] until it raises [StopIteration]
    and runs the body on each item; an exception of [next] or of the body
    ends the loop and propagates.  [PyIter] is the iterator interface:
    [py_next] is [__next__], [Ok None] standing for [StopIteration].
    [for_in] runs the loop with [fuel] bounding the number of [next] calls
    ([None] when it runs out); [loop_step] is one turn of the loop as a
    step relation on (iterator, accumulated state) configurations.

    Section [Loop] assumes a measure that [next] decreases whenever it
    yields an item (the iterator's promise to its client): the loop then
    ends whatever the body, with enough fuel ([for_in_enough_fuel]), as a
    well-founded iteration ([loop_step_wf]); more fuel changes nothing
    ([for_in_mono]).  Section [Invariant] adds a body that never raises
    from the states of an invariant: the loop turns until [next] stops or
    raises ([loop_reaches_stop], with [loop_stop] the configurations
    where it does).  When in addition the iterator denotes a list (its
    items, or the exception that stops it), the loop is the fold [foldM]
    of the body over that list ([for_in_foldM]): interleaving [next] with
    the body is the same as reading everything first. *)

From Stdlib Require Import Wellfounded.
From stdpp Require Import base list relations.
From S2P Require Import Prelude.

(** The iterator protocol: [__next__] yields an item and the advanced
    iterator, stops, or raises. *)
Class PyIter (It X : Type) := py_next : It → result (option (X * It)).

(** [for x in it: acc = body(acc, x)], at most [fuel] calls of [next]. *)
Fixpoint for_in `{PyIter It X} {A} (fuel : nat) (body : A → X → result A)
    (acc : A) (it : It) : option (result A) :=
  match fuel with
  | O => None
  | S fuel =>
      match py_next it with
      | Raise e => Some (Raise e)
      | Ok None => Some (Ok acc)
      | Ok (Some (x, it')) =>
          match body acc x with
          | Raise e => Some (Raise e)
          | Ok acc' => for_in fuel body acc' it'
          end
      end
  end.

(** [list(it)]: the items in order. *)
Definition py_list `{PyIter It X} (fuel : nat) (it : It) : option (result (list X)) :=
  for_in fuel (λ acc x, Ok (acc ++ [x])) [] it.

(** The body run over the items of a list, stopping at its first exception. *)
Fixpoint foldM {A X} (body : A → X → result A) (acc : A) (xs : list X) : result A :=
  match xs with
  | [] => Ok acc
  | x :: xs => let* acc' := body acc x in foldM body acc' xs
  end.

(** One turn of the loop: [next] yields [x] and the body returns. *)
Inductive loop_step `{PyIter It X} {A} (body : A → X → result A) : relation (It * A) :=
| loop_next it acc x it' acc' :
    py_next it = Ok (Some (x, it')) → body acc x = Ok acc' →
    loop_step body (it, acc) (it', acc').

(** The loop leaves this configuration through [next]: it stops or
    raises. *)
Definition loop_stop `{PyIter It X} {A} (c : It * A) : Prop :=
  py_next c.1 = Ok None ∨ ∃ e, py_next c.1 = Raise e.

Lemma foldM_app {A X} (body : A → X → result A) acc xs ys :
  foldM body acc (xs ++ ys) = let* acc' := foldM body acc xs in foldM body acc' ys.
Proof.
  revert acc. induction xs as [|x xs IH]; intros acc; simpl; [done|].
  destruct (body acc x); simpl; [apply IH|done].
Qed.

(** [list(it)] appends every item. *)
Lemma foldM_snoc {X} (acc xs : list X) : foldM (λ acc x, Ok (acc ++ [x])) acc xs = Ok (acc ++ xs).
Proof.
  revert acc. induction xs as [|x xs IH]; intros acc; simpl; [by rewrite app_nil_r|].
  rewrite IH, <- app_assoc. done.
Qed.

Section Loop.
Context `{PyIter It X} {A : Type}.
Variable measure : It → nat.
Hypothesis next_progress :
  ∀ it x it', py_next it = Ok (Some (x, it')) → measure it' < measure it.
Variable body : A → X → result A.

Lemma for_in_enough_fuel fuel acc it :
  measure it < fuel → ∃ res, for_in fuel body acc it = Some res.
Proof.
  revert acc it. induction fuel as [|fuel IH]; intros acc it Hf; [lia|]. simpl.
  destruct (py_next it) as [[[x it']|]|e] eqn:E; [|by eauto|by eauto].
  destruct (body acc x) as [acc'|e]; [|by eauto].
  apply IH. pose proof (next_progress _ _ _ E). lia.
Qed.

Lemma for_in_mono fuel fuel' acc it res :
  fuel ≤ fuel' → for_in fuel body acc it = Some res → for_in fuel' body acc it = Some res.
Proof.
  revert fuel' acc it. induction fuel as [|fuel IH]; intros [|fuel'] acc it Hle; simpl;
    [done|done|lia|].
  destruct (py_next it) as [[[x it']|]|e]; [|done|done].
  destruct (body acc x); [apply IH; lia|done].
Qed.

(** No infinite sequence of loop turns. *)
Lemma loop_step_wf : well_founded (flip (loop_step body)).
Proof.
  apply (wf_incl _ _ (λ c c', measure c.1 < measure c'.1)).
  - intros c c' Hs. inversion Hs; subst. simpl. eauto.
  - apply (wf_inverse_image _ nat lt (λ c : It * A, measure c.1)), lt_wf.
Qed.

Section Invariant.
Variable P : A → Prop.
Hypothesis body_ok : ∀ acc x, P acc → ∃ acc', body acc x = Ok acc' ∧ P acc'.

(** A body that never raises from [P]: from every configuration the loop
    turns until [next] stops or raises. *)
Lemma loop_reaches_stop c : P c.2 → ∃ c', rtc (loop_step body) c c' ∧ loop_stop c'.
Proof.
  induction c as [[it acc] IH] using (well_founded_induction loop_step_wf).
  intros HP. destruct (py_next it) as [[[x it']|]|e] eqn:E;
    [|exists (it, acc); split; [done|]; unfold loop_stop; simpl; rewrite E; by eauto..].
  destruct (body_ok acc x HP) as (acc' & Eb & HP').
  destruct (IH (it', acc')) as (c' & Hr & Hx); [by econstructor|done|].
  exists c'. split; [|done]. eapply rtc_l; [by econstructor|done].
Qed.

Section Denotation.
Variable iter_list : It → result (list X).
Hypothesis iter_list_next : ∀ it,
  iter_list it = match py_next it with
                 | Raise e => Raise e
                 | Ok None => Ok []
                 | Ok (Some (x, it')) => let* xs := iter_list it' in Ok (x :: xs)
                 end.

(** With enough fuel the loop is the fold of the body over the items. *)
Lemma for_in_foldM fuel acc it :
  measure it < fuel → P acc →
  for_in fuel body acc it = Some (let* xs := iter_list it in foldM body acc xs).
Proof.
  revert acc it. induction fuel as [|fuel IH]; intros acc it Hf HP; [lia|].
  simpl. rewrite (iter_list_next it).
  destruct (py_next it) as [[[x it']|]|e] eqn:E; [|done|done].
  destruct (body_ok acc x HP) as (acc' & Eb & HP').
  rewrite Eb, (IH acc' it') by (pose proof (next_progress _ _ _ E); lia || done).
  destruct (iter_list it'); simpl; [by rewrite Eb|done].
Qed.
End Denotation.
End Invariant.
End Loop.

(** [list(it)] is the list the iterator denotes. *)
Lemma py_list_iter_list `{PyIter It X} (measure : It → nat) (iter_list : It → result (list X))
    fuel it :
  (∀ it x it', py_next it = Ok (Some (x, it')) → measure it' < measure it) →
  (∀ it, iter_list it = match py_next it with
                        | Raise e => Raise e
                        | Ok None => Ok []
                        | Ok (Some (x, it')) => let* xs := iter_list it' in Ok (x :: xs)
                        end) →
  measure it < fuel → py_list fuel it = Some (iter_list it).
Proof.
  intros Hp Hl Hf. unfold py_list.
  rewrite (for_in_foldM measure Hp _ (λ _, True) ltac:(by eauto) iter_list Hl); [|done|done].
  destruct (iter_list it); simpl; [by rewrite foldM_snoc|done].
Qed.
