(* ===== verification/CsvIter.v ===== *)
(** * [csv.reader] as the iterator of the [for] loop (src/main.py, lines 26 and 31)

    [for row in reader] calls [Reader_iternext] (CPython 3.12,
    Modules/_csv.c) once per row.  Each call starts with [parse_reset],
    then takes lines from [io.StringIO] ([PyIter_Next(self->input_iter)]),
    feeds each line and [EOL] to [parse_process_char] ([parse_line]) and
    returns the record as soon as the machine is back in [START_RECORD]
    after a line ([do ... while (self->state != START_RECORD)]).  When the
    lines run out, a pending field (non-empty, or an open quote) is saved
    and its record returned, or [csv.Error] raised when the dialect is
    [strict]; otherwise the call raises [StopIteration].  The object that
    persists between calls is [ReaderObj]: the dialect and the input
    iterator, i.e. the lines not read yet; the parser's record is reset by
    every call.  [Reader_iternext] is the [PyIter] instance of Iter.v.

    Csv.v's [csv_reader] reads all records at once ([read_lines]).  Here:
    every call that yields a row consumes at least one line, so the loop
    over the reader ends within [length lines + 1] calls whatever its body
    ([csv_reader_loop_terminates]), and [list(reader)] built by [next]
    calls is [csv_reader] ([csv_reader_iter]). *)

From Stdlib Require Import Ascii String.
From stdpp Require Import base list strings.
From S2P Require Import Prelude Csv Iter.

Module CsvIter.
Import CsvReader.

(** [ReaderObj] between two calls: the dialect and the lines of the
    [io.StringIO] not read yet. *)
Record ReaderObj := mk_ReaderObj { dialect_of : dialect; input_iter : list string }.

(** [csv.reader(io.StringIO(text), d)] *)
Definition csv_reader_obj (d : dialect) (text : string) : ReaderObj :=
  mk_ReaderObj d (stringio_lines text).

(** The [do ... while] loop of [Reader_iternext] from the parser state
    [r]: [None] is [StopIteration], [Some (row, rest)] the record and the
    lines left. *)
Fixpoint iternext_lines (d : dialect) (r : reader) (lines : list string)
    : result (option (list string * list string)) :=
  match lines with
  | [] =>
      if bool_decide (field_len r ≠ 0%Z) || bool_decide (state r = IN_QUOTED_FIELD) then
        if strict d then Raise CsvError else Ok (Some (fields (parse_save_field r), []))
      else Ok None
  | l :: ls =>
      let* r := parse_line d r l in
      if bool_decide (state r = START_RECORD) then Ok (Some (fields r, ls))
      else iternext_lines d r ls
  end.

(** [Reader_iternext(self)]: [parse_reset], then the loop. *)
Definition Reader_iternext (ro : ReaderObj) : result (option (list string * ReaderObj)) :=
  let* o := iternext_lines (dialect_of ro) parse_reset (input_iter ro) in
  Ok (match o with
      | Some (row, ls) => Some (row, mk_ReaderObj (dialect_of ro) ls)
      | None => None
      end).

#[export] Instance Reader_iter : PyIter ReaderObj (list string) := Reader_iternext.

(** The records the reader denotes: Csv.v's reading of the lines left. *)
Definition reader_rows (ro : ReaderObj) : result (list (list string)) :=
  read_lines (dialect_of ro) parse_reset (input_iter ro).

(** ** The calls against [read_lines] *)

Lemma read_lines_iternext d r ls :
  read_lines d r ls =
    match iternext_lines d r ls with
    | Raise e => Raise e
    | Ok None => Ok []
    | Ok (Some (row, ls')) => let* rows := read_lines d parse_reset ls' in Ok (row :: rows)
    end.
Proof.
  revert r. induction ls as [|l ls IH]; intros r; simpl.
  - unfold parse_eof. destruct (_ || _); [|done]. by destruct (strict d).
  - destruct (parse_line d r l); simpl; [|done].
    unfold after_line. case_bool_decide; [done|apply IH].
Qed.

(** A call that started on a line leaves at most the lines after it. *)
Lemma iternext_lines_consumes d r l ls row ls' :
  iternext_lines d r (l :: ls) = Ok (Some (row, ls')) → length ls' ≤ length ls.
Proof.
  revert r l. induction ls as [|l' ls IH]; intros r l; simpl;
    destruct (parse_line d r l) as [r'|]; simpl; try done;
    case_bool_decide; try (intros [= <- <-]; simpl; lia).
  - destruct (_ || _); [destruct (strict d)|]; [done|by intros [= <- <-]|done].
  - intros ?%IH. simpl. lia.
Qed.

Lemma Reader_iternext_progress ro row ro' :
  py_next ro = Ok (Some (row, ro')) → length (input_iter ro') < length (input_iter ro).
Proof.
  destruct ro as [d [|l ls]]; unfold py_next, Reader_iter, Reader_iternext;
    cbn [dialect_of input_iter]; [by simpl|].
  destruct (iternext_lines d parse_reset (l :: ls)) as [[[row' ls']|]|] eqn:E;
    simpl; [|done|done].
  intros [= <- <-]. apply iternext_lines_consumes in E. simpl. lia.
Qed.

Lemma reader_rows_next ro :
  reader_rows ro =
    match py_next ro with
    | Raise e => Raise e
    | Ok None => Ok []
    | Ok (Some (row, ro')) => let* rows := reader_rows ro' in Ok (row :: rows)
    end.
Proof.
  unfold reader_rows, py_next, Reader_iter, Reader_iternext. rewrite read_lines_iternext.
  by destruct (iternext_lines _ _ _) as [[[row ls]|]|].
Qed.

#[export] Hint Resolve Reader_iternext_progress : py.

(** ** Properties of the iterator *)

(** Claim C12: the loop [for row in reader] over
    [csv.reader(io.StringIO(text), d)] ends, whatever its body: with a
    bound of one more [next] call than the text has lines, the loop
    returns, raises, or stops, and never runs out of calls. *)
Theorem csv_reader_loop_terminates {A} d text (body : A → list string → result A) acc fuel :
  length (stringio_lines text) < fuel →
  ∃ res, for_in fuel body acc (csv_reader_obj d text) = Some res.
Proof.
  intros Hf. apply (for_in_enough_fuel (λ ro, length (input_iter ro))); [eauto with py|exact Hf].
Qed.

(** [list(reader)] built by successive [Reader_iternext] calls, each
    restarting the parser, is Csv.v's [csv_reader]: the same records in the
    same order, or the same exception. *)
Lemma csv_reader_iter d text fuel :
  length (stringio_lines text) < fuel →
  py_list fuel (csv_reader_obj d text) = Some (csv_reader d text).
Proof.
  intros Hf. exact (py_list_iter_list (λ ro, length (input_iter ro)) reader_rows fuel
    (csv_reader_obj d text) Reader_iternext_progress reader_rows_next Hf).
Qed.

(** ** Witnesses *)

(** A header line, then a record whose quoted field spans two lines. *)
Definition sample_text : string :=
  "Driver: A, 1" +:+ String "010"%char ("x," +:+ String "034"%char ("y" +:+ String "010"%char
    ("z" +:+ String "034"%char (String "010"%char EmptyString)))).

Lemma csv_reader_loop_terminates_witness :
  ∃ res, for_in 4 (λ n (_ : list string), Ok (S n)) 0 (csv_reader_obj excel sample_text) = Some res.
Proof. apply csv_reader_loop_terminates. vm_compute. lia. Defined.

End CsvIter.
