(* ===== verification/Dates.v ===== *)
(** * [compare_dates] (src/main.py, lines 11-17)

    [datetime.strptime(d, "%m/%d/%Y")] as CPython's [_strptime] runs it: the
    format is compiled to the regex
      [(?P<m>1[0-2]|0[1-9]|[1-9])/(?P<d>3[01]|[12]\d|0[1-9]|[1-9]| [1-9])/(?P<Y>\d\d\d\d)]
    which is matched at the start of the text ([re.match]: the first match
    in the engine's backtracking order); text left after that match raises
    [ValueError("unconverted data remains")], and the date is then checked by
    [datetime.date(year, month, day)] (year 1..9999, day within the month,
    leap years by the Gregorian rule).  A regex node is modelled as the list
    of its successes [(value, rest)] in the order the engine tries them.
    [toordinal] ([_ymd2ord] of CPython's datetime: the days since
    0001-01-01) is the calendar's own count, the reference against which
    the comparison of [compare_dates] is proved to mean "later". *)

From Stdlib Require Import Ascii ZArith Lia.
From stdpp Require Import base list strings.
From S2P Require Import Prelude PyStr.

Module Strptime.

Local Open Scope Z_scope.

(** ** Regex nodes as ordered lists of successes *)

Definition rx (A : Type) : Type := string → list (A * string).

(** A character class [[lo-hi]] over code points; its value is the digit. *)
Definition rx_range (lo hi : nat) : rx Z := λ s,
  match s with
  | String c s' =>
      if ((lo <=? nat_of_ascii c) && (nat_of_ascii c <=? hi))%nat
      then [(digit_value c, s')] else []
  | EmptyString => []
  end.

(** [\d]: on U+0000..U+00FF only the ASCII digits are Unicode decimals. *)
Definition rx_digit : rx Z := rx_range 48 57.

Definition rx_lit (c : ascii) : rx unit := λ s,
  match s with
  | String c' s' => if bool_decide (c' = c) then [(tt, s')] else []
  | EmptyString => []
  end.

(** [p|q]: every success of [p] is tried before any of [q]. *)
Definition rx_alt {A} (p q : rx A) : rx A := λ s, p s ++ q s.

(** [pq]: for each success of [p] in order, the successes of [q] after it. *)
Definition rx_seq {A B C} (f : A → B → C) (p : rx A) (q : rx B) : rx C := λ s,
  List.flat_map (λ '(a, s1), List.map (λ '(b, s2), (f a b, s2)) (q s1)) (p s).

Definition rx_then {A B} (p : rx A) (q : rx B) : rx B := rx_seq (λ _ b, b) p q.

(** [%m] *)
Definition rx_m : rx Z :=
  rx_alt (rx_seq (λ _ d, 10 + d) (rx_lit "1") (rx_range 48 50))
 (rx_alt (rx_then (rx_lit "0") (rx_range 49 57))
         (rx_range 49 57)).

(** [%d] *)
Definition rx_d : rx Z :=
  rx_alt (rx_seq (λ _ d, 30 + d) (rx_lit "3") (rx_range 48 49))
 (rx_alt (rx_seq (λ a b, 10 * a + b) (rx_range 49 50) rx_digit)
 (rx_alt (rx_then (rx_lit "0") (rx_range 49 57))
 (rx_alt (rx_range 49 57)
         (rx_then (rx_lit " ") (rx_range 49 57))))).

(** [%Y] *)
Definition rx_Y : rx Z :=
  rx_seq (λ a b, 100 * a + b)
    (rx_seq (λ a b, 10 * a + b) rx_digit rx_digit)
    (rx_seq (λ a b, 10 * a + b) rx_digit rx_digit).

(** ["%m/%d/%Y"]: month, day, year. *)
Definition rx_mdY : rx (Z * Z * Z) :=
  rx_seq (λ m '(d, y), (m, d, y)) rx_m
    (rx_then (rx_lit "/") (rx_seq pair rx_d (rx_then (rx_lit "/") rx_Y))).

(** ** [datetime] values and their construction *)

(** A [datetime] produced by this format: its time fields are all zero. *)
Record datetime := mk_datetime { dt_year : Z; dt_month : Z; dt_day : Z }.

#[export] Instance datetime_eq_dec : EqDecision datetime.
Proof. solve_decision. Defined.

Definition is_leap (y : Z) : bool :=
  (y mod 4 =? 0) && (negb (y mod 100 =? 0) || (y mod 400 =? 0)).

(** [_days_in_month] *)
Definition days_in_month (y m : Z) : Z :=
  if m =? 2 then (if is_leap y then 29 else 28)
  else if (m =? 4) || (m =? 6) || (m =? 9) || (m =? 11) then 30
  else 31.

(** [datetime(year, month, day)]: [_check_date_fields]. *)
Definition mk_date (y m d : Z) : result datetime :=
  if (1 <=? y) && (y <=? 9999) && (1 <=? m) && (m <=? 12)
     && (1 <=? d) && (d <=? days_in_month y m)
  then Ok (mk_datetime y m d) else Raise ValueError.

(** [datetime.strptime(s, "%m/%d/%Y")] *)
Definition strptime_mdY (s : string) : result datetime :=
  match rx_mdY s with
  | [] => Raise ValueError
  | ((m, d, y), rest) :: _ =>
      if bool_decide (rest = "") then mk_date y m d else Raise ValueError
  end.

(** [a < b] on [datetime]: lexicographic on (year, month, day). *)
Definition dt_lt (a b : datetime) : bool :=
  (dt_year a <? dt_year b)
  || ((dt_year a =? dt_year b)
      && ((dt_month a <? dt_month b)
          || ((dt_month a =? dt_month b) && (dt_day a <? dt_day b)))).

(** [compare_dates(d1, d2)]: the bare [except] turns every failure into
    [False]. *)
Definition compare_dates (d1 d2 : string) : bool :=
  match strptime_mdY d1 with
  | Raise _ => false
  | Ok date1 =>
      match strptime_mdY d2 with
      | Raise _ => false
      | Ok date2 => dt_lt date2 date1
      end
  end.

(** ** Zero-padded rendering of a date, the text the CSV export carries *)

Definition digit_char (k : Z) : ascii := ascii_of_nat (48 + Z.to_nat k).

Definition two_digits (n : Z) : string :=
  String (digit_char (n / 10)) (String (digit_char (n mod 10)) EmptyString).

Definition four_digits (n : Z) : string :=
  two_digits (n / 100) +:+ two_digits (n mod 100).

(** ["MM/DD/YYYY"] *)
Definition mdY_text (dt : datetime) : string :=
  two_digits (dt_month dt) +:+ "/" +:+ two_digits (dt_day dt) +:+ "/"
  +:+ four_digits (dt_year dt).

(** A date that [datetime] accepts. *)
Definition valid_date (dt : datetime) : Prop :=
  1 ≤ dt_year dt ≤ 9999 ∧ 1 ≤ dt_month dt ≤ 12
  ∧ 1 ≤ dt_day dt ≤ days_in_month (dt_year dt) (dt_month dt).

(** ** Days since 0001-01-01: [date.toordinal] (CPython Lib/_pydatetime.py)

    The calendar's own count of days, used as the reference for what
    "later" means: [_ymd2ord(y, m, d)] is the number of days before the
    year, plus those before the month in that year, plus the day. *)

(** [_DAYS_BEFORE_MONTH[m]]: the days of a common year before month [m]. *)
Definition DAYS_BEFORE_MONTH (m : Z) : Z :=
  match m with
  | 1 => 0 | 2 => 31 | 3 => 59 | 4 => 90 | 5 => 120 | 6 => 151
  | 7 => 181 | 8 => 212 | 9 => 243 | 10 => 273 | 11 => 304 | 12 => 334
  | _ => -1
  end.

(** [_days_before_month(year, month)] *)
Definition days_before_month (y m : Z) : Z :=
  DAYS_BEFORE_MONTH m + (if (2 <? m) && is_leap y then 1 else 0).

(** [_days_before_year(year)] *)
Definition days_before_year (y : Z) : Z :=
  let y1 := y - 1 in y1 * 365 + y1 / 4 - y1 / 100 + y1 / 400.

(** [_ymd2ord(year, month, day)], i.e. [date.toordinal()] *)
Definition toordinal (dt : datetime) : Z :=
  days_before_year (dt_year dt) + days_before_month (dt_year dt) (dt_month dt) + dt_day dt.

(** ** Lemmas on the regex nodes *)

Lemma rx_seq_head {A B C} (f : A → B → C) p q s a s1 l1 b s2 l2 :
  p s = (a, s1) :: l1 → q s1 = (b, s2) :: l2 →
  ∃ l, rx_seq f p q s = (f a b, s2) :: l.
Proof.
  intros Hp Hq. unfold rx_seq. rewrite Hp. simpl. rewrite Hq. simpl. by eexists.
Qed.

Lemma rx_lit_head c r : rx_lit c (String c r) = [(tt, r)].
Proof. unfold rx_lit. by rewrite bool_decide_eq_true_2. Qed.

Lemma rx_digit_char k r : 0 ≤ k ≤ 9 → rx_digit (String (digit_char k) r) = [(k, r)].
Proof.
  intros Hk. assert (k = 0 ∨ k = 1 ∨ k = 2 ∨ k = 3 ∨ k = 4 ∨ k = 5 ∨ k = 6
    ∨ k = 7 ∨ k = 8 ∨ k = 9) as Hc by lia.
  repeat destruct Hc as [-> | Hc]; try subst k; reflexivity.
Qed.

Lemma days_in_month_le y m : days_in_month y m ≤ 31.
Proof. unfold days_in_month. repeat case_match; lia. Qed.

(** Every month 1..12, written with two digits, is read back first. *)
Lemma rx_m_two_digits m r :
  1 ≤ m ≤ 12 → ∃ l, rx_m (two_digits m +:+ r) = (m, r) :: l.
Proof.
  intros Hm. assert (m = 1 ∨ m = 2 ∨ m = 3 ∨ m = 4 ∨ m = 5 ∨ m = 6 ∨ m = 7
    ∨ m = 8 ∨ m = 9 ∨ m = 10 ∨ m = 11 ∨ m = 12) as Hc by lia.
  repeat destruct Hc as [-> | Hc]; try subst m; eexists; reflexivity.
Qed.

Lemma rx_d_two_digits d r :
  1 ≤ d ≤ 31 → ∃ l, rx_d (two_digits d +:+ r) = (d, r) :: l.
Proof.
  intros Hd.
  assert (∃ k : nat, d = Z.of_nat k ∧ (1 ≤ k ≤ 31)%nat) as (k & -> & Hk)
    by (exists (Z.to_nat d); lia).
  do 32 (destruct k as [|k]; [lia || (eexists; reflexivity)|]). lia.
Qed.

Lemma rx_seq_single {A B C} (f : A → B → C) p q s a s1 b s2 :
  p s = [(a, s1)] → q s1 = [(b, s2)] → rx_seq f p q s = [(f a b, s2)].
Proof. intros Hp Hq. unfold rx_seq. rewrite Hp. simpl. by rewrite Hq. Qed.

Lemma rx_Y_four_digits y r :
  0 ≤ y ≤ 9999 → rx_Y (four_digits y +:+ r) = [(y, r)].
Proof.
  intros Hy.
  change (four_digits y +:+ r) with
    (String (digit_char (y / 100 / 10)) (String (digit_char (y / 100 mod 10))
      (String (digit_char (y mod 100 / 10)) (String (digit_char (y mod 100 mod 10)) r)))).
  unfold rx_Y.
  erewrite rx_seq_single; [| eapply rx_seq_single; apply rx_digit_char
                           | eapply rx_seq_single; apply rx_digit_char]; try zdiv_lia.
  f_equal. f_equal. zdiv_lia.
Qed.

(** The three pieces of a rendered date are read back, in order, first. *)
Lemma rx_mdY_text dt :
  valid_date dt →
  ∃ l, rx_mdY (mdY_text dt) = ((dt_month dt, dt_day dt, dt_year dt), "") :: l.
Proof.
  destruct dt as [y m d]; intros (Hy & Hm & Hd); simpl in *.
  pose proof (days_in_month_le y m).
  destruct (rx_m_two_digits m ("/" +:+ two_digits d +:+ "/" +:+ four_digits y))
    as [lm Em]; [lia|].
  destruct (rx_d_two_digits d ("/" +:+ four_digits y)) as [ld Ed]; [lia|].
  assert (Ey : rx_Y (four_digits y) = [(y, "")]).
  { rewrite <- (rx_Y_four_digits y ""); [|lia]. f_equal. }
  destruct (rx_seq_head (λ _ b, b) (rx_lit "/") rx_Y ("/" +:+ four_digits y)
    tt (four_digits y) [] y "" [] (rx_lit_head _ _) Ey) as [l1 E1].
  destruct (rx_seq_head pair rx_d (rx_then (rx_lit "/") rx_Y) _ _ _ _ _ _ _ Ed E1)
    as [l2 E2].
  destruct (rx_seq_head (λ _ b, b) (rx_lit "/") (rx_seq pair rx_d (rx_then (rx_lit "/") rx_Y))
    _ tt _ [] _ _ _ (rx_lit_head _ _) E2) as [l3 E3].
  destruct (rx_seq_head (λ m '(d, y), (m, d, y)) rx_m _ _ _ _ _ _ _ _ Em E3) as [l4 E4].
  exists l4. exact E4.
Qed.

(** ** [datetime(...)] and [strptime] *)

Lemma mk_date_spec y m d :
  (mk_date y m d = Ok (mk_datetime y m d) ∧ valid_date (mk_datetime y m d))
  ∨ (mk_date y m d = Raise ValueError ∧ ¬ valid_date (mk_datetime y m d)).
Proof.
  unfold mk_date, valid_date; simpl.
  destruct (_ && _) eqn:E; [left | right]; zbool; split; try done; lia.
Qed.

Lemma strptime_mdY_Ok s dt :
  strptime_mdY s = Ok dt →
  ∃ l, rx_mdY s = ((dt_month dt, dt_day dt, dt_year dt), "") :: l.
Proof.
  unfold strptime_mdY. destruct (rx_mdY s) as [|[[[m d] y] rest] l]; [done|].
  case_bool_decide; [subst rest|done].
  destruct (mk_date_spec y m d) as [[-> _]|[-> _]]; [|done].
  intros [= <-]. by exists l.
Qed.

(** ** Ordering of [datetime] *)

Lemma dt_lt_irrefl a : dt_lt a a = false.
Proof. destruct a; unfold dt_lt; simpl; zbool; lia. Qed.

Lemma dt_lt_trans a b c : dt_lt a b = true → dt_lt b c = true → dt_lt a c = true.
Proof. destruct a, b, c; unfold dt_lt; simpl; zbool; lia. Qed.

Lemma dt_lt_total a b : a ≠ b → dt_lt a b = true ∨ dt_lt b a = true.
Proof.
  destruct a as [y m d], b as [y' m' d']; unfold dt_lt; simpl; intros Hne.
  zbool. destruct (Z.lt_trichotomy y y') as [|[<-|]]; [lia| |lia].
  destruct (Z.lt_trichotomy m m') as [|[<-|]]; [lia| |lia].
  destruct (Z.lt_trichotomy d d') as [|[<-|]]; [lia|congruence|lia].
Qed.

Lemma dt_lt_false_trans a b c : dt_lt a b = true → dt_lt a c = false → dt_lt b c = false.
Proof. destruct a, b, c; unfold dt_lt; simpl; zbool; lia. Qed.

(** ** The day count *)

Lemma days_before_year_succ y :
  days_before_year (y + 1) = days_before_year y + 365 + (if is_leap y then 1 else 0).
Proof. unfold days_before_year, is_leap. destruct (_ && _) eqn:E; zbool; zdiv_lia. Qed.

Lemma days_before_year_mono y y' : y ≤ y' → days_before_year y ≤ days_before_year y'.
Proof. unfold days_before_year. intros. zdiv_lia. Qed.

Lemma month_cases m : 1 ≤ m ≤ 12 →
  m = 1 ∨ m = 2 ∨ m = 3 ∨ m = 4 ∨ m = 5 ∨ m = 6 ∨ m = 7 ∨ m = 8 ∨ m = 9 ∨ m = 10 ∨ m = 11 ∨ m = 12.
Proof. lia. Qed.

(** Case on the month [m], for [1 <= m <= 12]. *)
Local Ltac month_cases m :=
  let Hm := fresh "Hm" in
  pose proof (month_cases m ltac:(lia)) as Hm; destruct_or! Hm; subst m.

(** A month ends within its year... *)
Lemma days_before_month_end y m : 1 ≤ m ≤ 12 →
  0 ≤ days_before_month y m ∧
  days_before_month y m + days_in_month y m ≤ 365 + (if is_leap y then 1 else 0).
Proof.
  intros Hm. unfold days_before_month, days_in_month. month_cases m; simpl; destruct (is_leap y); lia.
Qed.

(** ... and before the months that follow it. *)
Lemma days_before_month_lt y m m' : 1 ≤ m → m < m' → m' ≤ 12 →
  days_before_month y m + days_in_month y m ≤ days_before_month y m'.
Proof.
  intros ???. unfold days_before_month, days_in_month.
  month_cases m; month_cases m'; simpl; destruct (is_leap y); lia.
Qed.

(** A later date has more days since 0001-01-01. *)
Lemma toordinal_lt a b : valid_date a → valid_date b → dt_lt a b = true → toordinal a < toordinal b.
Proof.
  destruct a as [y m d], b as [y' m' d']; unfold valid_date, toordinal, dt_lt; simpl.
  intros (Hy1 & Hm1 & Hd1) (Hy2 & Hm2 & Hd2) Hlt. zbool.
  pose proof (days_before_month_end y m). pose proof (days_before_month_end y' m').
  destruct Hlt as [Hy|[<- [Hm|[<- Hd]]]]; [|pose proof (days_before_month_lt y m m')|]; try lia.
  pose proof (days_before_year_succ y). pose proof (days_before_year_mono (y + 1) y').
  destruct (is_leap y); lia.
Qed.

Lemma dt_lt_toordinal a b :
  valid_date a → valid_date b → dt_lt a b = true ↔ toordinal a < toordinal b.
Proof.
  intros Ha Hb. split; [by apply toordinal_lt|]. intros Hlt.
  destruct (dt_lt a b) eqn:E; [done|]. destruct (decide (a = b)) as [->|Hne]; [lia|].
  destruct (dt_lt_total a b Hne) as [?|Hba]; [congruence|].
  pose proof (toordinal_lt b a Hb Ha Hba). lia.
Qed.

Lemma strptime_mdY_valid s dt : strptime_mdY s = Ok dt → valid_date dt.
Proof.
  unfold strptime_mdY. destruct (rx_mdY s) as [|[[[m d] y] rest] l]; [done|].
  case_bool_decide; [|done].
  destruct (mk_date_spec y m d) as [[-> Hv]|[-> _]]; [by intros [= <-]|done].
Qed.

Lemma strptime_NA : strptime_mdY "N/A" = Raise ValueError.
Proof. reflexivity. Qed.

Lemma compare_dates_eval d1 d2 a b :
  strptime_mdY d1 = Ok a → strptime_mdY d2 = Ok b → compare_dates d1 d2 = dt_lt b a.
Proof. intros E1 E2. unfold compare_dates. by rewrite E1, E2. Qed.

(** ** Properties of [strptime] and [compare_dates] *)

(** Claim C14: every date that [datetime] accepts, written ["MM/DD/YYYY"] with
    zero padding, is parsed back by [strptime(_, "%m/%d/%Y")] to itself. *)
Theorem strptime_roundtrip dt : valid_date dt → strptime_mdY (mdY_text dt) = Ok dt.
Proof.
  intros Hv. destruct (rx_mdY_text dt Hv) as [l E].
  unfold strptime_mdY. rewrite E, bool_decide_eq_true_2 by done.
  destruct dt as [y m d]. simpl.
  destruct (mk_date_spec y m d) as [[-> _]|[_ Hn]]; [done|contradiction].
Qed.

Lemma strptime_roundtrip_witness :
  valid_date (mk_datetime 2024 2 29)
  ∧ strptime_mdY (mdY_text (mk_datetime 2024 2 29)) = Ok (mk_datetime 2024 2 29).
Proof.
  assert (H : valid_date (mk_datetime 2024 2 29)) by (repeat split; cbv; intros; discriminate).
  split; [exact H | apply strptime_roundtrip; exact H].
Defined.

(** Claim C15: whatever text [strptime] accepts, the [datetime] it returns is a
    real calendar date: year 1..9999, month 1..12, day within the month. *)
Theorem strptime_valid s dt : strptime_mdY s = Ok dt → valid_date dt.
Proof.
  unfold strptime_mdY. destruct (rx_mdY s) as [|[[[m d] y] rest] l]; [done|].
  case_bool_decide; [|done].
  destruct (mk_date_spec y m d) as [[-> Hv]|[-> _]]; [|done].
  by intros [= <-].
Qed.

Lemma strptime_valid_witness :
  strptime_mdY "1/ 5/2024" = Ok (mk_datetime 2024 1 5)
  ∧ valid_date (mk_datetime 2024 1 5).
Proof.
  split; [reflexivity|]. apply (strptime_valid "1/ 5/2024"). reflexivity.
Defined.

(** Claim C16: [compare_dates] never raises and answers [False] as soon as
    either text is not a valid ["%m/%d/%Y"] date (the bare [except]). *)
Theorem compare_dates_error d1 d2 :
  (∃ e, strptime_mdY d1 = Raise e) ∨ (∃ e, strptime_mdY d2 = Raise e) →
  compare_dates d1 d2 = false.
Proof.
  unfold compare_dates. intros [[e ->]|[e E]]; [done|].
  destruct (strptime_mdY d1); [by rewrite E|done].
Qed.

Lemma compare_dates_error_witness :
  strptime_mdY "not-a-date" = Raise ValueError
  ∧ compare_dates "not-a-date" "01/05/2024" = false.
Proof.
  split; [reflexivity|]. apply compare_dates_error. left. exists ValueError. reflexivity.
Defined.

Lemma compare_dates_Ok d1 d2 :
  compare_dates d1 d2 = true →
  ∃ a b, strptime_mdY d1 = Ok a ∧ strptime_mdY d2 = Ok b ∧ dt_lt b a = true.
Proof.
  unfold compare_dates.
  destruct (strptime_mdY d1) as [a|], (strptime_mdY d2) as [b|]; try done.
  intros H. by exists a, b.
Qed.

(** [compare_dates] is irreflexive: a date is never later than itself. *)
Theorem compare_dates_irrefl d : compare_dates d d = false.
Proof.
  unfold compare_dates. destruct (strptime_mdY d); [apply dt_lt_irrefl|done].
Qed.

(** Claim C18: [compare_dates(d1, d2)] is [True] exactly when both texts
    are dates [strptime] accepts and the first is later in the calendar,
    counted in days since 0001-01-01 as [date.toordinal] counts them: the
    comparison the code makes (the tuple order of [datetime]) is the
    calendar's order, in the direction "[d1] after [d2]". *)
Theorem compare_dates_ordinal d1 d2 :
  compare_dates d1 d2 = true ↔
  ∃ a b, strptime_mdY d1 = Ok a ∧ strptime_mdY d2 = Ok b ∧ toordinal b < toordinal a.
Proof.
  split.
  - intros (a & b & Ea & Eb & H)%compare_dates_Ok. exists a, b. split_and!; [done|done|].
    apply dt_lt_toordinal; eauto using strptime_mdY_valid.
  - intros (a & b & Ea & Eb & H). rewrite (compare_dates_eval _ _ a b Ea Eb).
    apply dt_lt_toordinal; eauto using strptime_mdY_valid.
Qed.

(** Claim C17: on rendered valid dates, [compare_dates(a, b)] is exactly
    "[a] is after [b]" in the calendar (year, then month, then day). *)
Theorem compare_dates_text a b :
  valid_date a → valid_date b → compare_dates (mdY_text a) (mdY_text b) = dt_lt b a.
Proof.
  intros Ha Hb. unfold compare_dates. by rewrite !strptime_roundtrip.
Qed.

Lemma compare_dates_text_witness :
  compare_dates (mdY_text (mk_datetime 2024 1 20)) (mdY_text (mk_datetime 2024 1 5))
  = dt_lt (mk_datetime 2024 1 5) (mk_datetime 2024 1 20).
Proof. apply compare_dates_text; repeat split; cbv; intros; discriminate. Defined.

End Strptime.
