(* ===== verification/TripNumber.v ===== *)
(** * [extract_trip_number] (src/main.py, lines 19-23)

    [int(''.join(filter(str.isdigit, trip_id)))] with every exception mapped to
    [0].  [str.isdigit] keeps the Latin-1 superscripts U+00B2, U+00B3, U+00B9,
    which [int()] refuses; and CPython (3.11 and later, the default
    [sys.get_int_max_str_digits()]) refuses a decimal string of more than 4300
    digits.  Both refusals are [ValueError]s, caught by the bare [except]. *)

From Stdlib Require Import Ascii ZArith Lia.
From stdpp Require Import base list strings.
From S2P Require Import Prelude PyStr.

Module TripNumber.

Local Open Scope Z_scope.

(** CPython's default limit on the digits [int()] converts. *)
Definition int_max_str_digits : nat := 4300.

Fixpoint decimal_value_acc (acc : Z) (s : string) : Z :=
  match s with
  | EmptyString => acc
  | String c s' => decimal_value_acc (10 * acc + digit_value c) s'
  end.

Definition decimal_value (s : string) : Z := decimal_value_acc 0 s.

(** [int(s)] on the argument it gets here, a string of [str.isdigit]
    characters: no sign, no blanks, no underscores can occur. *)
Definition py_int_digits (s : string) : result Z :=
  if bool_decide (s = "") then Raise ValueError
  else if negb (str_forallb py_isdecimal s) then Raise ValueError
  else if (int_max_str_digits <? String.length s)%nat then Raise ValueError
  else Ok (decimal_value s).

(** [extract_trip_number(trip_id)] *)
Definition extract_trip_number (trip_id : string) : Z :=
  match py_int_digits (str_filter py_isdigit trip_id) with
  | Ok n => n
  | Raise _ => 0
  end.

(** The reading of the spec: the decimal digits of the identifier, in order,
    as a number; no digit at all reads as [0]. *)
Definition trip_ordinal_spec (trip_id : string) : Z :=
  decimal_value (str_filter py_isdecimal trip_id).

(** ** Lemmas *)

Lemma decimal_value_acc_bounds s acc :
  str_forallb py_isdecimal s = true → 0 ≤ acc →
  acc * 10 ^ Z.of_nat (String.length s) ≤ decimal_value_acc acc s
  < (acc + 1) * 10 ^ Z.of_nat (String.length s).
Proof.
  revert acc. induction s as [|c s IH]; intros acc Hs Hacc; simpl in *; [rewrite Z.mul_1_r; lia|].
  apply andb_prop in Hs as [Hc Hs]. pose proof (digit_value_decimal c Hc).
  destruct (IH (10 * acc + digit_value c) Hs ltac:(lia)) as [Hlo Hhi].
  rewrite Nat2Z.inj_succ, Z.pow_succ_r by lia.
  pose proof (Z.pow_pos_nonneg 10 (Z.of_nat (String.length s)) ltac:(lia) ltac:(lia)).
  split; nia.
Qed.

Lemma decimal_value_bounds s :
  str_forallb py_isdecimal s = true →
  0 ≤ decimal_value s < 10 ^ Z.of_nat (String.length s).
Proof. intros H. pose proof (decimal_value_acc_bounds s 0 H ltac:(lia)). unfold decimal_value. lia. Qed.

Lemma py_int_digits_Ok s n :
  py_int_digits s = Ok n →
  str_forallb py_isdecimal s = true ∧ (String.length s ≤ int_max_str_digits)%nat
  ∧ n = decimal_value s.
Proof.
  unfold py_int_digits. case_bool_decide; [done|].
  destruct (str_forallb py_isdecimal s); [|done].
  destruct (int_max_str_digits <? String.length s)%nat eqn:E; [done|].
  zbool. intros [= <-]. done.
Qed.

(** ** Properties *)

(** Claim C20: the trip ordinal is a non-negative integer below [10^4300]:
    [extract_trip_number] is total and bounded, whatever the identifier. *)
Theorem extract_trip_number_bounds t :
  0 ≤ extract_trip_number t < 10 ^ 4300.
Proof.
  unfold extract_trip_number.
  destruct (py_int_digits _) as [n|] eqn:E.
  - apply py_int_digits_Ok in E as (Hd & Hlen & ->).
    pose proof (decimal_value_bounds _ Hd) as [Hlo Hhi]. split; [exact Hlo|].
    eapply Z.lt_le_trans; [exact Hhi|].
    apply Z.pow_le_mono_r; unfold int_max_str_digits in Hlen; lia.
  - split; [lia|]. apply Z.pow_pos_nonneg; lia.
Qed.

(** Claim C19: when the digits of the identifier are plain ASCII digits and at
    most 4300 of them, [extract_trip_number] is the spec's ordinal: the
    decimal digits read in order as a number, [0] when there are none. *)
Theorem extract_trip_number_spec t :
  str_forallb py_isdecimal (str_filter py_isdigit t) = true →
  (String.length (str_filter py_isdigit t) ≤ int_max_str_digits)%nat →
  extract_trip_number t = trip_ordinal_spec t.
Proof.
  intros Hd Hlen. unfold extract_trip_number, trip_ordinal_spec, py_int_digits.
  rewrite <- (str_filter_isdigit_decimal t Hd), Hd.
  case_bool_decide as Hnil; [by rewrite Hnil|].
  destruct (int_max_str_digits <? _)%nat eqn:E; zbool; [lia|done].
Qed.

Lemma extract_trip_number_spec_witness :
  extract_trip_number "TRIP-12" = trip_ordinal_spec "TRIP-12"
  ∧ trip_ordinal_spec "TRIP-12" = 12.
Proof.
  split; [|reflexivity].
  apply extract_trip_number_spec; [reflexivity | cbv; lia].
Defined.

(** Claim C32: an identifier holding a superscript digit ([str.isdigit] but
    not decimal, e.g. U+00B2) has ordinal [0]: [int()] rejects the joined
    digits, although the spec's reading keeps the decimal digits. *)
Theorem extract_trip_number_superscript t :
  str_forallb py_isdecimal (str_filter py_isdigit t) = false →
  extract_trip_number t = 0.
Proof.
  intros H. unfold extract_trip_number, py_int_digits. rewrite H.
  by case_bool_decide.
Qed.

(** ["T²5"] with U+00B2 as one code point. *)
Definition trip_superscript_example : string :=
  String "T" (String (ascii_of_nat 178) (String "5" EmptyString)).

Lemma extract_trip_number_superscript_witness :
  extract_trip_number trip_superscript_example = 0
  ∧ trip_ordinal_spec trip_superscript_example = 5.
Proof.
  split; [|reflexivity]. apply extract_trip_number_superscript. reflexivity.
Defined.

Fixpoint repeat_char (n : nat) (c : ascii) : string :=
  match n with O => EmptyString | S n' => String c (repeat_char n' c) end.

(** Claim C33: an identifier with more than 4300 digits has ordinal [0]:
    CPython's [int()] refuses to convert it. *)
Theorem extract_trip_number_too_long t :
  (int_max_str_digits < String.length (str_filter py_isdigit t))%nat →
  extract_trip_number t = 0.
Proof.
  intros H. unfold extract_trip_number, py_int_digits.
  case_bool_decide; [done|]. destruct (str_forallb _ _); [|done].
  apply Nat.ltb_lt in H. by rewrite H.
Qed.

Lemma extract_trip_number_too_long_witness :
  extract_trip_number (repeat_char 4301 "7") = 0.
Proof. apply extract_trip_number_too_long. vm_compute. lia. Defined.

End TripNumber.
