(* ===== verification/PyDict.v ===== *)
(** * Python [dict] with [str] keys, as [process_csv] uses [driver_data]

    The reducer needs four things of a dict: lookup ([k in d], [d[k]]),
    assignment ([d[k] = v]), the empty dict, and iteration in insertion order
    ([d.items()]): Python dicts keep keys in the order they were first
    inserted, and reassigning an existing key keeps its position.
    [PyDict] is that interface, [PyDictLaws] its laws, stated under a
    representation invariant [dict_wf] that the empty dict has and
    assignment keeps.  The reducer's theorems are proved against the laws;
    [assoc] (an association list in insertion order) implements them and is
    the instance used to run the model on concrete inputs. *)

From stdpp Require Import base list sets strings.
From S2P Require Import Prelude.

Class PyDict (D : Type → Type) := {
  dict_empty {V} : D V;
  dict_get {V} : string → D V → option V;
  dict_set {V} : string → V → D V → D V;
  dict_items {V} : D V → list (string * V);
  dict_wf {V} : D V → Prop;
}.

(** Reassigning the value of key [k] in an item list. *)
Definition items_assign {V} (k : string) (v : V) (its : list (string * V)) :=
  (λ kw : string * V, if decide (kw.1 = k) then (k, v) else kw) <$> its.

Class PyDictLaws (D : Type → Type) `{!PyDict D} := {
  dict_wf_empty {V} : dict_wf (dict_empty (V:=V));
  dict_wf_set {V} k (v : V) d : dict_wf d → dict_wf (dict_set k v d);
  dict_get_empty {V} k : dict_get k (dict_empty (V:=V)) = None;
  dict_get_set {V} k k' (v : V) d :
    dict_wf d → dict_get k' (dict_set k v d) = if decide (k = k') then Some v else dict_get k' d;
  dict_items_empty {V} : dict_items (dict_empty (V:=V)) = [];
  dict_items_set_new {V} k (v : V) d :
    dict_wf d → dict_get k d = None → dict_items (dict_set k v d) = dict_items d ++ [(k, v)];
  dict_items_set_old {V} k (v : V) d :
    dict_wf d → is_Some (dict_get k d) → dict_items (dict_set k v d) = items_assign k v (dict_items d);
  dict_items_get {V} k (v : V) d :
    dict_wf d → (k, v) ∈ dict_items d ↔ dict_get k d = Some v;
  dict_items_nodup {V} (d : D V) : dict_wf d → NoDup (dict_items d).*1;
}.

Section Ops.
Context `{PyDict D} {V : Type}.

(** [d[k]] as an expression: [KeyError] when [k] is absent. *)
Definition dict_getitem (k : string) (d : D V) : result V :=
  match dict_get k d with
  | Some v => Ok v
  | None => Raise KeyError
  end.

(** [d.setdefault(k, v)] used as a statement (its value is dropped). *)
Definition dict_setdefault (k : string) (v : V) (d : D V) : D V :=
  match dict_get k d with
  | Some _ => d
  | None => dict_set k v d
  end.

Definition dict_keys (d : D V) : list string := (dict_items d).*1.
End Ops.

(** ** The association-list implementation *)

Definition assoc (V : Type) : Type := list (string * V).

Fixpoint assoc_get {V} (k : string) (l : assoc V) : option V :=
  match l with
  | [] => None
  | (k', v) :: l' => if decide (k' = k) then Some v else assoc_get k l'
  end.

Fixpoint assoc_set {V} (k : string) (v : V) (l : assoc V) : assoc V :=
  match l with
  | [] => [(k, v)]
  | (k', w) :: l' => if decide (k' = k) then (k', v) :: l' else (k', w) :: assoc_set k v l'
  end.

#[export] Instance assoc_dict : PyDict assoc := {
  dict_empty V := [];
  dict_get V := assoc_get;
  dict_set V := assoc_set;
  dict_items V l := l;
  dict_wf V l := NoDup l.*1;
}.

Section AssocLemmas.
Context {V : Type}.
Implicit Types (l : assoc V) (k : string) (v : V).

Lemma assoc_get_None k l : assoc_get k l = None ↔ k ∉ l.*1.
Proof.
  induction l as [|[k' w] l IH]; simpl; [set_solver|].
  case_decide; subst; [set_solver|]. rewrite IH. set_solver.
Qed.

Lemma assoc_set_new k v l : assoc_get k l = None → assoc_set k v l = l ++ [(k, v)].
Proof.
  induction l as [|[k' w] l IH]; simpl; [done|].
  case_decide; [done|]. intros Hn. by rewrite IH.
Qed.

Lemma items_assign_notin k v l : k ∉ l.*1 → items_assign k v l = l.
Proof.
  induction l as [|[k' w] l IH]; simpl; [done|]. rewrite not_elem_of_cons.
  intros [Hne Hl]. unfold items_assign in *. simpl.
  rewrite decide_False by done. f_equal. by apply IH.
Qed.

Lemma assoc_set_old k v l :
  NoDup l.*1 → is_Some (assoc_get k l) → assoc_set k v l = items_assign k v l.
Proof.
  induction l as [|[k' w] l IH]; simpl; [by intros _ []|].
  rewrite NoDup_cons. intros [Hk Hnd] Hs. unfold items_assign; simpl.
  case_decide as E; simpl; [subst k'|].
  - f_equal. symmetry. by apply items_assign_notin.
  - f_equal. by apply IH.
Qed.

Lemma assoc_set_keys k v l :
  (assoc_set k v l).*1 = if decide (k ∈ l.*1) then l.*1 else l.*1 ++ [k].
Proof.
  induction l as [|[k' w] l IH]; [done|]. cbn [assoc_set].
  destruct (decide (k' = k)) as [<-|E]; rewrite !fmap_cons; simpl fst.
  - rewrite decide_True; [done|]. set_solver.
  - rewrite IH. destruct (decide (k ∈ l.*1)), (decide (k ∈ k' :: l.*1)); set_solver.
Qed.

Lemma assoc_wf_set k v l : NoDup l.*1 → NoDup (assoc_set k v l).*1.
Proof.
  intros Hnd. rewrite assoc_set_keys. case_decide; [done|].
  apply NoDup_app. split_and!; [done| set_solver | apply NoDup_singleton].
Qed.

Lemma assoc_get_set k k' v l :
  assoc_get k' (assoc_set k v l) = if decide (k = k') then Some v else assoc_get k' l.
Proof.
  induction l as [|[k'' w] l IH]; simpl.
  - by case_decide.
  - destruct (decide (k'' = k)) as [->|E]; cbn [assoc_get].
    + by repeat case_decide; subst.
    + rewrite IH. by repeat case_decide; subst.
Qed.

Lemma assoc_items_get k v l : NoDup l.*1 → (k, v) ∈ l ↔ assoc_get k l = Some v.
Proof.
  induction l as [|[k' w] l IH]; simpl; [set_solver|].
  rewrite NoDup_cons, elem_of_cons. intros [Hk Hnd].
  case_decide as E; [subst k'|rewrite <- IH by done; naive_solver].
  split; [|naive_solver]. intros [[= ->]|Hin]; [done|].
  destruct Hk. by apply (list_elem_of_fmap_2' fst _ (k, v)).
Qed.
End AssocLemmas.

#[export] Instance assoc_dict_laws : PyDictLaws assoc.
Proof.
  split; intros V; simpl.
  - apply NoDup_nil_2.
  - intros k v d. apply assoc_wf_set.
  - done.
  - intros k k' v d _. apply assoc_get_set.
  - done.
  - intros k v d _. apply assoc_set_new.
  - intros k v d. apply assoc_set_old.
  - intros k v d. apply assoc_items_get.
  - done.
Qed.

(** ** Consequences of the laws, for any implementation *)

Section DictTheory.
Context `{PyDictLaws D} {V : Type}.
Implicit Types (d : D V) (k : string) (v : V).

Lemma items_assign_keys k v (its : list (string * V)) : (items_assign k v its).*1 = its.*1.
Proof.
  induction its as [|[k' w] its IH]; [done|]. unfold items_assign in *.
  rewrite !fmap_cons. case_decide; simpl in *; subst; by rewrite IH.
Qed.

Lemma dict_get_set_eq k v d : dict_wf d → dict_get k (dict_set k v d) = Some v.
Proof. intros Hwf. rewrite dict_get_set by done. by case_decide. Qed.

Lemma dict_get_set_ne k k' v d : dict_wf d → k ≠ k' → dict_get k' (dict_set k v d) = dict_get k' d.
Proof. intros Hwf Hne. rewrite dict_get_set by done. by case_decide. Qed.

Lemma dict_keys_set_old k v d :
  dict_wf d → is_Some (dict_get k d) → dict_keys (dict_set k v d) = dict_keys d.
Proof. intros. unfold dict_keys. rewrite dict_items_set_old by done. apply items_assign_keys. Qed.

Lemma dict_keys_set_new k v d :
  dict_wf d → dict_get k d = None → dict_keys (dict_set k v d) = dict_keys d ++ [k].
Proof. intros. unfold dict_keys. rewrite dict_items_set_new by done. by rewrite fmap_app. Qed.

Lemma dict_keys_get k d : dict_wf d → k ∈ dict_keys d ↔ is_Some (dict_get k d).
Proof.
  intros Hwf. unfold dict_keys. rewrite list_elem_of_fmap. split.
  - intros [[k' v] [-> Hin]]. exists v. by apply dict_items_get.
  - intros [v Hv]. exists (k, v). split; [done|]. by apply dict_items_get.
Qed.

Lemma dict_wf_setdefault k v d : dict_wf d → dict_wf (dict_setdefault k v d).
Proof. intros. unfold dict_setdefault. case_match; auto using dict_wf_set. Qed.

Lemma dict_get_setdefault k k' v d :
  dict_wf d → dict_get k' (dict_setdefault k v d) =
    if decide (k = k') then Some (default v (dict_get k d)) else dict_get k' d.
Proof.
  intros Hwf. unfold dict_setdefault.
  destruct (dict_get k d) as [w|] eqn:E; rewrite ?dict_get_set by done;
    case_decide; subst; done.
Qed.

Lemma dict_keys_setdefault k v d :
  dict_wf d → dict_keys (dict_setdefault k v d) =
    if decide (k ∈ dict_keys d) then dict_keys d else dict_keys d ++ [k].
Proof.
  intros Hwf. unfold dict_setdefault. case_decide as Hin;
    rewrite dict_keys_get in Hin by done.
  - by destruct Hin as [w ->].
  - destruct (dict_get k d) eqn:E; [by destruct Hin|]. by apply dict_keys_set_new.
Qed.

(** Two well-formed dicts with the same keys in the same order and the same
    lookups iterate to the same items. *)
Lemma dict_items_ext d1 d2 :
  dict_wf d1 → dict_wf d2 → dict_keys d1 = dict_keys d2 →
  (∀ k, dict_get k d1 = dict_get k d2) → dict_items d1 = dict_items d2.
Proof.
  intros W1 W2 Hk Hg. apply list_eq. intros j. unfold dict_keys in Hk.
  pose proof (f_equal (.!! j) Hk) as Hj. simpl in Hj. rewrite !list_lookup_fmap in Hj.
  destruct (dict_items d1 !! j) as [[k1 v1]|] eqn:E1,
           (dict_items d2 !! j) as [[k2 v2]|] eqn:E2; simplify_eq/=; [|done].
  apply list_elem_of_lookup_2, (dict_items_get _ _ _ W1) in E1.
  apply list_elem_of_lookup_2, (dict_items_get _ _ _ W2) in E2.
  rewrite Hg in E1. congruence.
Qed.
End DictTheory.

Section DictSetExisting.
Context `{PyDictLaws D} {V : Type}.

(** Assigning to a key already present: well-formed, same key order,
    one lookup changed. *)
Lemma dict_set_existing k v (d : D V) :
  dict_wf d → is_Some (dict_get k d) →
  dict_wf (dict_set k v d) ∧ dict_keys (dict_set k v d) = dict_keys d
  ∧ ∀ k', dict_get k' (dict_set k v d) = if decide (k = k') then Some v else dict_get k' d.
Proof.
  intros Hwf Hs. split_and!; [by apply dict_wf_set | by apply dict_keys_set_old|].
  intros k'. by apply dict_get_set.
Qed.
End DictSetExisting.

Section DictItemsValues.
Context `{PyDictLaws D} {V : Type}.

(** The items of a well-formed dict are its keys paired with their values. *)
Lemma dict_items_keys (g : string → V) (d : D V) :
  dict_wf d → (∀ k w, dict_get k d = Some w → w = g k) →
  dict_items d = (λ k, (k, g k)) <$> dict_keys d.
Proof.
  intros Hwf Hg. unfold dict_keys. rewrite <- list_fmap_compose.
  rewrite <- (list_fmap_id (dict_items d)) at 1. apply list_fmap_ext.
  intros j [k w] Hj. apply list_elem_of_lookup_2, (dict_items_get _ _ _ Hwf) in Hj.
  simpl. f_equal. by apply Hg.
Qed.
End DictItemsValues.
