(* ===== verification/Reducer.v ===== *)
(** * [process_csv] (src/main.py, lines 25-84): the per-driver reducer

    The loop of lines 31-72 as a step function [process_row] on an explicit
    scan state (the locals [driver_data], [current_driver],
    [latest_seen_truck] of lines 27-29), folded over the rows by
    [process_rows]; every statement that can raise ([row[i]], the [split]
    indexing of line 37, [driver_data[current_driver]]) is a [result], so the
    theorem that the loop never raises is a statement about this model.  The
    rows are what [csv.reader] yields (line 26): decoding and CSV splitting
    are the library's.  [build_frame] is the [pd.DataFrame] of lines 75-83.
    The dict is any [PyDictLaws] instance. *)

From Stdlib Require Import Ascii ZArith Lia.
From stdpp Require Import base list sets strings.
From S2P Require Import Prelude PyStr Dates TripNumber PyDict.

Import Strptime TripNumber.

(** The per-driver record of lines 40-42 and 69-71. *)
Record info := mk_info { trip_id : string; truck : string; paperwork_date : string }.

#[export] Instance info_eq_dec : EqDecision info.
Proof. solve_decision. Defined.

Definition default_info : info := mk_info "N/A" "N/A" "N/A".

Definition row := list string.

(** [x or y] for [x : str | None] and a string [y]. *)
Definition py_or (x : option string) (y : string) : string :=
  match x with
  | Some t => if py_truthy t then t else y
  | None => y
  end.

(** Truth value of [current_driver : str | None]. *)
Definition py_truthy_opt (x : option string) : bool :=
  match x with Some s => py_truthy s | None => false end.

(** Line 37: [row[0].split(":",1)[1].split(",")[0].strip()]. *)
Definition driver_of_header (cell0 : string) : result string :=
  let* after := py_index (py_split1 ":" cell0) 1 in
  let* name := py_index (py_split "," after) 0 in
  Ok (py_strip name).

(** Lines 47-50: trip id, truck, driver name, paperwork date, stripped. *)
Definition data_fields (r : row) : result (string * string * string * string) :=
  let* c1 := py_index r 1 in
  let* c4 := py_index r 4 in
  let* c6 := py_index r 6 in
  let* c13 := py_index r 13 in
  Ok (py_strip c1, py_strip c4, py_strip c6, py_strip c13).

(** The condition [should] of lines 61-66. *)
Definition should_replace (existing : info) (tid pdate : string) : bool :=
  bool_decide (paperwork_date existing = "N/A")
  || compare_dates pdate (paperwork_date existing)
  || (bool_decide (pdate = paperwork_date existing)
      && (extract_trip_number (trip_id existing) <? extract_trip_number tid)%Z).

Section Reducer.
Context `{PyDict D}.

(** The locals of lines 27-29. *)
Record scan := mk_scan {
  driver_data : D info;
  current_driver : option string;
  latest_seen_truck : option string;
}.

Definition init_scan : scan := mk_scan dict_empty None None.

(** Lines 47-72, for a row of more than 13 cells while [cur] is in scope. *)
Definition process_data_row (cur : string) (dd : D info) (latest : option string)
    (r : row) : result scan :=
  let* fields := data_fields r in
  let '(tid, trk, dname, pdate) := fields in
  let* dd1 :=
    if py_truthy trk then
      let* ex := dict_getitem cur dd in
      Ok (dict_set cur (mk_info (trip_id ex) trk (paperwork_date ex)) dd)
    else Ok dd in
  let latest1 := if py_truthy trk then Some trk else latest in
  if negb (py_truthy tid) || negb (py_truthy dname) || negb (py_truthy pdate)
  then Ok (mk_scan dd1 (Some cur) latest1)
  else
    let* existing := dict_getitem cur dd1 in
    if should_replace existing tid pdate
    then Ok (mk_scan (dict_set cur (mk_info tid (py_or latest1 (truck existing)) pdate) dd1)
                     (Some cur) latest1)
    else Ok (mk_scan dd1 (Some cur) latest1).

(** One iteration of the loop of line 31 (lines 32-72). *)
Definition process_row (st : scan) (r : row) : result scan :=
  if negb (existsb py_truthy r) then Ok st
  else
    let* cell0 := py_index r 0 in
    if py_startswith cell0 "Driver:" then
      let* cur := driver_of_header cell0 in
      Ok (mk_scan (dict_setdefault cur default_info (driver_data st)) (Some cur) None)
    else if py_truthy_opt (current_driver st) && (13 <? length r)%nat then
      match current_driver st with
      | Some cur => process_data_row cur (driver_data st) (latest_seen_truck st) r
      | None => Ok st
      end
    else Ok st.

Fixpoint process_rows (st : scan) (rows : list row) : result scan :=
  match rows with
  | [] => Ok st
  | r :: rows' => let* st' := process_row st r in process_rows st' rows'
  end.
End Reducer.

Arguments scan D : clear implicits.

(** The [DataFrame] of lines 75-83: no row, no column. *)
Record frame := mk_frame { columns : list string; frame_rows : list (list string) }.

Definition summary_columns : list string :=
  ["Driver"; "Truck"; "Last Paperwork Date"; "Trip ID"].

Definition build_frame (items : list (string * info)) : frame :=
  match items with
  | [] => mk_frame [] []
  | _ => mk_frame summary_columns
           ((λ di : string * info, [di.1; truck di.2; paperwork_date di.2; trip_id di.2]) <$> items)
  end.

(** [process_csv] on the rows [csv.reader] produced. *)
Definition process_csv `{PyDict D} (rows : list row) : result frame :=
  let* st := process_rows init_scan rows in
  Ok (build_frame (dict_items (driver_data st))).

(** ** The rows as the spec reads them *)

(** The text up to the first occurrence of [sep]. *)
Fixpoint take_until (sep : ascii) (s : string) : string :=
  match s with
  | EmptyString => EmptyString
  | String c s' => if bool_decide (c = sep) then EmptyString else String c (take_until sep s')
  end.

(** The spec's header rule: after ["Driver:"], up to the first comma, trimmed. *)
Definition header_name (cell0 : string) : string :=
  py_strip (take_until "," (String.substring 7 (String.length cell0 - 7) cell0)).

(** The fields of a data row: cells 1, 4, 6 and 13, trimmed. *)
Record fields := mk_fields { f_trip : string; f_truck : string; f_name : string; f_date : string }.

Definition cell (r : row) (i : nat) : string := default "" (r !! i).

Definition fields_of_row (r : row) : fields :=
  mk_fields (py_strip (cell r 1)) (py_strip (cell r 4)) (py_strip (cell r 6)) (py_strip (cell r 13)).

Definition complete (f : fields) : bool :=
  py_truthy (f_trip f) && py_truthy (f_name f) && py_truthy (f_date f).

(** What one data row does to its driver's record: the truck is taken
    whenever it is non-empty; the trip and date are replaced by a complete
    row that [should_replace] accepts, keeping the (new) truck. *)
Definition update_info (i : info) (f : fields) : info :=
  let i1 := if py_truthy (f_truck f) then mk_info (trip_id i) (f_truck f) (paperwork_date i) else i in
  if complete f && should_replace i1 (f_trip f) (f_date f)
  then mk_info (f_trip f) (truck i1) (f_date f) else i1.

(** ** Lemmas on the row-level operations *)

Lemma update_info_truck i f :
  truck (update_info i f) = if py_truthy (f_truck f) then f_truck f else truck i.
Proof. unfold update_info. by destruct (py_truthy (f_truck f)), (_ && _). Qed.

Lemma py_split_head sep s : ∃ ps, py_split sep s = take_until sep s :: ps.
Proof.
  induction s as [|c s [ps IH]]; simpl; [by eexists|].
  rewrite IH. case_bool_decide; by eexists.
Qed.

Lemma substring_driver_prefix rest :
  String.substring 7 (String.length ("Driver:" +:+ rest) - 7) ("Driver:" +:+ rest) = rest.
Proof.
  simpl. rewrite ?Nat.sub_0_r.
  apply substring_full.
Qed.

Lemma driver_of_header_spec cell0 :
  py_startswith cell0 "Driver:" = true → driver_of_header cell0 = Ok (header_name cell0).
Proof.
  intros [rest ->]%prefix_app. unfold driver_of_header, header_name.
  rewrite substring_driver_prefix.
  change (py_split1 ":" ("Driver:" +:+ rest)) with ["Driver"; rest]. simpl.
  destruct (py_split_head "," rest) as [ps ->]. done.
Qed.

Lemma cell_lookup r i c : r !! i = Some c → cell r i = c.
Proof. unfold cell. by intros ->. Qed.

Lemma data_fields_spec r :
  (13 < length r)%nat →
  data_fields r = Ok (f_trip (fields_of_row r), f_truck (fields_of_row r),
                      f_name (fields_of_row r), f_date (fields_of_row r)).
Proof.
  intros Hlen. unfold data_fields, fields_of_row.
  destruct (py_index_lt r 1) as (c1 & E1 & ->); [lia|].
  destruct (py_index_lt r 4) as (c4 & E4 & ->); [lia|].
  destruct (py_index_lt r 6) as (c6 & E6 & ->); [lia|].
  destruct (py_index_lt r 13) as (c13 & E13 & ->); [lia|].
  by rewrite (cell_lookup _ _ _ E1), (cell_lookup _ _ _ E4), (cell_lookup _ _ _ E6),
    (cell_lookup _ _ _ E13).
Qed.

Definition replaces (i : info) (f : fields) : bool :=
  complete f && should_replace i (f_trip f) (f_date f).

Lemma should_replace_truck i t tid pd :
  should_replace (mk_info (trip_id i) t (paperwork_date i)) tid pd = should_replace i tid pd.
Proof. by destruct i. Qed.

Lemma update_info_date_trip i f :
  (paperwork_date (update_info i f), trip_id (update_info i f)) =
    if replaces i f then (f_date f, f_trip f) else (paperwork_date i, trip_id i).
Proof.
  unfold update_info, replaces.
  destruct (py_truthy (f_truck f)); rewrite ?should_replace_truck; by destruct (_ && _).
Qed.

Lemma should_replace_cases i tid pd :
  should_replace i tid pd = true →
  paperwork_date i = "N/A"
  ∨ (∃ a b, strptime_mdY pd = Ok a ∧ strptime_mdY (paperwork_date i) = Ok b ∧ dt_lt b a = true)
  ∨ (pd = paperwork_date i ∧ (extract_trip_number (trip_id i) < extract_trip_number tid)%Z).
Proof.
  unfold should_replace. zbool. rewrite !bool_decide_eq_true.
  intros [[HN|Hc]|[Heq Hlt]]; [by left| |by right; right].
  right; left. by apply compare_dates_Ok.
Qed.

Lemma update_info_malformed_date i f e :
  paperwork_date i ≠ "N/A" → strptime_mdY (paperwork_date i) = Raise e →
  paperwork_date (update_info i f) = paperwork_date i.
Proof.
  intros HN HR. pose proof (update_info_date_trip i f) as E.
  destruct (replaces i f) eqn:Hr; injection E as E1 _; rewrite E1; [|done].
  apply andb_prop in Hr as [_ Hs].
  apply should_replace_cases in Hs as [?|[(a & b & _ & Eb & _)|[-> _]]]; congruence.
Qed.

Lemma incomplete_negb f :
  negb (py_truthy (f_trip f)) || negb (py_truthy (f_name f)) || negb (py_truthy (f_date f))
  = negb (complete f).
Proof. unfold complete. by destruct (py_truthy _), (py_truthy _), (py_truthy _). Qed.

Section ReducerLemmas.
Context `{PyDictLaws D}.

(** Lines 47-72 on a row of more than 13 cells, for a driver already in the
    dict and a [latest_seen_truck] that agrees with its stored truck. *)
Lemma process_data_row_spec cur (dd : D info) latest r i :
  dict_wf dd → dict_get cur dd = Some i →
  (∀ t, latest = Some t → py_truthy t = true ∧ truck i = t) →
  (13 < length r)%nat →
  ∃ dd', process_data_row cur dd latest r =
           Ok (mk_scan dd' (Some cur)
                 (if py_truthy (f_truck (fields_of_row r)) then Some (f_truck (fields_of_row r))
                  else latest))
    ∧ dict_wf dd' ∧ dict_keys dd' = dict_keys dd
    ∧ ∀ k, dict_get k dd' =
             if decide (cur = k) then Some (update_info i (fields_of_row r)) else dict_get k dd.
Proof.
  intros Hwf Hi Hlat Hlen. unfold process_data_row.
  rewrite data_fields_spec by done. cbv beta iota zeta.
  rewrite incomplete_negb. unfold update_info.
  set (f := fields_of_row r).
  destruct (py_truthy (f_truck f)) eqn:Et.
  - unfold dict_getitem at 1. rewrite Hi. cbv iota beta.
    set (i1 := mk_info (trip_id i) (f_truck f) (paperwork_date i)).
    destruct (dict_set_existing cur i1 dd) as (W1 & K1 & G1); [done|by eexists|].
    destruct (complete f); cbn [negb andb].
    + unfold dict_getitem. rewrite G1, decide_True by done. cbv iota beta.
      destruct (should_replace i1 _ _).
      * destruct (dict_set_existing cur (mk_info (f_trip f) (py_or (Some (f_truck f)) (truck i1))
          (f_date f)) (dict_set cur i1 dd)) as (W2 & K2 & G2); [done|by rewrite G1, decide_True; eexists|].
        eexists; split_and!; [reflexivity|done|by rewrite K2|].
        intros k. rewrite G2, G1. unfold py_or. rewrite Et. by case_decide.
      * eexists; split_and!; [reflexivity|done|done|]. done.
    + eexists; split_and!; [reflexivity|done|done|done].
  - destruct (complete f); simpl.
    + unfold dict_getitem. rewrite Hi. cbv iota beta.
      destruct (should_replace i _ _).
      * destruct (dict_set_existing cur (mk_info (f_trip f) (py_or latest (truck i)) (f_date f)) dd)
          as (W2 & K2 & G2); [done|by eexists|].
        eexists; split_and!; [reflexivity|done|done|].
        intros k. rewrite G2. destruct latest as [t|]; simpl; [|done].
        destruct (Hlat t eq_refl) as [-> ->]. done.
      * eexists; split_and!; [reflexivity|done|done|]. intros k. case_decide; subst; done.
    + eexists; split_and!; [reflexivity|done|done|]. intros k. case_decide; subst; done.
Qed.

(** The invariant of the loop's locals: [driver_data] is well formed, the
    driver in scope (when truthy) has an entry, and [latest_seen_truck]
    is non-empty and is the truck stored for the driver in scope. *)
Definition scan_wf (st : scan D) : Prop :=
  dict_wf (driver_data st)
  ∧ (∀ cur, current_driver st = Some cur → py_truthy cur = true →
            is_Some (dict_get cur (driver_data st)))
  ∧ (∀ t, latest_seen_truck st = Some t → py_truthy t = true
          ∧ ∃ cur i, current_driver st = Some cur ∧ dict_get cur (driver_data st) = Some i
                     ∧ truck i = t).

Lemma process_row_wf (st : scan D) r :
  scan_wf st → ∃ st', process_row st r = Ok st' ∧ scan_wf st'.
Proof.
  intros Hwf. pose proof Hwf as (W & Hc & L). unfold process_row.
  destruct (existsb py_truthy r) eqn:Eb; cbn [negb]; [|by exists st].
  destruct r as [|c0 rest]; [discriminate|].
  change (py_index (c0 :: rest) 0) with (Ok c0 : result string). cbv iota beta.
  destruct (py_startswith c0 "Driver:") eqn:Eh.
  { rewrite driver_of_header_spec by done. eexists; split; [reflexivity|].
    split_and!; cbn [driver_data current_driver latest_seen_truck]; [by apply dict_wf_setdefault| |done].
    intros cur [= <-] _. rewrite dict_get_setdefault, decide_True by done. by eexists. }
  destruct (current_driver st) as [cur|] eqn:C; cbn [py_truthy_opt andb]; [|by exists st].
  destruct (py_truthy cur) eqn:Ec, (13 <? length (c0 :: rest))%nat eqn:El; cbn [andb];
    try by exists st.
  destruct (Hc cur eq_refl Ec) as [i Hi]. apply Nat.ltb_lt in El.
  edestruct (process_data_row_spec cur (driver_data st) (latest_seen_truck st) (c0 :: rest) i)
    as (dd' & E & W' & K' & G'); [done|done| |done|].
  { intros t Ht. destruct (L t Ht) as (? & cur' & i' & [= <-] & Hi' & <-). by simplify_eq. }
  eexists; split; [exact E|].
  split_and!; cbn [driver_data current_driver latest_seen_truck]; [done| |].
  - intros cur' [= <-] _. rewrite G', decide_True by done. by eexists.
  - intros t Ht.
    enough (py_truthy t = true ∧ truck (update_info i (fields_of_row (c0 :: rest))) = t)
      as [? ?] by (split; [done|]; do 2 eexists; split_and!; [done| |done];
                   rewrite G', decide_True by done; done).
    rewrite update_info_truck.
    destruct (py_truthy (f_truck (fields_of_row (c0 :: rest)))) eqn:Et; rewrite ?Et in Ht.
    + by injection Ht as <-.
    + destruct (L t Ht) as (? & cur' & i' & [= <-] & Hi' & <-). by simplify_eq.
Qed.
End ReducerLemmas.

(** ** Properties of the loop *)

(** A data row with the given trip id, truck, driver name and date in cells
    1, 4, 6 and 13, and 14 cells in all. *)
Definition data_row (tid trk name date : string) : row :=
  [""; tid; ""; ""; trk; ""; name; ""; ""; ""; ""; ""; ""; date].

Definition loop_rows : list row :=
  [["Driver: A, ID1"]; data_row "TRIP-12" "" "a" "03/01/2024"; [""; ""; ""];
   ["Driver: B"]; data_row "X1" "TB" "b" "01/05/2024"; ["short"; "row"]].

Section LoopProps.
Context `{PyDictLaws D}.

(** Claim C2: from any state of the loop's locals that satisfies [scan_wf],
  the loop over any rows never raises (no [IndexError], no [KeyError])
  and ends in a state that satisfies [scan_wf]. *)
Theorem process_rows_wf rows (st : scan D) :
scan_wf st → ∃ st', process_rows st rows = Ok st' ∧ scan_wf st'.
Proof.
revert st. induction rows as [|r rows IH]; intros st Hwf; simpl; [by exists st|].
destruct (process_row_wf st r Hwf) as (st1 & -> & Hwf1). by apply IH.
Qed.

(** Claim C28: once a driver's stored date is text other than ["N/A"] that
  does not parse as ["%m/%d/%Y"], no later data row changes it, however
  recent that row's valid date: a malformed first date blocks the
  recency rule for that driver. *)
Theorem process_data_row_malformed_date cur (dd : D info) latest r i e st' i' :
dict_wf dd → dict_get cur dd = Some i →
(∀ t, latest = Some t → py_truthy t = true ∧ truck i = t) →
(13 < length r)%nat →
paperwork_date i ≠ "N/A" → strptime_mdY (paperwork_date i) = Raise e →
process_data_row cur dd latest r = Ok st' → dict_get cur (driver_data st') = Some i' →
paperwork_date i' = paperwork_date i.
Proof.
intros W Hi Hl Hlen HN HR Hp Hi'.
destruct (process_data_row_spec cur dd latest r i W Hi Hl Hlen) as (dd' & E & _ & _ & G).
rewrite Hp in E. injection E as ->. cbn [driver_data] in Hi'.
rewrite G, decide_True in Hi' by done. injection Hi' as <-.
by apply (update_info_malformed_date _ _ e).
Qed.

(** Claim C29: after a header whose name is empty ([Driver:] or
  [Driver: , ...]), every following row that is not a header leaves the
  state unchanged: [if current_driver and ...] is false for [""]. *)
Theorem process_row_empty_driver (st : scan D) r :
current_driver st = Some "" →
(∀ c0 rest, r = c0 :: rest → py_startswith c0 "Driver:" = false) →
process_row st r = Ok st.
Proof.
intros C Hr. unfold process_row. destruct r as [|c0 rest]; [reflexivity|].
destruct (negb _); [done|].
change (py_index (c0 :: rest) 0) with (Ok c0 : result string). cbv iota beta.
rewrite (Hr c0 rest eq_refl), C. reflexivity.
Qed.
End LoopProps.

(** Witnesses, with the association-list dictionary. *)

(** ** Witnesses: the theorems applied to concrete rows, with the
  association-list dictionary *)

Lemma scan_wf_init : scan_wf (init_scan (D:=assoc)).
Proof. split_and!; [apply NoDup_nil_2|done|done]. Qed.

Definition malformed_dd : assoc info := [("A", mk_info "T1" "X" "2024-01-05")].

Lemma process_rows_wf_witness :
∃ st', process_rows (init_scan (D:=assoc)) loop_rows = Ok st' ∧ scan_wf st'.
Proof. apply process_rows_wf. exact scan_wf_init. Defined.

Lemma process_data_row_malformed_date_witness :
process_data_row "A" malformed_dd None (data_row "T2" "" "a" "12/31/2024")
  = Ok (mk_scan malformed_dd (Some "A") None)
∧ paperwork_date (mk_info "T1" "X" "2024-01-05") = "2024-01-05".
Proof.
split; [vm_compute; reflexivity|].
apply (process_data_row_malformed_date "A" malformed_dd None (data_row "T2" "" "a" "12/31/2024")
         (mk_info "T1" "X" "2024-01-05") ValueError (mk_scan malformed_dd (Some "A") None));
  try reflexivity.
- by repeat constructor; set_solver.
- by intros t.
- simpl; lia.
- discriminate.
Defined.

Lemma process_row_empty_driver_witness :
process_row (mk_scan (D:=assoc) [("", default_info)] (Some "") None)
            (data_row "T1" "TRK" "x" "01/01/2024")
= Ok (mk_scan (D:=assoc) [("", default_info)] (Some "") None).
Proof. apply process_row_empty_driver; [reflexivity|]. intros c0 rest [= <- <-]. reflexivity. Defined.

(** ** The spec's scenarios, and where the code and the spec part *)

(** The end-to-end scenario of the spec: a header
  ["Driver: Jane Doe, ID123"] and one data row give the single summary row
  Jane Doe / TRK9 / 01/01/2024 / T100. *)
Example process_csv_jane_doe :
process_csv (D:=assoc) [["Driver: Jane Doe, ID123"]; data_row "T100" "TRK9" "Jane" "01/01/2024"]
= Ok (mk_frame summary_columns [["Jane Doe"; "TRK9"; "01/01/2024"; "T100"]]).
Proof. vm_compute. reflexivity. Qed.

(** The spec's tie-break and precedence scenarios, in both arrival
  orders: on the same date [TRIP-12] beats [TRIP-7]; [01/20/2024] beats
  [01/05/2024]; and the truck reported is the last non-empty one seen. *)
Example process_csv_scenarios :
process_csv (D:=assoc) [["Driver: A"]; data_row "TRIP-7" "K1" "a" "03/01/2024";
                        data_row "TRIP-12" "" "a" "03/01/2024";
                        ["Driver: B"]; data_row "X1" "" "b" "01/05/2024";
                        data_row "X2" "" "b" "01/20/2024"]
= Ok (mk_frame summary_columns [["A"; "K1"; "03/01/2024"; "TRIP-12"];
                                ["B"; "N/A"; "01/20/2024"; "X2"]])
∧ process_csv (D:=assoc) [["Driver: A"]; data_row "TRIP-12" "" "a" "03/01/2024";
                          data_row "TRIP-7" "K1" "a" "03/01/2024";
                          ["Driver: B"]; data_row "X2" "" "b" "01/20/2024";
                          data_row "X1" "" "b" "01/05/2024"]
= Ok (mk_frame summary_columns [["A"; "K1"; "03/01/2024"; "TRIP-12"];
                                ["B"; "N/A"; "01/20/2024"; "X2"]]).
Proof. split; vm_compute; reflexivity. Qed.

(** Claim C30: a row of exactly 14 cells is a data row ([len(row) > 13]),
  where the spec asks for more than 14 cells: while a truthy driver is in
  scope, such a row that is not blank and not a header goes through the
  data-row handling of lines 47-72. *)
Theorem process_row_fourteen_cells (D : Type → Type) `{PyDict D} (st : scan D) cur r :
current_driver st = Some cur → py_truthy cur = true → length r = 14%nat →
existsb py_truthy r = true →
(∀ c0 rest, r = c0 :: rest → py_startswith c0 "Driver:" = false) →
process_row st r = process_data_row cur (driver_data st) (latest_seen_truck st) r.
Proof.
intros C Hc Hlen Hb Hr. unfold process_row. rewrite Hb.
destruct r as [|c0 rest]; [discriminate|].
change (py_index (c0 :: rest) 0) with (Ok c0 : result string). cbv iota beta.
rewrite (Hr c0 rest eq_refl), C, Hlen. cbn [py_truthy_opt]. by rewrite Hc.
Qed.

Lemma process_row_fourteen_cells_witness :
process_row (mk_scan (D:=assoc) [("A", default_info)] (Some "A") None)
            (data_row "T1" "K" "a" "01/02/2024")
= process_data_row "A" [("A", default_info)] None (data_row "T1" "K" "a" "01/02/2024").
Proof.
apply process_row_fourteen_cells; try reflexivity. intros c0 rest [= <- <-]. reflexivity.
Defined.

(** Claim C31: the tie-break compares dates as text: a row whose date
  text differs from the stored one but names the same day (["1/5/2024"]
  for a stored ["01/05/2024"]) never replaces the stored record, whatever
  the trip ordinals, although the rule is meant for rows of the same
  date. *)
Theorem should_replace_date_spelling existing tid pdate dt :
paperwork_date existing ≠ "N/A" → pdate ≠ paperwork_date existing →
strptime_mdY pdate = Ok dt → strptime_mdY (paperwork_date existing) = Ok dt →
should_replace existing tid pdate = false.
Proof.
intros Hna Hne E1 E2. unfold should_replace.
rewrite (compare_dates_eval _ _ dt dt E1 E2), dt_lt_irrefl.
by rewrite !bool_decide_eq_false_2.
Qed.

Lemma should_replace_date_spelling_witness :
should_replace (mk_info "T1" "TRK" "01/05/2024") "T9" "1/5/2024" = false.
Proof.
apply (should_replace_date_spelling _ _ _ (mk_datetime 2024 1 5)); [done|done|reflexivity|reflexivity].
Defined.
