(* ===== verification/ReducerSpec.v ===== *)
(** * The per-driver specification of [process_csv] and the refinement

    The spec of the reducer, free of the scan state: the rows are read as a
    list of [event]s (a header naming a driver, or a data row attributed to
    the driver whose header is in scope); a driver's record is the fold of
    [update_info] over its own data rows, from the defaults; the summary lists
    the drivers in the order their first header appears.
    [process_csv_spec] shows that [process_csv] computes exactly this
    summary, whatever dictionary implements [PyDictLaws]: the blocks of other
    drivers in between, the scan context [latest_seen_truck] and the
    [latest_seen_truck or existing["truck"]] fallback change nothing. *)

From Stdlib Require Import Ascii ZArith Lia.
From stdpp Require Import base list sets strings.
From S2P Require Import Prelude PyStr Dates TripNumber PyDict Reducer.

Import Strptime TripNumber.

Inductive event :=
| EvHeader (name : string)
| EvData (driver : string) (f : fields).

(** The scope after a row, and what the row contributes. *)
Definition row_event (cur : option string) (r : row) : option string * list event :=
  if negb (existsb py_truthy r) then (cur, [])
  else match r with
  | [] => (cur, [])
  | c0 :: _ =>
      if py_startswith c0 "Driver:" then (Some (header_name c0), [EvHeader (header_name c0)])
      else if (13 <? length r)%nat then
        match cur with
        | Some d => if py_truthy d then (cur, [EvData d (fields_of_row r)]) else (cur, [])
        | None => (cur, [])
        end
      else (cur, [])
  end.

Fixpoint events_from (cur : option string) (rows : list row) : list event :=
  match rows with
  | [] => []
  | r :: rows' => (row_event cur r).2 ++ events_from (row_event cur r).1 rows'
  end.

Fixpoint scope_after (cur : option string) (rows : list row) : option string :=
  match rows with
  | [] => cur
  | r :: rows' => scope_after (row_event cur r).1 rows'
  end.

Definition events (rows : list row) : list event := events_from None rows.

Definition header_names (evs : list event) : list string :=
  omap (λ e, match e with EvHeader n => Some n | EvData _ _ => None end) evs.

Definition data_of (d : string) (evs : list event) : list fields :=
  omap (λ e, match e with
             | EvData d' f => if decide (d' = d) then Some f else None
             | EvHeader _ => None
             end) evs.

(** The keys in the order of their first occurrence. *)
Definition nub_step (acc : list string) (x : string) : list string :=
  if decide (x ∈ acc) then acc else acc ++ [x].

Definition nub (l : list string) : list string := fold_left nub_step l [].

Definition driver_record (d : string) (evs : list event) : info :=
  fold_left update_info (data_of d evs) default_info.

Definition summary (rows : list row) : list (string * info) :=
  let evs := events rows in
  (λ d, (d, driver_record d evs)) <$> nub (header_names evs).

(** ** Lemmas on the specification *)

Lemma events_from_app cur rows1 rows2 :
  events_from cur (rows1 ++ rows2)
  = events_from cur rows1 ++ events_from (scope_after cur rows1) rows2.
Proof.
  revert cur. induction rows1 as [|r rows1 IH]; intros cur; simpl; [done|].
  by rewrite IH, app_assoc.
Qed.

Lemma elem_of_nub_from x l acc : x ∈ fold_left nub_step l acc ↔ x ∈ acc ∨ x ∈ l.
Proof.
  revert acc. induction l as [|y l IH]; intros acc; simpl; [set_solver|].
  rewrite IH. unfold nub_step. case_decide; set_solver.
Qed.

Lemma elem_of_nub x l : x ∈ nub l ↔ x ∈ l.
Proof. unfold nub. rewrite elem_of_nub_from. set_solver. Qed.

Lemma nub_snoc l x : nub (l ++ [x]) = nub_step (nub l) x.
Proof. unfold nub. by rewrite fold_left_app. Qed.

Lemma header_names_app evs1 evs2 :
  header_names (evs1 ++ evs2) = header_names evs1 ++ header_names evs2.
Proof. apply omap_app. Qed.

Lemma data_of_app d evs1 evs2 : data_of d (evs1 ++ evs2) = data_of d evs1 ++ data_of d evs2.
Proof. apply omap_app. Qed.

Lemma driver_record_app d evs1 evs2 :
  driver_record d (evs1 ++ evs2) = fold_left update_info (data_of d evs2) (driver_record d evs1).
Proof. unfold driver_record. by rewrite data_of_app, fold_left_app. Qed.

Lemma data_of_data d d' f :
  data_of d' [EvData d f] = if decide (d = d') then [f] else [].
Proof. unfold data_of. simpl. by case_decide. Qed.

Lemma driver_record_data d d' f evs :
  driver_record d' (evs ++ [EvData d f]) =
    if decide (d = d') then update_info (driver_record d' evs) f else driver_record d' evs.
Proof. rewrite driver_record_app, data_of_data. by case_decide. Qed.

Lemma driver_record_header n d evs : driver_record d (evs ++ [EvHeader n]) = driver_record d evs.
Proof. by rewrite driver_record_app. Qed.

(** ** The simulation *)

Section Refinement.
Context `{PyDictLaws D}.

(** A scan state [st] represents the events [evs] read so far with the
    driver [cur] in scope. *)
Definition refines (evs : list event) (cur : option string) (st : scan D) : Prop :=
  dict_wf (driver_data st)
  ∧ dict_keys (driver_data st) = nub (header_names evs)
  ∧ (∀ d, dict_get d (driver_data st) =
            if decide (d ∈ header_names evs) then Some (driver_record d evs) else None)
  ∧ current_driver st = cur
  ∧ (∀ d, cur = Some d → d ∈ header_names evs)
  ∧ (∀ d, data_of d evs ≠ [] → d ∈ header_names evs)
  ∧ (∀ t, latest_seen_truck st = Some t →
          py_truthy t = true ∧ ∃ d, cur = Some d ∧ truck (driver_record d evs) = t).

Lemma refines_init : refines [] None init_scan.
Proof.
  split_and!; simpl; try done.
  - apply dict_wf_empty.
  - unfold dict_keys. by rewrite dict_items_empty.
  - intros d. apply dict_get_empty.
Qed.

Lemma refines_nil evs cur st : refines evs cur st → refines (evs ++ []) cur st.
Proof. by rewrite app_nil_r. Qed.

Lemma refines_header evs cur st n :
  refines evs cur st →
  refines (evs ++ [EvHeader n]) (Some n)
    (mk_scan (dict_setdefault n default_info (driver_data st)) (Some n) None).
Proof.
  intros (W & K & G & C & Hc & Hd & L). unfold refines; simpl.
  rewrite header_names_app. change (header_names [EvHeader n]) with [n].
  split_and!.
  - by apply dict_wf_setdefault.
  - rewrite dict_keys_setdefault, nub_snoc by done. unfold nub_step.
    destruct (decide (n ∈ dict_keys _)) as [A|A], (decide (n ∈ nub _)) as [B|B];
      rewrite K in *; done.
  - intros d. rewrite dict_get_setdefault, driver_record_header by done.
    case_decide as E; [subst d|].
    + rewrite decide_True by set_solver. rewrite G.
      case_decide as Hin; [done|]. f_equal. unfold driver_record.
      destruct (data_of n evs) eqn:Ed; [done|]. destruct Hin. apply Hd. by rewrite Ed.
    + rewrite G. repeat case_decide; set_solver.
  - done.
  - intros d [= <-]. set_solver.
  - intros d. rewrite data_of_app. simpl. rewrite app_nil_r. intros ?%Hd. set_solver.
  - done.
Qed.

Lemma refines_data evs d st r :
  refines evs (Some d) st → py_truthy d = true → (13 < length r)%nat →
  ∃ st', process_data_row d (driver_data st) (latest_seen_truck st) r = Ok st'
    ∧ refines (evs ++ [EvData d (fields_of_row r)]) (Some d) st'.
Proof.
  intros (W & K & G & C & Hc & Hd & L) Htd Hlen.
  assert (Hhd : d ∈ header_names evs) by auto.
  edestruct (process_data_row_spec d (driver_data st) (latest_seen_truck st) r
               (driver_record d evs)) as (dd' & E & W' & K' & G'); [done| |  |done|].
  { rewrite G. by rewrite decide_True. }
  { intros t Ht. destruct (L t Ht) as (? & d' & [= <-] & ?). done. }
  eexists; split; [exact E|]. unfold refines.
  rewrite header_names_app. change (header_names [EvData d _]) with (@nil string).
  rewrite app_nil_r. split_and!; cbn [driver_data current_driver latest_seen_truck].
  - done.
  - by rewrite K'.
  - intros k. rewrite G', G, driver_record_data. repeat case_decide; subst; done.
  - done.
  - done.
  - intros k. rewrite data_of_app, data_of_data. case_decide; subst; [done|].
    rewrite app_nil_r. apply Hd.
  - intros t Ht.
    enough (py_truthy t = true ∧ truck (driver_record d (evs ++ [EvData d (fields_of_row r)])) = t)
      as [? ?] by (split; [done|by exists d]).
    rewrite driver_record_data, decide_True, update_info_truck by done.
    cbn [latest_seen_truck] in Ht.
    destruct (py_truthy (f_truck (fields_of_row r))) eqn:Et; rewrite ?Et in Ht.
    + by injection Ht as <-.
    + by destruct (L t Ht) as (? & d' & [= <-] & <-).
Qed.
End Refinement.

Section Simulation.
Context `{PyDictLaws D}.

Lemma process_row_refines evs cur (st : scan D) r :
  refines evs cur st →
  ∃ st', process_row st r = Ok st'
    ∧ refines (evs ++ (row_event cur r).2) (row_event cur r).1 st'.
Proof.
  intros Hr. pose proof Hr as (_ & _ & _ & C & _).
  unfold process_row, row_event.
  destruct (existsb py_truthy r) eqn:Eb; cbn [negb];
    [|eexists; split; [reflexivity|by apply refines_nil]].
  destruct r as [|c0 rest]; [discriminate|].
  change (py_index (c0 :: rest) 0) with (Ok c0 : result string). cbv iota beta.
  destruct (py_startswith c0 "Driver:") eqn:Eh.
  - rewrite driver_of_header_spec by done.
    eexists; split; [reflexivity|]. by eapply refines_header.
  - rewrite C. destruct (13 <? length (c0 :: rest))%nat eqn:El;
      [|rewrite andb_false_r; eexists; split; [reflexivity|by apply refines_nil]].
    rewrite andb_true_r. destruct cur as [d|]; cbn [py_truthy_opt];
      [|eexists; split; [reflexivity|by apply refines_nil]].
    destruct (py_truthy d) eqn:Ed; [|eexists; split; [reflexivity|by apply refines_nil]].
    apply Nat.ltb_lt in El. by apply refines_data.
Qed.

(** The loop of line 31 simulates the reading of the rows as events. *)
Lemma process_rows_refines rows evs cur (st : scan D) :
  refines evs cur st →
  ∃ st', process_rows st rows = Ok st'
    ∧ refines (evs ++ events_from cur rows) (scope_after cur rows) st'.
Proof.
  revert evs cur st. induction rows as [|r rows IH]; intros evs cur st Hr; simpl.
  - eexists; split; [reflexivity|by rewrite app_nil_r].
  - destruct (process_row_refines evs cur st r Hr) as (st1 & -> & Hr1).
    destruct (IH _ _ _ Hr1) as (st' & -> & Hr'). eexists; split; [reflexivity|].
    by rewrite app_assoc.
Qed.

Lemma process_rows_init rows :
  ∃ st, process_rows (init_scan (D:=D)) rows = Ok st ∧ refines (events rows) (scope_after None rows) st.
Proof. apply (process_rows_refines rows [] None), refines_init. Qed.

Lemma refines_items evs cur (st : scan D) :
  refines evs cur st →
  dict_items (driver_data st) = (λ d, (d, driver_record d evs)) <$> nub (header_names evs).
Proof.
  intros (W & K & G & _). rewrite <- K. apply dict_items_keys; [done|].
  intros k w. rewrite G. case_decide; congruence.
Qed.
End Simulation.

(** ** The per-driver fold keeps the best record *)


(** What the record [i] holds after the complete rows [fs]: a ["N/A"] date
    only if every complete row had it; a valid date no earlier than any
    valid date seen; and, for a real date, the largest ordinal among the
    rows carrying that very text. *)
Definition best_so_far (i : info) (fs : list fields) : Prop :=
  (paperwork_date i = "N/A" → ∀ f, f ∈ fs → complete f = true → f_date f = "N/A")
  ∧ (∀ D, strptime_mdY (paperwork_date i) = Ok D → ∀ f Dr, f ∈ fs → complete f = true →
       strptime_mdY (f_date f) = Ok Dr → dt_lt D Dr = false)
  ∧ (paperwork_date i ≠ "N/A" → ∀ f, f ∈ fs → complete f = true →
       f_date f = paperwork_date i →
       (extract_trip_number (f_trip f) ≤ extract_trip_number (trip_id i))%Z).

Lemma best_so_far_keep i fs f :
  best_so_far i fs → replaces i f = false →
  best_so_far (update_info i f) (fs ++ [f]).
Proof.
  intros (Hna & Hd & Ho) Hr. pose proof (update_info_date_trip i f) as E.
  rewrite Hr in E. injection E as E1 E2. unfold best_so_far. rewrite E1, E2.
  unfold replaces, should_replace in Hr.
  split_and!.
  - intros HN g. rewrite elem_of_app, list_elem_of_singleton. intros [Hg| ->] Hc; [by eauto|].
    rewrite Hc in Hr. simpl in Hr. zbool. rewrite bool_decide_eq_false in Hr. naive_solver.
  - intros D HD g Dr. rewrite elem_of_app, list_elem_of_singleton.
    intros [Hg| ->] Hc Hf; [by eauto|].
    rewrite Hc in Hr. simpl in Hr. zbool. destruct Hr as [[_ Hr] _].
    by rewrite (compare_dates_eval _ _ Dr D) in Hr.
  - intros HN g. rewrite elem_of_app, list_elem_of_singleton. intros [Hg| ->] Hc; [by eauto|].
    intros Heq. rewrite Hc in Hr. simpl in Hr. zbool. rewrite Heq in Hr.
    destruct Hr as [_ [Hr|Hr]]; [|lia]. by rewrite bool_decide_eq_true_2 in Hr.
Qed.


Lemma best_so_far_replace i fs f :
  best_so_far i fs → replaces i f = true →
  best_so_far (update_info i f) (fs ++ [f]).
Proof.
  intros (Hna & Hd & Ho) Hr. pose proof (update_info_date_trip i f) as E.
  rewrite Hr in E. injection E as E1 E2. unfold best_so_far. rewrite E1, E2.
  unfold replaces in Hr. apply andb_prop in Hr as [Hc Hs].
  apply should_replace_cases in Hs as [HN|[(a & b & Ea & Eb & Hab)|[Heq Hlt]]].
  - split_and!.
    + intros Hf g. rewrite elem_of_app, list_elem_of_singleton.
      intros [Hg| ->] Hcg; [by apply Hna|exact Hf].
    + intros D HD g Dr. rewrite elem_of_app, list_elem_of_singleton.
      intros [Hg| ->] Hcg Hg'; [|by rewrite HD in Hg'; injection Hg' as <-; apply dt_lt_irrefl].
      by rewrite (Hna HN g Hg Hcg), strptime_NA in Hg'.
    + intros Hpd g. rewrite elem_of_app, list_elem_of_singleton.
      intros [Hg| ->] Hcg Hgd; [|lia]. rewrite (Hna HN g Hg Hcg) in Hgd. by destruct Hpd.
  - split_and!.
    + intros HN. by rewrite HN, strptime_NA in Ea.
    + intros D HD g Dr. rewrite HD in Ea. injection Ea as <-.
      rewrite elem_of_app, list_elem_of_singleton.
      intros [Hg| ->] Hcg Hg'; [|rewrite HD in Hg'; injection Hg' as <-; apply dt_lt_irrefl].
      eapply dt_lt_false_trans; [exact Hab|]. by apply (Hd b Eb g Dr).
    + intros Hpd g. rewrite elem_of_app, list_elem_of_singleton.
      intros [Hg| ->] Hcg Hgd; [|lia]. rewrite <- Hgd in Ea.
      by rewrite (Hd b Eb g a Hg Hcg Ea) in Hab.
  - split_and!.
    + intros HN. rewrite Heq in HN. intros g. rewrite elem_of_app, list_elem_of_singleton.
      intros [Hg| ->] Hcg; [by apply Hna|by rewrite Heq].
    + intros D HD g Dr. rewrite elem_of_app, list_elem_of_singleton.
      intros [Hg| ->] Hcg Hg'; [rewrite Heq in HD; by apply (Hd D HD g Dr)|].
      rewrite HD in Hg'. injection Hg' as <-. apply dt_lt_irrefl.
    + intros Hpd g. rewrite elem_of_app, list_elem_of_singleton.
      intros [Hg| ->] Hcg Hgd; [|lia]. rewrite Heq in Hpd, Hgd.
      pose proof (Ho Hpd g Hg Hcg Hgd). lia.
Qed.

Lemma best_so_far_step i fs f : best_so_far i fs → best_so_far (update_info i f) (fs ++ [f]).
Proof.
  intros Hb. destruct (replaces i f) eqn:Hr;
    [by apply best_so_far_replace | by apply best_so_far_keep].
Qed.

Lemma best_so_far_fold fs i acc :
  best_so_far i acc → best_so_far (fold_left update_info fs i) (acc ++ fs).
Proof.
  revert i acc. induction fs as [|f fs IH]; intros i acc Hb; simpl; [by rewrite app_nil_r|].
  rewrite cons_middle, app_assoc. apply IH, best_so_far_step, Hb.
Qed.

Lemma driver_record_best d evs : best_so_far (driver_record d evs) (data_of d evs).
Proof.
  apply (best_so_far_fold _ default_info []).
  split_and!; [by intros _ ? []%not_elem_of_nil| |]; [intros D HD; cbn [paperwork_date default_info] in HD; by rewrite strptime_NA in HD|done].
Qed.

(** ** The truck, and a stored date that does not parse *)

Definition last_truck_step (t : string) (f : fields) : string :=
  if py_truthy (f_truck f) then f_truck f else t.

(** The last non-empty truck of the rows, ["N/A"] when there is none. *)
Definition last_truck (fs : list fields) : string := fold_left last_truck_step fs "N/A".

Lemma fold_update_info_truck fs i :
  truck (fold_left update_info fs i) = fold_left last_truck_step fs (truck i).
Proof.
  revert i. induction fs as [|f fs IH]; intros i; simpl; [done|].
  by rewrite IH, update_info_truck.
Qed.

Lemma driver_record_truck d evs : truck (driver_record d evs) = last_truck (data_of d evs).
Proof. apply fold_update_info_truck. Qed.


(** ** [process_csv] computes the summary *)

Section Summary.
Context `{PyDictLaws D}.

Lemma process_csv_summary rows :
  process_csv (D:=D) rows = Ok (build_frame (summary rows)).
Proof.
  destruct (process_rows_init (D:=D) rows) as (st & E & Hr).
  unfold process_csv. rewrite E. by rewrite (refines_items _ _ _ Hr).
Qed.

Lemma process_csv_frame rows fr :
  process_csv (D:=D) rows = Ok fr → fr = build_frame (summary rows).
Proof. rewrite process_csv_summary. congruence. Qed.
End Summary.

Lemma build_frame_rows items :
  frame_rows (build_frame items) =
    (λ di : string * info, [di.1; truck di.2; paperwork_date di.2; trip_id di.2]) <$> items.
Proof. by destruct items. Qed.

Lemma summary_frame_row rows d trk date tid :
  [d; trk; date; tid] ∈ frame_rows (build_frame (summary rows)) →
  d ∈ header_names (events rows) ∧ driver_record d (events rows) = mk_info tid trk date.
Proof.
  rewrite build_frame_rows. unfold summary.
  rewrite <- list_fmap_compose, list_elem_of_fmap.
  intros (d' & Hr & Hin). simpl in Hr. injection Hr as <- -> -> ->.
  rewrite elem_of_nub in Hin. split; [done|]. by destruct (driver_record d (events rows)).
Qed.

(** A row that is not a header contributes nothing while no driver is in scope. *)
Lemma row_event_unscoped r :
  (∀ c0 rest, r = c0 :: rest → py_startswith c0 "Driver:" = false) →
  row_event None r = (None, []).
Proof.
  intros Hr. unfold row_event. destruct (negb _); [done|].
  destruct r as [|c0 rest]; [done|]. rewrite (Hr c0 rest eq_refl).
  by destruct (13 <? _)%nat.
Qed.

Lemma events_unscoped pre rows :
  Forall (λ r, ∀ c0 rest, r = c0 :: rest → py_startswith c0 "Driver:" = false) pre →
  events (pre ++ rows) = events rows.
Proof.
  intros Hpre. unfold events. rewrite events_from_app.
  enough (events_from None pre = [] ∧ scope_after None pre = None) as [-> ->] by done.
  induction Hpre as [|r pre Hr _ [IH1 IH2]]; [done|]. simpl.
  by rewrite row_event_unscoped.
Qed.

(** A cell starting with ["Driver:"] is not empty. *)
Lemma startswith_driver_truthy c0 : py_startswith c0 "Driver:" = true → py_truthy c0 = true.
Proof. destruct c0; [done|]. intros _. unfold py_truthy. by rewrite bool_decide_eq_false_2. Qed.

(** A row names a driver exactly when its first cell starts with ["Driver:"]. *)
Lemma row_event_header_names cur r :
  header_names (row_event cur r).2 = [] ↔
  ∀ c0 rest, r = c0 :: rest → py_startswith c0 "Driver:" = false.
Proof.
  unfold row_event. destruct r as [|c0 rest]; [split; [by intros _ ? ? ?|done]|].
  destruct (py_startswith c0 "Driver:") eqn:Es.
  - simpl. rewrite (startswith_driver_truthy c0 Es). simpl.
    split; [done|]. intros Hr. by rewrite (Hr c0 rest eq_refl) in Es.
  - split; [intros _ c0' rest' [= <- <-]; exact Es|intros _].
    destruct (negb _); [done|].
    destruct (13 <? _)%nat, cur as [d|]; [destruct (py_truthy d)|..]; done.
Qed.

Lemma header_names_events_nil cur rows :
  header_names (events_from cur rows) = [] ↔
  ∀ r c0 rest, r ∈ rows → r = c0 :: rest → py_startswith c0 "Driver:" = false.
Proof.
  revert cur. induction rows as [|r rows IH]; intros cur; simpl.
  - split; [by intros _ ? ? ? ?%elem_of_nil|done].
  - rewrite header_names_app, app_nil, row_event_header_names, IH.
    setoid_rewrite elem_of_cons. naive_solver.
Qed.

(** A header row names its driver, whatever the scope before it. *)
Lemma row_event_header cur c0 rest :
  py_startswith c0 "Driver:" = true →
  row_event cur (c0 :: rest) = (Some (header_name c0), [EvHeader (header_name c0)]).
Proof. intros Es. unfold row_event. simpl. by rewrite (startswith_driver_truthy c0 Es), Es. Qed.

Lemma elem_of_header_names_events cur rows c0 rest :
  c0 :: rest ∈ rows → py_startswith c0 "Driver:" = true →
  header_name c0 ∈ header_names (events_from cur rows).
Proof.
  revert cur. induction rows as [|r rows IH]; intros cur Hin Es; [by apply elem_of_nil in Hin|].
  simpl. rewrite header_names_app, elem_of_app. apply elem_of_cons in Hin as [<-|Hin].
  - left. rewrite row_event_header by done. by apply list_elem_of_singleton.
  - right. by apply IH.
Qed.

Lemma nub_nil l : nub l = [] ↔ l = [].
Proof.
  split; [|by intros ->]. destruct l as [|x l]; [done|]. intros Hn.
  assert (Hx : x ∈ nub (x :: l)) by (apply elem_of_nub; left). rewrite Hn in Hx.
  by apply elem_of_nil in Hx.
Qed.

Lemma build_frame_columns_nil items : columns (build_frame items) = [] ↔ items = [].
Proof. by destruct items. Qed.

(** ** Properties of [process_csv] against the specification *)

Definition sample_rows : list row :=
  [["Driver: A, ID1"]; data_row "TRIP-12" "" "a" "03/01/2024";
   ["Driver: B"]; data_row "X1" "TB" "b" "01/05/2024";
   ["Driver: A"]; data_row "TRIP-7" "T2" "a" "03/01/2024"; data_row "X2" "" "b" "01/20/2024"].

Lemma sample_rows_frame :
  process_csv (D:=assoc) sample_rows =
    Ok (mk_frame summary_columns [["A"; "T2"; "03/01/2024"; "TRIP-12"]; ["B"; "TB"; "01/05/2024"; "X1"]]).
Proof. vm_compute. reflexivity. Qed.

Section SpecProps.
Context `{PyDictLaws D}.

(** Claim C1: [process_csv] never raises; its loop ends in a state that
  represents the rows read as events, and the table it returns is the
  per-driver summary: one row per driver in order of first header, each
  the fold of [update_info] over that driver's own data rows. *)
Theorem process_csv_refines rows :
∃ st, process_rows (init_scan (D:=D)) rows = Ok st
  ∧ refines (events rows) (scope_after None rows) st
  ∧ process_csv (D:=D) rows = Ok (build_frame (summary rows)).
Proof.
destruct (process_rows_init (D:=D) rows) as (st & E & Hr).
exists st. split_and!; [done|done|]. apply process_csv_summary.
Qed.

(** Claim C6: the drivers of the table are the names of the header rows, in
  the order each first appears, without repetition. *)
Theorem process_csv_driver_order rows fr :
process_csv (D:=D) rows = Ok fr →
(λ r, default "" (head r)) <$> frame_rows fr = nub (header_names (events rows)).
Proof.
intros ->%process_csv_frame. rewrite build_frame_rows. unfold summary.
rewrite <- !list_fmap_compose.
transitivity (id <$> nub (header_names (events rows)));
  [by apply list_fmap_ext | apply list_fmap_id].
Qed.


Lemma process_csv_row rows fr d trk date tid :
process_csv (D:=D) rows = Ok fr → [d; trk; date; tid] ∈ frame_rows fr →
driver_record d (events rows) = mk_info tid trk date.
Proof. intros ->%process_csv_frame Hin. by apply summary_frame_row. Qed.

(** Claim C3: a driver's reported date, when it is a valid ["%m/%d/%Y"]
  date, is no earlier than the date of any complete data row of that
  driver that parses: the most recent paperwork wins. *)
Theorem process_csv_latest_date rows fr d trk date tid dd f dr :
process_csv (D:=D) rows = Ok fr → [d; trk; date; tid] ∈ frame_rows fr →
strptime_mdY date = Ok dd → f ∈ data_of d (events rows) → complete f = true →
strptime_mdY (f_date f) = Ok dr → dt_lt dd dr = false.
Proof.
intros Hp Hin Hd Hf Hc Hr. pose proof (driver_record_best d (events rows)) as (_ & Hb & _).
rewrite (process_csv_row _ _ _ _ _ _ Hp Hin) in Hb. by apply (Hb dd Hd f dr).
Qed.

(** Claim C4: among the complete data rows of a driver carrying exactly the
  reported date text (other than the default ["N/A"]), the reported trip
  has the largest trip ordinal, whatever the order the rows came in. *)
Theorem process_csv_tie_break rows fr d trk date tid f :
process_csv (D:=D) rows = Ok fr → [d; trk; date; tid] ∈ frame_rows fr →
date ≠ "N/A" → f ∈ data_of d (events rows) → complete f = true → f_date f = date →
(extract_trip_number (f_trip f) ≤ extract_trip_number tid)%Z.
Proof.
intros Hp Hin HN Hf Hc Hfd. pose proof (driver_record_best d (events rows)) as (_ & _ & Hb).
rewrite (process_csv_row _ _ _ _ _ _ Hp Hin) in Hb. by apply (Hb HN f).
Qed.

(** Claim C5: a driver's reported truck is the last non-empty truck cell
  among all of that driver's data rows, complete or not, selected or not
  (["N/A"] when there is none): the truck is tracked independently of the
  recency choice. *)
Theorem process_csv_truck rows fr d trk date tid :
process_csv (D:=D) rows = Ok fr → [d; trk; date; tid] ∈ frame_rows fr →
trk = last_truck (data_of d (events rows)).
Proof.
intros Hp Hin. rewrite <- driver_record_truck, (process_csv_row _ _ _ _ _ _ Hp Hin). done.
Qed.

(** Claim C10: rows read before any [Driver:] header (none of them a header)
  produce no event and contribute nothing to the result. *)
Theorem process_csv_unscoped pre rows :
Forall (λ r, ∀ c0 rest, r = c0 :: rest → py_startswith c0 "Driver:" = false) pre →
events (pre ++ rows) = events rows ∧ process_csv (D:=D) (pre ++ rows) = process_csv (D:=D) rows.
Proof.
intros Hpre. split; [by apply events_unscoped|].
rewrite !process_csv_summary. unfold summary. by rewrite events_unscoped.
Qed.

(** Claim C37: the table has no column at all, so the written sheet has
  not even its header row, exactly when no row of the input has a first
  cell starting with ["Driver:"]: an export with data rows but no driver
  header gives an empty workbook rather than a table with its four
  column names. *)
Theorem process_csv_no_columns rows fr :
process_csv (D:=D) rows = Ok fr →
(columns fr = [] ↔ ∀ r c0 rest, r ∈ rows → r = c0 :: rest → py_startswith c0 "Driver:" = false).
Proof.
intros ->%process_csv_frame.
rewrite build_frame_columns_nil, <- (header_names_events_nil None rows), <- nub_nil.
unfold summary, events. by destruct (nub (header_names (events_from None rows))).
Qed.
End SpecProps.

(** Witnesses, with the association-list dictionary. *)

(** Data rows of an export that lost its driver headers. *)
Definition headless_rows : list row :=
  [data_row "TRIP-12" "K1" "a" "03/01/2024"; []; data_row "X1" "TB" "b" "01/05/2024"].

Lemma process_csv_no_columns_witness :
process_csv (D:=assoc) headless_rows = Ok (mk_frame [] [])
∧ (columns (mk_frame [] []) = []
   ↔ ∀ r c0 rest, r ∈ headless_rows → r = c0 :: rest → py_startswith c0 "Driver:" = false).
Proof.
assert (E : process_csv (D:=assoc) headless_rows = Ok (mk_frame [] [])) by (vm_compute; reflexivity).
split; [exact E|]. exact (process_csv_no_columns headless_rows _ E).
Defined.


Lemma process_csv_refines_witness :
∃ st, process_rows (init_scan (D:=assoc)) sample_rows = Ok st
  ∧ refines (events sample_rows) (scope_after None sample_rows) st
  ∧ process_csv (D:=assoc) sample_rows = Ok (build_frame (summary sample_rows)).
Proof. apply (process_csv_refines (D:=assoc)). Defined.


Lemma process_csv_driver_order_witness :
(λ r, default "" (head r)) <$> [["A"; "T2"; "03/01/2024"; "TRIP-12"]; ["B"; "TB"; "01/05/2024"; "X1"]]
= nub (header_names (events sample_rows)).
Proof.
exact (process_csv_driver_order (D:=assoc) sample_rows _ sample_rows_frame).
Defined.


Lemma process_csv_latest_date_witness :
dt_lt (mk_datetime 2024 1 5) (mk_datetime 2024 1 5) = false.
Proof.
apply (process_csv_latest_date (D:=assoc) sample_rows _ "B" "TB" "01/05/2024" "X1" _
         (fields_of_row (data_row "X1" "TB" "b" "01/05/2024")) _ sample_rows_frame);
  [by apply list_elem_of_In; simpl; auto | reflexivity
  | by apply list_elem_of_In; vm_compute; auto | reflexivity | reflexivity].
Defined.


Lemma process_csv_tie_break_witness :
(extract_trip_number "TRIP-7" ≤ extract_trip_number "TRIP-12")%Z.
Proof.
apply (process_csv_tie_break (D:=assoc) sample_rows _ "A" "T2" "03/01/2024" "TRIP-12"
         (fields_of_row (data_row "TRIP-7" "T2" "a" "03/01/2024")) sample_rows_frame);
  [by apply list_elem_of_In; simpl; auto | discriminate
  | by apply list_elem_of_In; vm_compute; auto | reflexivity | reflexivity].
Defined.


Lemma process_csv_truck_witness : "T2" = last_truck (data_of "A" (events sample_rows)).
Proof.
apply (process_csv_truck (D:=assoc) sample_rows _ "A" "T2" "03/01/2024" "TRIP-12"
         sample_rows_frame). by apply list_elem_of_In; simpl; auto.
Defined.


Lemma process_csv_unscoped_witness :
process_csv (D:=assoc) ([data_row "T0" "TX" "z" "12/31/2024"] ++ sample_rows)
= process_csv (D:=assoc) sample_rows.
Proof.
apply process_csv_unscoped. repeat constructor. intros c0 rest [= <- <-]. reflexivity.
Defined.
