(* ===== verification/Xlsx.v ===== *)
(** * Writing the summary sheet (src/main.py, lines 95-98)

    [df.to_excel(writer, index=False, sheet_name="Summary")] on a
    [pd.ExcelWriter(output, engine="openpyxl")].  pandas' [ExcelFormatter]
    first refuses a frame larger than a worksheet, then lists the cells it
    writes ([get_formatted_cells]): the header row (row 0, the column
    names), then the body column by column (row [i + 1] holds row [i] of
    the frame); [_OpenpyxlWriter._write_cells] stores each value in the
    openpyxl cell at row [cell.row + 1], column [cell.col + 1].  Storing a
    [str] in an openpyxl cell ([Cell._bind_value]) truncates it to 32767
    characters, raises [IllegalCharacterError] when the result holds an
    ASCII control character other than tab, line feed and carriage return,
    and types the cell: a formula when it starts with ["="] and has more
    than one character, an error value when it is one of Excel's error
    codes, a string otherwise.  These are the libraries' semantics (pandas
    2, openpyxl 3.1), not code of the repository.

    The sheet is modelled as the list of cells written, with their
    positions; cell styles (the bold header) and the bytes of the xlsx
    archive are not modelled.  Theorems: a frame that fits a worksheet and
    whose values openpyxl accepts reads back from its sheet, each value as
    the cell openpyxl makes of it; one refused value makes the whole write
    raise; every stored string fits the cell limit. *)

From Stdlib Require Import Ascii String ZArith Lia.
From stdpp Require Import base list strings.
From S2P Require Import Prelude PyStr Reducer.

Module Xlsx.

(** ** openpyxl cells ([openpyxl.cell.cell.Cell]) *)

(** [Cell.data_type] of a [str] value: ['s'], ['f'] or ['e']. *)
Inductive cell_type := TYPE_STRING | TYPE_FORMULA | TYPE_ERROR.

#[export] Instance cell_type_eq_dec : EqDecision cell_type.
Proof. solve_decision. Defined.

Record cell := mk_cell { data_type : cell_type; value : string }.

#[export] Instance cell_eq_dec : EqDecision cell.
Proof. solve_decision. Defined.

(** [ILLEGAL_CHARACTERS_RE = r'[\000-\010]|[\013-\014]|[\016-\037]'] *)
Definition illegal_char (c : ascii) : bool :=
  let n := nat_of_ascii c in
  (n <=? 8) || ((11 <=? n) && (n <=? 12)) || ((14 <=? n) && (n <=? 31)).

(** [ERROR_CODES] *)
Definition ERROR_CODES : list string :=
  ["#NULL!"; "#DIV/0!"; "#VALUE!"; "#REF!"; "#NAME?"; "#NUM!"; "#N/A"].

(** The longest string a cell holds. *)
Definition max_string_length : nat := 32767.

(** [value[:32767]] *)
Definition truncate (s : string) : string := String.substring 0 max_string_length s.

(** [Cell.check_string]: the truncated string, refused when it holds an
    illegal character. *)
Definition check_string (s : string) : result string :=
  let v := truncate s in
  if negb (str_forallb (λ c, negb (illegal_char c)) v) then Raise IllegalCharacterError
  else Ok v.

(** The type [_bind_value] gives a checked string. *)
Definition cell_type_of (v : string) : cell_type :=
  if (1 <? String.length v)%nat && py_startswith v "=" then TYPE_FORMULA
  else if bool_decide (v ∈ ERROR_CODES) then TYPE_ERROR
  else TYPE_STRING.

(** [Cell._bind_value] on a [str]. *)
Definition bind_value (s : string) : result cell :=
  let* v := check_string s in Ok (mk_cell (cell_type_of v) v).

(** ** pandas' [ExcelFormatter] *)

(** [ExcelCell]: row and column from 0, and the value. *)
Record excel_cell := mk_excel_cell { cell_row : nat; cell_col : nat; cell_val : string }.

(** [_format_header_regular] with [index=False]: the column names on row 0. *)
Definition format_header (df : frame) : list excel_cell :=
  (λ cn : nat * string, mk_excel_cell 0 cn.1 cn.2) <$> zip (seq 0 (length (columns df))) (columns df).

(** Column [c] of the body ([df.iloc[:, c]]), row [i] of the frame on row
    [i + 1]. *)
Definition format_column (df : frame) (c : nat) : list excel_cell :=
  omap (λ ir : nat * list string, mk_excel_cell (S ir.1) c <$> ir.2 !! c)
       (zip (seq 0 (length (frame_rows df))) (frame_rows df)).

(** [_generate_body]: the columns one after the other. *)
Definition format_body (df : frame) : list excel_cell :=
  seq 0 (length (columns df)) ≫= format_column df.

(** [get_formatted_cells] *)
Definition formatted_cells (df : frame) : list excel_cell :=
  format_header df ++ format_body df.

(** The size of a worksheet: [ExcelFormatter.max_rows], [max_cols]. *)
Definition max_rows : Z := 1048576.
Definition max_cols : Z := 16384.

(** A written sheet: each cell with its position (row, column, from 1). *)
Definition sheet := list ((nat * nat) * cell).

(** One cell of [_OpenpyxlWriter._write_cells]:
    [wks.cell(row=cell.row + 1, column=cell.col + 1).value = cell.val]. *)
Definition write_cell (ec : excel_cell) : result ((nat * nat) * cell) :=
  let* x := bind_value (cell_val ec) in Ok ((S (cell_row ec), S (cell_col ec)), x).

(** [ExcelFormatter.write]: the size check, then every cell in order. *)
Definition to_excel (df : frame) : result sheet :=
  if bool_decide (max_rows < Z.of_nat (length (frame_rows df)))%Z
     || bool_decide (max_cols < Z.of_nat (length (columns df)))%Z
  then Raise ValueError
  else mapM write_cell (formatted_cells df).

(** [ws.cell(row, column).value] read back: the cell written there. *)
Definition sheet_cell (sh : sheet) (r c : nat) : option cell :=
  snd <$> List.find (λ p : (nat * nat) * cell, bool_decide (p.1 = (r, c))) sh.

(** ** What a cell holds *)

(** A value openpyxl stores without error: no illegal character in its
    first 32767 characters. *)
Definition legal (s : string) : bool := str_forallb (λ c, negb (illegal_char c)) (truncate s).

(** The cell a legal value becomes. *)
Definition typed_cell (s : string) : cell := mk_cell (cell_type_of (truncate s)) (truncate s).

Lemma bind_value_legal s : legal s = true → bind_value s = Ok (typed_cell s).
Proof. unfold bind_value, check_string, legal. by intros ->. Qed.

Lemma bind_value_Raise s e : bind_value s = Raise e ↔ e = IllegalCharacterError ∧ legal s = false.
Proof.
  unfold bind_value, check_string, legal.
  destruct (str_forallb _ _); simpl; split; try naive_solver.
Qed.

Lemma substring_prefix_full s n : (String.length s ≤ n)%nat → String.substring 0 n s = s.
Proof.
  revert n. induction s as [|c s IH]; intros [|n] Hn; simpl in *; [done..|lia|].
  rewrite IH by lia. done.
Qed.

Lemma substring_prefix_length s n : (String.length (String.substring 0 n s) ≤ n)%nat.
Proof. revert n. induction s as [|c s IH]; intros [|n]; simpl; [lia..|]. specialize (IH n). lia. Qed.

(** ** The cells pandas writes *)

(** A cell of [get_formatted_cells] is a column name on row 0 or, on row
    [i + 1], the value of row [i] in one of the frame's columns. *)
Lemma elem_of_formatted_cells df r c v :
  mk_excel_cell r c v ∈ formatted_cells df ↔
  (r = 0 ∧ columns df !! c = Some v) ∨
  (∃ i row, r = S i ∧ c < length (columns df) ∧ frame_rows df !! i = Some row ∧ row !! c = Some v).
Proof.
  unfold formatted_cells, format_header, format_body, format_column.
  rewrite elem_of_app, list_elem_of_fmap, list_elem_of_bind. split.
  - intros [([j v'] & [= -> -> ->] & Hj)|(c' & Hin & Hc)].
    + apply elem_of_zip_seq in Hj as (j' & -> & Hj). by left.
    + right. apply list_elem_of_omap in Hin as ([i row] & Hir & Hf).
      apply elem_of_zip_seq in Hir as (i' & -> & Hi). simpl in Hf.
      destruct (row !! c') eqn:E; simplify_eq/=. apply elem_of_seq in Hc.
      exists i', row. split_and!; [done|lia|done|done].
  - intros [[-> Hc]|(i & row & -> & Hc & Hi & Hv)].
    + left. exists (c, v). split; [done|]. apply elem_of_zip_seq. by exists c.
    + right. exists c. split; [|apply elem_of_seq; lia].
      apply list_elem_of_omap. exists (i, row). split; [apply elem_of_zip_seq; by exists i|].
      simpl. by rewrite Hv.
Qed.

(** Two cells pandas writes at the same place hold the same value. *)
Lemma formatted_cells_functional df r c v v' :
  mk_excel_cell r c v ∈ formatted_cells df → mk_excel_cell r c v' ∈ formatted_cells df → v = v'.
Proof. rewrite !elem_of_formatted_cells. naive_solver. Qed.

(** ** Reading a cell of the sheet back *)

Lemma sheet_cell_elem (sh : sheet) r c x :
  ((r, c), x) ∈ sh → (∀ q, q ∈ sh → q.1 = (r, c) → q.2 = x) → sheet_cell sh r c = Some x.
Proof.
  unfold sheet_cell. induction sh as [|[p y] sh IH]; intros Hin Hu; [by apply elem_of_nil in Hin|].
  simpl. case_bool_decide as Hq; simpl.
  - f_equal. apply (Hu (p, y)); [by apply elem_of_cons; left|done].
  - apply elem_of_cons in Hin as [[= <- <-]|Hin]; [done|].
    apply IH; [done|]. intros. apply Hu; [by apply elem_of_cons; right|done].
Qed.

Lemma write_cell_Ok ec q :
  write_cell ec = Ok q ↔
  legal (cell_val ec) = true ∧ q = ((S (cell_row ec), S (cell_col ec)), typed_cell (cell_val ec)).
Proof.
  unfold write_cell. destruct (legal (cell_val ec)) eqn:E.
  - rewrite bind_value_legal by done. simpl. naive_solver.
  - destruct (bind_value (cell_val ec)) as [x|e] eqn:Eb; simpl; [|naive_solver].
    unfold bind_value, check_string in Eb. unfold legal in E. by rewrite E in Eb.
Qed.

(** A frame whose every row has a value in every column. *)
Definition rectangular (df : frame) : Prop :=
  Forall (λ row, length row = length (columns df)) (frame_rows df).

(** A value of the frame: a column name or the value of a row. *)
Definition frame_value (df : frame) (v : string) : Prop :=
  v ∈ columns df ∨ ∃ row, row ∈ frame_rows df ∧ v ∈ row.

(** Every value of the frame is one openpyxl accepts. *)
Definition frame_legal (df : frame) : bool :=
  forallb legal (columns df) && forallb (forallb legal) (frame_rows df).

Lemma frame_legal_value df v : frame_legal df = true → frame_value df v → legal v = true.
Proof.
  unfold frame_legal. rewrite andb_true_iff, !forallb_forall.
  intros [Hc Hr] [Hv|(row & Hrow & Hv)]; apply list_elem_of_In in Hv; [by apply Hc|].
  apply list_elem_of_In in Hrow. specialize (Hr _ Hrow). rewrite forallb_forall in Hr. by apply Hr.
Qed.

(** The frames [build_frame] makes are rectangular. *)
Lemma build_frame_rectangular items : rectangular (build_frame items).
Proof.
  unfold rectangular. destruct items as [|di items]; [constructor|].
  apply Forall_fmap, Forall_forall. by intros [? ?] _.
Qed.

Lemma build_frame_rows_length items : length (frame_rows (build_frame items)) = length items.
Proof. destruct items; [done|]. simpl. by rewrite length_fmap. Qed.

Lemma build_frame_columns_length items : length (columns (build_frame items)) ≤ 4.
Proof. destruct items; simpl; lia. Qed.

(** A frame that fits a worksheet passes the size check. *)
Lemma to_excel_fits df :
  (Z.of_nat (length (frame_rows df)) ≤ max_rows)%Z → (Z.of_nat (length (columns df)) ≤ max_cols)%Z →
  to_excel df = mapM write_cell (formatted_cells df).
Proof. intros. unfold to_excel. by rewrite !bool_decide_false by lia. Qed.

Lemma to_excel_Ok df sh : to_excel df = Ok sh → mapM write_cell (formatted_cells df) = Ok sh.
Proof. unfold to_excel. by case_match. Qed.

(** Every value of a rectangular frame is the value of a cell pandas writes. *)
Lemma frame_value_formatted df v :
  rectangular df → frame_value df v → ∃ r c, mk_excel_cell r c v ∈ formatted_cells df.
Proof.
  intros Hrect [Hv|(row & Hrow & Hv)].
  - apply list_elem_of_lookup in Hv as [c Hc]. exists 0, c.
    apply elem_of_formatted_cells. by left.
  - apply list_elem_of_lookup in Hrow as [i Hi]. apply list_elem_of_lookup in Hv as [c Hc].
    exists (S i), c. apply elem_of_formatted_cells. right. exists i, row.
    split_and!; [done| |done|done].
    rewrite <- (Forall_lookup_1 _ _ _ _ Hrect Hi). by eapply lookup_lt_Some.
Qed.

(** The cells of a rectangular frame hold its values. *)
Lemma formatted_frame_value df r c v :
  mk_excel_cell r c v ∈ formatted_cells df → frame_value df v.
Proof.
  rewrite elem_of_formatted_cells. intros [[_ Hc]|(i & row & _ & _ & Hi & Hv)].
  - left. by eapply list_elem_of_lookup_2.
  - right. exists row. split; by eapply list_elem_of_lookup_2.
Qed.

(** Once every cell is written, the cell at a place pandas wrote is the
    typed value it wrote there. *)
Lemma written_sheet_cell df sh r c v :
  mapM write_cell (formatted_cells df) = Ok sh → mk_excel_cell r c v ∈ formatted_cells df →
  sheet_cell sh (S r) (S c) = Some (typed_cell v).
Proof.
  intros Hsh%mapM_Ok Hin.
  destruct (Forall2_elem_of_l _ _ _ _ Hsh Hin) as (q & Hq & [_ ->]%write_cell_Ok).
  apply sheet_cell_elem; [done|]. intros q' Hq' Hpos.
  destruct (Forall2_elem_of_r _ _ _ _ Hsh Hq') as ([r' c' v'] & Hin' & [_ ->]%write_cell_Ok).
  simpl in *. simplify_eq. f_equal. by eapply formatted_cells_functional.
Qed.

(** A frame that fits a worksheet and whose values openpyxl accepts is
    written. *)
Lemma to_excel_exists df :
  (Z.of_nat (length (frame_rows df)) ≤ max_rows)%Z → (Z.of_nat (length (columns df)) ≤ max_cols)%Z →
  frame_legal df = true → ∃ sh, to_excel df = Ok sh.
Proof.
  intros Hr Hc Hlegal. rewrite to_excel_fits by done. apply mapM_Ok_exists.
  intros [r c v] Hin. eexists. apply write_cell_Ok. split; [|done].
  by eapply frame_legal_value, formatted_frame_value.
Qed.

(** Value [j] of row [i] is read back from cell (i + 2, j + 1). *)
Lemma to_excel_body_cell df sh i j row v :
  to_excel df = Ok sh → rectangular df → frame_rows df !! i = Some row → row !! j = Some v →
  sheet_cell sh (S (S i)) (S j) = Some (typed_cell v).
Proof.
  intros Hsh%to_excel_Ok Hrect Hi Hj. apply (written_sheet_cell df sh (S i) j v Hsh).
  apply elem_of_formatted_cells. right. exists i, row. split_and!; [done| |done|done].
  rewrite <- (Forall_lookup_1 _ _ _ _ Hrect Hi). by eapply lookup_lt_Some.
Qed.

(** A value that fits a cell, starts with ["="] and has more than one
    character is stored as a formula. *)
Lemma typed_cell_formula v :
  (1 < String.length v ≤ max_string_length)%nat → py_startswith v "=" = true →
  typed_cell v = mk_cell TYPE_FORMULA v.
Proof.
  intros Hl Hs. unfold typed_cell, truncate. rewrite substring_prefix_full by lia.
  unfold cell_type_of. rewrite Hs. by replace (1 <? String.length v)%nat with true by (symmetry; zbool; lia).
Qed.

(** ** Properties of [to_excel] *)

(** Claim C9: a frame that fits a worksheet and whose values openpyxl
    accepts is written in full, and reading the sheet back gives the frame:
    cell (1, j + 1) holds column name [j] and cell (i + 2, j + 1) holds
    value [j] of row [i], each as the cell openpyxl makes of it
    ([typed_cell]: the value truncated to 32767 characters, typed as a
    formula, an error code or a string). *)
Theorem to_excel_read_back df :
  (Z.of_nat (length (frame_rows df)) ≤ max_rows)%Z → (Z.of_nat (length (columns df)) ≤ max_cols)%Z →
  rectangular df → frame_legal df = true →
  ∃ sh, to_excel df = Ok sh ∧
    (∀ j v, columns df !! j = Some v → sheet_cell sh 1 (S j) = Some (typed_cell v)) ∧
    (∀ i j row v, frame_rows df !! i = Some row → row !! j = Some v →
       sheet_cell sh (S (S i)) (S j) = Some (typed_cell v)).
Proof.
  intros Hr Hc Hrect Hlegal. destruct (to_excel_exists df Hr Hc Hlegal) as [sh Hsh].
  exists sh. split_and!; [done| |by intros; eapply to_excel_body_cell].
  intros j v Hj. apply (written_sheet_cell df sh 0 j v (to_excel_Ok _ _ Hsh)), elem_of_formatted_cells.
  by left.
Qed.

(** A value of a rectangular frame that openpyxl refuses makes the whole
    write raise [IllegalCharacterError], whatever else the frame holds. *)
Lemma to_excel_illegal df v :
  (Z.of_nat (length (frame_rows df)) ≤ max_rows)%Z → (Z.of_nat (length (columns df)) ≤ max_cols)%Z →
  rectangular df → frame_value df v → legal v = false →
  to_excel df = Raise IllegalCharacterError.
Proof.
  intros Hr Hc Hrect Hv Hl. rewrite to_excel_fits by done.
  apply mapM_Raise.
  - intros ec e _ He. unfold write_cell in He.
    destruct (bind_value (cell_val ec)) eqn:Eb; simplify_eq/=. by apply bind_value_Raise in Eb as [-> _].
  - destruct (frame_value_formatted df v Hrect Hv) as (r & c & Hin).
    exists (mk_excel_cell r c v), IllegalCharacterError. split; [done|].
    unfold write_cell. simpl. by rewrite (proj2 (bind_value_Raise _ _) (conj eq_refl Hl)).
Qed.

(** Claim C36: every string stored in the written sheet has at most 32767
    characters, however long the frame's values. *)
Theorem to_excel_cell_length df sh :
  to_excel df = Ok sh → Forall (λ q, String.length (value q.2) ≤ max_string_length) sh.
Proof.
  intros Hsh%to_excel_Ok%mapM_Ok. apply Forall_forall. intros q Hq.
  destruct (Forall2_elem_of_r _ _ _ _ Hsh Hq) as (ec & _ & [_ ->]%write_cell_Ok).
  apply substring_prefix_length.
Qed.

(** A summary row whose driver cell reads as a formula and whose date cell
    reads as an Excel error code. *)
Definition sample_frame : frame :=
  mk_frame summary_columns [["=1+1"; "TRK9"; "#N/A"; "T100"]].

Lemma to_excel_read_back_witness :
  ∃ sh, to_excel sample_frame = Ok sh ∧
    (∀ j v, columns sample_frame !! j = Some v → sheet_cell sh 1 (S j) = Some (typed_cell v)) ∧
    (∀ i j row v, frame_rows sample_frame !! i = Some row → row !! j = Some v →
       sheet_cell sh (S (S i)) (S j) = Some (typed_cell v)).
Proof.
  apply to_excel_read_back; [unfold max_rows; simpl; lia|unfold max_cols; simpl; lia|
    repeat constructor|vm_compute; reflexivity].
Defined.

Lemma to_excel_cell_length_witness :
  ∃ sh, to_excel sample_frame = Ok sh ∧
    Forall (λ q, String.length (value q.2) ≤ max_string_length) sh.
Proof.
  eexists. split; [vm_compute; reflexivity|].
  apply (to_excel_cell_length sample_frame). vm_compute. reflexivity.
Defined.

End Xlsx.
