(* ===== verification/Endpoint.v ===== *)
(** * The upload endpoint [/api/process] (src/main.py, lines 86-104)

    The handler's decisions: reject a request with no ["file"] part, reject a
    file whose name is empty or does not end in [.csv] (case-insensitively),
    otherwise run [process_csv] on the uploaded rows and answer with the
    spreadsheet [Driver_Paperwork_Summary.xlsx], one sheet ["Summary"].
    [request.files] is a werkzeug [MultiDict]: [files["file"]] is the first
    part of that name, as [assoc_get] finds it.  An [upload] carries its
    file name and its text after [stream.read().decode("utf-8")]; the UTF-8
    decoding itself is not modelled.  [process_csv(f.stream)] is
    [process_csv_stream]: line 26 reads the rows with Csv.v's
    [csv_reader excel], lines 27-84 are Reducer.v's [process_csv];
    [process_csv_loop] runs them as the code does, each [next(reader)]
    (CsvIter.v) followed by the loop body, and equals [process_csv_stream]
    with enough calls.  Lines
    95-104 are [respond]: the frame is written with Xlsx.v's [to_excel],
    an exception there (a control character in a value, a frame larger
    than a worksheet) answers HTTP 500 like any other, and otherwise the
    response carries the written sheet, its name, the download name and the
    MIME type; the bytes of the xlsx archive are not modelled. *)

From Stdlib Require Import Ascii ZArith.
From stdpp Require Import base list relations strings.
From S2P Require Import Prelude PyStr Csv Iter CsvIter PyDict Reducer ReducerSpec Xlsx.
Import CsvReader CsvIter Xlsx.

Record upload := mk_upload { filename : string; content : string }.

Record request := mk_request { files : list (string * upload) }.

Inductive response :=
| Abort (code : Z) (description : string)
| SendFile (download_name : string) (mimetype : string) (sheet_name : string) (table : sheet)
| ServerError (e : exn).

Definition xlsx_mimetype : string :=
  "application/vnd.openxmlformats-officedocument.spreadsheetml.sheet".

(** Line 91: [f.filename == "" or not f.filename.lower().endswith(".csv")]. *)
Definition invalid_filename (name : string) : bool :=
  bool_decide (name = "") || negb (py_endswith (py_lower name) ".csv").

(** Lines 95-104: write the frame to the sheet ["Summary"] and send the
    workbook; an exception of the writer is a server error. *)
Definition respond (df : frame) : response :=
  match to_excel df with
  | Ok sh => SendFile "Driver_Paperwork_Summary.xlsx" xlsx_mimetype "Summary" sh
  | Raise e => ServerError e
  end.

Section Endpoint.
Context `{PyDict D}.

(** [process_csv(stream)]: the rows of [csv.reader(io.StringIO(text))],
    reduced; an error of the reader propagates. *)
Definition process_csv_stream (text : string) : result frame :=
  let* rows := csv_reader excel text in process_csv (D:=D) rows.

(** Lines 26-84 as the code runs them: [for row in reader] interleaves
    the reader's [next] calls with the loop body, an exception of either
    ending the loop; at most [fuel] calls of [next]. *)
Definition process_csv_loop (fuel : nat) (text : string) : option (result frame) :=
  (λ res : result (scan D), let* st := res in Ok (build_frame (dict_items (driver_data st))))
    <$> for_in fuel process_row init_scan (csv_reader_obj excel text).

(** [process()] *)
Definition process (req : request) : response :=
  match assoc_get "file" (files req) with
  | None => Abort 400 "No file part"
  | Some f =>
      if invalid_filename (filename f) then Abort 400 "Invalid file"
      else match process_csv_stream (content f) with
           | Ok df => respond df
           | Raise e => ServerError e
           end
  end.
End Endpoint.

(** ** Properties of the handler *)

Section EndpointProps.
Context `{PyDictLaws D}.

Lemma init_scan_wf : scan_wf (init_scan (D:=D)).
Proof. split_and!; [apply dict_wf_empty|done|done]. Qed.

Lemma process_rows_foldM (st : scan D) rows : process_rows st rows = foldM process_row st rows.
Proof. revert st. induction rows as [|r rows IH]; intros st; simpl; [done|]. by destruct (process_row st r). Qed.

(** Claim C11: lines 26-84 as the code runs them, each [next(reader)]
    followed by the loop body on the row it yields, give, with one more
    [next] call than the text has lines, the result of reading every row
    first and reducing them afterwards ([process_csv_stream]): the body
    never raises, so an error of the reader ends both the same way. *)
Theorem process_csv_for_loop text fuel :
  length (stringio_lines text) < fuel →
  process_csv_loop (D:=D) fuel text = Some (process_csv_stream (D:=D) text).
Proof.
  intros Hf. unfold process_csv_loop, process_csv_stream, process_csv.
  rewrite (for_in_foldM (X:=row) (λ ro, length (input_iter ro)) Reader_iternext_progress process_row
             scan_wf process_row_wf reader_rows reader_rows_next fuel init_scan
             (csv_reader_obj excel text) Hf init_scan_wf).
  simpl. unfold reader_rows, csv_reader. simpl.
  destruct (read_lines excel parse_reset (stringio_lines text)); simpl; [|done].
  by rewrite process_rows_foldM.
Qed.

(** Claim C13: the loop of line 31 over the upload's reader keeps turning,
    the body returning on every row, until [next(reader)] raises
    [StopIteration] or an error: no row of any upload makes the body
    raise. *)
Theorem process_loop_reaches_stop text :
  ∃ c, rtc (loop_step (process_row (D:=D))) (csv_reader_obj excel text, init_scan) c
       ∧ loop_stop c.
Proof.
  apply (loop_reaches_stop (λ ro, length (input_iter ro)) Reader_iternext_progress
           process_row scan_wf process_row_wf), init_scan_wf.
Qed.

(** A request without a ["file"] part is answered
    [400 "No file part"]. *)
Theorem process_missing_file req :
  assoc_get "file" (files req) = None → process (D:=D) req = Abort 400 "No file part".
Proof. intros E. unfold process. by rewrite E. Qed.

(** A file name is accepted exactly when it is non-empty and its
    lower-cased form is some text followed by [.csv]; so ["DATA.CSV"] is
    accepted and ["data.csv.txt"] is not. *)
Lemma invalid_filename_spec name :
  invalid_filename name = false ↔ name ≠ "" ∧ ∃ p, py_lower name = p +:+ ".csv".
Proof.
  unfold invalid_filename. rewrite orb_false_iff, negb_false_iff, bool_decide_eq_false.
  by rewrite py_endswith_spec.
Qed.

(** Claim C38: an upload whose name is empty, or whose name, lower-cased,
    does not end in [.csv] ([report.xlsx], [data.txt], [data.csv.txt]), is
    answered [400 "Invalid file"] and never read. *)
Theorem process_invalid_file req f :
  assoc_get "file" (files req) = Some f →
  filename f = "" ∨ ¬ (∃ p, py_lower (filename f) = p +:+ ".csv") →
  process (D:=D) req = Abort 400 "Invalid file".
Proof.
  intros E Hn. unfold process. rewrite E.
  destruct (invalid_filename (filename f)) eqn:Ei; [done|].
  apply invalid_filename_spec in Ei. naive_solver.
Qed.

(** Claim C26: a driver named by a header row ["Driver: =..."] of an
    upload (a name starting with ["="], of 2 to 32767 characters) is
    written into column A of the downloaded workbook as a formula cell,
    not as text, for every upload with a valid name that the reader and
    the writer accept: the uploaded file controls formulas of the
    report. *)
Theorem process_formula_driver req f rows c0 rest :
  assoc_get "file" (files req) = Some f → invalid_filename (filename f) = false →
  csv_reader excel (content f) = Ok rows →
  (Z.of_nat (length (summary rows)) ≤ max_rows)%Z → frame_legal (build_frame (summary rows)) = true →
  c0 :: rest ∈ rows → py_startswith c0 "Driver:" = true →
  (1 < String.length (header_name c0) ≤ max_string_length)%nat →
  py_startswith (header_name c0) "=" = true →
  ∃ sh i, process (D:=D) req = SendFile "Driver_Paperwork_Summary.xlsx" xlsx_mimetype "Summary" sh
          ∧ sheet_cell sh (S (S i)) 1 = Some (mk_cell TYPE_FORMULA (header_name c0)).
Proof.
  intros E Hi Hc Hn Hl Hin Es Hlen Hf.
  assert (Hr : (Z.of_nat (length (frame_rows (build_frame (summary rows)))) ≤ max_rows)%Z)
    by by rewrite build_frame_rows_length.
  pose proof (build_frame_columns_length (summary rows)).
  destruct (to_excel_exists (build_frame (summary rows)) Hr ltac:(unfold max_cols; lia) Hl)
    as [sh Hsh].
  pose proof (elem_of_header_names_events None rows c0 rest Hin Es) as Hd.
  rewrite <- elem_of_nub in Hd. apply list_elem_of_lookup in Hd as [i Hd].
  exists sh, i. split.
  - unfold process, process_csv_stream. rewrite E, Hi, Hc, process_csv_summary. simpl.
    unfold respond. by rewrite Hsh.
  - rewrite <- typed_cell_formula by done.
    apply (to_excel_body_cell (build_frame (summary rows)) sh i 0 [header_name c0; truck (driver_record (header_name c0) (events rows));
      paperwork_date (driver_record (header_name c0) (events rows));
      trip_id (driver_record (header_name c0) (events rows))]); [done|apply build_frame_rectangular| |done].
    rewrite build_frame_rows. unfold summary, events. by rewrite !list_lookup_fmap, Hd.
Qed.

(** Claim C7: an upload with a valid name is answered with the download
    [Driver_Paperwork_Summary.xlsx], sheet ["Summary"], holding the
    per-driver summary of the rows [csv.reader] reads from it, written by
    [to_excel]; the reducer never fails, so the only server errors after
    validation are those of the reader and of the writer. *)
Theorem process_valid_file req f :
  assoc_get "file" (files req) = Some f → invalid_filename (filename f) = false →
  process (D:=D) req =
    match csv_reader excel (content f) with
    | Ok rows => respond (build_frame (summary rows))
    | Raise e => ServerError e
    end.
Proof.
  intros E Hi. unfold process, process_csv_stream. rewrite E, Hi.
  destruct (csv_reader excel (content f)); [|done]. by rewrite process_csv_summary.
Qed.

(** Uploading, under a valid name, a table written with every
    field quoted answers with the summary of that very table. *)
Theorem process_written_table req f rows :
  assoc_get "file" (files req) = Some f → invalid_filename (filename f) = false →
  content f = render_rows rows → Forall (Forall field_fits) rows →
  process (D:=D) req = respond (build_frame (summary rows)).
Proof.
  intros E Hi Hc Hrows. unfold process, process_csv_stream. rewrite E, Hi, Hc.
  by rewrite csv_reader_render, process_csv_summary.
Qed.

(** Claim C24: an upload with a valid name whose text has a carriage return
    outside quotes not followed by a line feed (classic Mac line endings)
    is answered with a server error ([_csv.Error], HTTP 500), not with a
    summary nor a 400: the error path the specification rules out. *)
Theorem process_lone_cr req f rows a c b :
  assoc_get "file" (files req) = Some f → invalid_filename (filename f) = false →
  content f = render_rows rows +:+ a +:+ String cr (String c b) →
  Forall (Forall field_fits) rows → str_forallb plain_char a = true → c ≠ cr → c ≠ lf →
  process (D:=D) req = ServerError CsvError.
Proof.
  intros E Hi Hc Hrows Ha Hcr Hlf. unfold process, process_csv_stream. rewrite E, Hi, Hc.
  by rewrite csv_reader_lone_cr.
Qed.

(** Claim C25: an upload with a valid name whose summary holds a value with
    an ASCII control character (other than tab, line feed and carriage
    return) in its first 32767 characters, a driver name for instance, is
    answered with a server error: openpyxl refuses the value
    ([IllegalCharacterError]) and nothing is sent. *)
Theorem process_illegal_value req f rows v :
  assoc_get "file" (files req) = Some f → invalid_filename (filename f) = false →
  csv_reader excel (content f) = Ok rows →
  (Z.of_nat (length (summary rows)) ≤ max_rows)%Z →
  frame_value (build_frame (summary rows)) v → legal v = false →
  process (D:=D) req = ServerError IllegalCharacterError.
Proof.
  intros E Hi Hc Hn Hv Hl. unfold process, process_csv_stream. rewrite E, Hi, Hc.
  simpl. rewrite process_csv_summary. unfold respond.
  rewrite (to_excel_illegal _ v); [done| |pose proof (build_frame_columns_length (summary rows));
    unfold max_cols; lia|apply build_frame_rectangular|done|done].
  by rewrite build_frame_rows_length.
Qed.
End EndpointProps.

Lemma invalid_filename_spec_witness :
  invalid_filename "DATA.CSV" = false ∧ ("DATA.CSV" ≠ "" ∧ ∃ p, py_lower "DATA.CSV" = p +:+ ".csv").
Proof. split; [reflexivity|]. apply invalid_filename_spec. reflexivity. Defined.

(** A CSV export with classic Mac line endings. *)
Definition mac_export : string :=
  "Driver: Jane Doe" +:+ String cr ("T100,TRK9" +:+ String cr EmptyString).

Definition sample_table : list row :=
  [["Driver: Jane Doe, ID123"];
   [""; "T100"; ""; ""; "TRK9"; ""; "Jane"; ""; ""; ""; ""; ""; ""; "01/01/2024"]].

Definition sample_request (name : string) (text : string) : request :=
  mk_request [("file", mk_upload name text)].

Lemma process_missing_file_witness :
  process (D:=assoc) (mk_request [("upload", mk_upload "a.csv" "")]) = Abort 400 "No file part".
Proof. apply process_missing_file. reflexivity. Defined.

Lemma process_invalid_file_witness :
  process (D:=assoc) (sample_request "data.txt" "") = Abort 400 "Invalid file".
Proof.
  apply (process_invalid_file _ (mk_upload "data.txt" "")); [reflexivity|right].
  intros Hp%py_endswith_spec. vm_compute in Hp. discriminate.
Defined.

Lemma process_valid_file_witness :
  process (D:=assoc) (sample_request "Report.CSV" (render_rows sample_table)) =
    respond (build_frame (summary sample_table)).
Proof. rewrite (process_valid_file _ (mk_upload "Report.CSV" (render_rows sample_table))); vm_compute; reflexivity. Defined.

Lemma process_written_table_witness :
  process (D:=assoc) (sample_request "Report.CSV" (render_rows sample_table)) =
    respond (build_frame (summary sample_table)).
Proof.
  eapply process_written_table; [reflexivity..|].
  repeat constructor; unfold field_fits, field_limit; simpl; lia.
Defined.

Lemma process_lone_cr_witness :
  process (D:=assoc) (sample_request "export.csv" mac_export) = ServerError CsvError.
Proof.
  apply (process_lone_cr _ (mk_upload "export.csv" mac_export) [] "Driver: Jane Doe" "T"%char
           ("100,TRK9" +:+ String cr EmptyString));
    [reflexivity|reflexivity|reflexivity|constructor|vm_compute; reflexivity|discriminate|discriminate].
Defined.

(** The spec's scenario as the file a user uploads: the header line is not
    quoted, so [csv.reader] splits it at its comma. *)
Definition jane_doe_export : string :=
  "Driver: Jane Doe, ID123" +:+ String lf (",T100,,,TRK9,,Jane,,,,,,,01/01/2024" +:+ String lf EmptyString).

(** Uploading the spec's scenario as plain CSV text answers
    with the single summary row Jane Doe / TRK9 / 01/01/2024 / T100: the
    header line, split by the reader into [Driver: Jane Doe] and [ ID123],
    still names the driver [Jane Doe]. *)
Example process_jane_doe_export :
  process (D:=assoc) (sample_request "drivers.csv" jane_doe_export) =
    respond (mk_frame summary_columns [["Jane Doe"; "TRK9"; "01/01/2024"; "T100"]]).
Proof. vm_compute. reflexivity. Qed.

(** A file whose driver names a formula. *)
Definition formula_export : string :=
  "Driver: =HYPERLINK(A1)" +:+ String lf (",T7,,,TRK1,,X,,,,,,,02/02/2024" +:+ String lf EmptyString).

Lemma process_formula_driver_witness :
  ∃ sh i, process (D:=assoc) (sample_request "drivers.csv" formula_export) =
            SendFile "Driver_Paperwork_Summary.xlsx" xlsx_mimetype "Summary" sh
          ∧ sheet_cell sh (S (S i)) 1
            = Some (mk_cell TYPE_FORMULA (header_name "Driver: =HYPERLINK(A1)")).
Proof.
  apply (process_formula_driver (D:=assoc) _ (mk_upload "drivers.csv" formula_export)
           [["Driver: =HYPERLINK(A1)"]; [""; "T7"; ""; ""; "TRK1"; ""; "X"; ""; ""; ""; ""; ""; ""; "02/02/2024"]]
           "Driver: =HYPERLINK(A1)" []);
    [reflexivity|reflexivity|vm_compute; reflexivity|vm_compute; congruence|vm_compute; reflexivity
    |by left|reflexivity
    |split; [apply Nat.ltb_lt|apply Nat.leb_le]; vm_compute; reflexivity|reflexivity].
Defined.

(** A driver name holding the control character U+0001. *)
Definition control_export : string :=
  ("Driver: A" +:+ String "001"%char "B") +:+ String lf EmptyString.

Lemma process_illegal_value_witness :
  process (D:=assoc) (sample_request "drivers.csv" control_export) = ServerError IllegalCharacterError.
Proof.
  apply (process_illegal_value _ (mk_upload "drivers.csv" control_export) [["Driver: A" +:+ String "001"%char "B"]]
           ("A" +:+ String "001"%char "B"));
    [reflexivity|reflexivity|vm_compute; reflexivity|vm_compute; discriminate| |vm_compute; reflexivity].
  right. eexists. split; vm_compute; constructor.
Defined.

Lemma process_csv_for_loop_witness :
  process_csv_loop (D:=assoc) 3 jane_doe_export = Some (process_csv_stream (D:=assoc) jane_doe_export).
Proof. apply process_csv_for_loop. vm_compute. lia. Defined.

Lemma process_loop_reaches_stop_witness :
  ∃ c, rtc (loop_step (process_row (D:=assoc))) (csv_reader_obj excel jane_doe_export, init_scan) c
       ∧ loop_stop c.
Proof. apply process_loop_reaches_stop. Defined.
